(** * MediLink web client: reminder scheduler, AQI categoriser, symptom triage

    A shallow embedding of the three pieces of logic of the client
    ([pages/Reminders.tsx], the AQI page and [services/symptomChecker.ts])
    and of the code around them (the dialog and the mount effects of
    the reminders page, the category and the advice of the AQI page,
    the symptom panel of [pages/Dashboard.tsx]), together with the
    properties established about them.  The embedding comes first
    ([JsString], [Json], [Reminders], [Aqi64], [SymptomChecker],
    [Scenario], [JsArray], [RemindersPage], [AqiPage], [Dashboard]);
    the properties follow ([SchedulerFacts], [Aqi64Facts],
    [TriageFacts], [RemindersPageFacts], [AqiPageFacts],
    [AnalysisFacts]).

    Conventions of the embedding:
    - a JavaScript string is a [string] whose characters are the code units
      of the text; the model covers code units below 256;
    - [undefined] is [None];
    - an object used as an ordered dictionary ([Object.entries]) is an
      association list in insertion order;
    - React state is passed explicitly. *)

From Stdlib Require Import ZArith QArith Qround List String Ascii Bool Lia Lqa.
From Stdlib Require Import DecimalString Floats Sorted.
Import ListNotations.

Set Warnings "-inexact-float".

Local Open Scope string_scope.
Local Open Scope Z_scope.

(* ================================================================== *)
(** * JavaScript string primitives used by the sources *)
(* ================================================================== *)

Module JsString.

Definition code (c : ascii) : N := N_of_ascii c.

(** [String.prototype.toLowerCase] on one code unit: A-Z, and the
    Latin-1 capitals U+00C0..U+00DE except the multiplication sign. *)
Definition lowerChar (c : ascii) : ascii :=
  let n := code c in
  if ((65 <=? n) && (n <=? 90))%N then ascii_of_N (n + 32)
  else if ((192 <=? n) && (n <=? 222) && negb (n =? 215))%N then ascii_of_N (n + 32)
  else c.

Fixpoint toLowerCase (s : string) : string :=
  match s with
  | EmptyString => EmptyString
  | String c r => String (lowerChar c) (toLowerCase r)
  end.

(** White space and line terminators ([trim], and [\s] in a regular
    expression): TAB, LF, VT, FF, CR, SPACE, NBSP. *)
Definition isWhiteSpace (c : ascii) : bool :=
  let n := code c in
  (((9 <=? n) && (n <=? 13)) || (n =? 32) || (n =? 160))%N.

Fixpoint trimStart (s : string) : string :=
  match s with
  | EmptyString => EmptyString
  | String c r => if isWhiteSpace c then trimStart r else s
  end.

(** [trimEnd]: drop the trailing run of white space. *)
Fixpoint trimEnd (s : string) : string :=
  match s with
  | EmptyString => EmptyString
  | String c r =>
      match trimEnd r with
      | EmptyString => if isWhiteSpace c then EmptyString else String c EmptyString
      | r' => String c r'
      end
  end.

Definition trim (s : string) : string := trimEnd (trimStart s).

(** [hay.includes(needle)]. *)
Fixpoint includes (hay needle : string) : bool :=
  prefix needle hay
  || match hay with
     | EmptyString => false
     | String _ r => includes r needle
     end.

(** [s.split(/[...]/)] for a one-character class [sep]. *)
Fixpoint split (sep : ascii -> bool) (s : string) : list string :=
  match s with
  | EmptyString => [EmptyString]
  | String c r =>
      if sep c then EmptyString :: split sep r
      else match split sep r with
           | h :: t => String c h :: t
           | [] => [String c EmptyString]
           end
  end.

(** Truthiness of a string: [Boolean(s)]. *)
Definition truthy (s : string) : bool :=
  match s with EmptyString => false | _ => true end.

(** [xs.slice(0, n)]. *)
Definition slice0 {A} (n : nat) (xs : list A) : list A := firstn n xs.

(** [s.padStart(n, "0")]. *)
Fixpoint zeros (k : nat) : string :=
  match k with O => EmptyString | S k' => String "0" (zeros k') end.

Definition padStart0 (n : nat) (s : string) : string :=
  zeros (n - String.length s) ++ s.

(** [String(n)] for a non-negative integer. *)
Definition ofNat (n : Z) : string :=
  NilZero.string_of_uint (N.to_uint (Z.to_N n)).

End JsString.

(* ================================================================== *)
(** * Values produced by [JSON.parse] *)
(* ================================================================== *)

Module Json.

(** An object is the list of its own properties; [JSON.parse] yields
    each key once. *)
#[local] Set Warnings "-register-all".
Inductive json : Type :=
| JNull
| JBool (b : bool)
| JNum (q : Q)
| JStr (s : string)
| JArr (items : list json)
| JObj (fields : list (string * json)).

Fixpoint lookup (k : string) (fs : list (string * json)) : option json :=
  match fs with
  | [] => None
  | (k', v) :: rest => if String.eqb k k' then Some v else lookup k rest
  end.

(** [item.k] for a parsed value that is not [null]; [None] is
    [undefined].  Arrays, like objects, have [typeof] "object", but
    carry none of the keys read here. *)
Definition prop (k : string) (item : json) : option json :=
  match item with
  | JObj fs => lookup k fs
  | _ => None
  end.

Definition isString (v : option json) : bool :=
  match v with Some (JStr _) => true | _ => false end.

Definition isBoolean (v : option json) : bool :=
  match v with Some (JBool _) => true | _ => false end.

(** [typeof item === "object" && item !== null]. *)
Definition isNonNullObject (item : json) : bool :=
  match item with
  | JArr _ | JObj _ => true
  | _ => false
  end.

End Json.

(* ================================================================== *)
(** * pages/Reminders.tsx *)
(* ================================================================== *)

Module Reminders.
Import Json.

(** [Reminder["repeat"]]: "none" | "daily" | "weekly". *)
Inductive Repeat : Type := RepeatNone | Daily | Weekly.

Record Reminder : Type := mkReminder {
  id : string;
  title : string;
  time : string;                      (* "HH:MM" 24h *)
  enabled : bool;
  repeat : Repeat;
  daysOfWeek : option (list Z);       (* 0-6 Sun..Sat for weekly *)
  lastTriggeredKey : option string;   (* yyyy-mm-dd-HH:MM *)
  nextSnoozeAt : option Z             (* epoch ms *)
}.

(** ** Shape validation of a persisted value *)

Definition repeatOptions : list string := ["none"; "daily"; "weekly"].

Definition isRepeatOption (value : string) : bool :=
  existsb (String.eqb value) repeatOptions.

(** The callback of [value.every(...)] in [isReminderArray]. *)
Definition isReminderItem (item : json) : bool :=
  if negb (isNonNullObject item) then false
  else
    isString (prop "id" item)
    && isString (prop "title" item)
    && isString (prop "time" item)
    && isBoolean (prop "enabled" item)
    && match prop "repeat" item with
       | Some (JStr s) => isRepeatOption s
       | _ => false
       end.

Definition isReminderArray (value : json) : bool :=
  match value with
  | JArr items => forallb isReminderItem items
  | _ => false
  end.

(** What [localStorage.getItem(STORAGE_KEY)] holds, seen through
    [JSON.parse]: nothing or the empty string ([!raw]), text on which
    [JSON.parse] throws, or text that parses to a value. *)
Inductive Stored : Type :=
| NoValue
| Unparsable
| Parsed (value : json).

(** The load effect, run once on the initial state [[]]: the list of
    reminders held in memory afterwards, as the parsed objects. *)
Definition load (s : Stored) : list json :=
  match s with
  | NoValue => []
  | Unparsable => []
  | Parsed parsed => if isReminderArray parsed then
                       match parsed with JArr items => items | _ => [] end
                     else []
  end.

(** ** Reading a parsed object at type [Reminder]

    The type guard of [isReminderArray] lets the parsed objects be used
    as [Reminder]s without a conversion.  [asReminder] is that reading,
    defined when the optional fields, where present, have the declared
    types. *)

Definition asInteger (q : Q) : option Z :=
  if Qeq_bool q (inject_Z (Qfloor q)) then Some (Qfloor q) else None.

Definition asRepeat (s : string) : option Repeat :=
  if String.eqb s "none" then Some RepeatNone
  else if String.eqb s "daily" then Some Daily
  else if String.eqb s "weekly" then Some Weekly
  else None.

Fixpoint asIntegers (items : list json) : option (list Z) :=
  match items with
  | [] => Some []
  | JNum q :: rest =>
      match asInteger q, asIntegers rest with
      | Some z, Some zs => Some (z :: zs)
      | _, _ => None
      end
  | _ :: _ => None
  end.

Definition asReminder (item : json) : option Reminder :=
  match prop "id" item, prop "title" item, prop "time" item,
        prop "enabled" item, prop "repeat" item with
  | Some (JStr i), Some (JStr t), Some (JStr tm), Some (JBool e), Some (JStr rp) =>
      match asRepeat rp with
      | None => None
      | Some rp' =>
          let days :=
            match prop "daysOfWeek" item with
            | None => Some None
            | Some (JArr ds) => option_map Some (asIntegers ds)
            | Some _ => None
            end in
          let key :=
            match prop "lastTriggeredKey" item with
            | None => Some None
            | Some (JStr k) => Some (Some k)
            | Some _ => None
            end in
          let snooze :=
            match prop "nextSnoozeAt" item with
            | None => Some None
            | Some (JNum q) => option_map Some (asInteger q)
            | Some _ => None
            end in
          match days, key, snooze with
          | Some d, Some k, Some s => Some (mkReminder i t tm e rp' d k s)
          | _, _, _ => None
          end
      end
  | _, _, _, _, _ => None
  end.

(** [JSON.parse(JSON.stringify(r))]: a field that is [undefined] is
    left out. *)
Definition repeatString (r : Repeat) : string :=
  match r with RepeatNone => "none" | Daily => "daily" | Weekly => "weekly" end.

Definition optField (k : string) (v : option json) : list (string * json) :=
  match v with Some x => [(k, x)] | None => [] end.

Definition toJson (r : Reminder) : json :=
  JObj ([("id", JStr (id r)); ("title", JStr (title r)); ("time", JStr (time r));
         ("enabled", JBool (enabled r)); ("repeat", JStr (repeatString (repeat r)))]
        ++ optField "daysOfWeek"
             (option_map (fun ds => JArr (map (fun z => JNum (inject_Z z)) ds)) (daysOfWeek r))
        ++ optField "lastTriggeredKey" (option_map JStr (lastTriggeredKey r))
        ++ optField "nextSnoozeAt" (option_map (fun z => JNum (inject_Z z)) (nextSnoozeAt r))).

(** The save effect, [localStorage.setItem(STORAGE_KEY, JSON.stringify(reminders))]:
    what a later load finds under the key. *)
Definition save (rs : list Reminder) : Stored := Parsed (JArr (map toJson rs)).

(** ** Page state and user actions *)

(** The collection, the reminder whose alarm is active, and whether
    the page has called [startAlarm()] and has not called
    [stopAlarm()] since.  (Whether the tone plays, the [isPlaying] of
    [useAlarm], depends also on the audio context of the platform,
    which the page does not look at.) *)
Record State : Type := mkState {
  reminders : list Reminder;
  activeReminderId : option string;
  alarmRequested : bool
}.

Definition withReminders (st : State) (rs : list Reminder) : State :=
  mkState rs (activeReminderId st) (alarmRequested st).

Record Form : Type := mkForm {
  formTitle : string;
  formTime : string;
  formEnabled : bool;
  formRepeat : Repeat;
  formWeekDays : list Z
}.

(** [[...formWeekDays].sort()]: the default sort compares the decimal
    spellings; on the single digits 0..6 the day buttons produce, that
    is the numeric order. *)
Fixpoint insertDay (d : Z) (ds : list Z) : list Z :=
  match ds with
  | [] => [d]
  | x :: rest => if d <=? x then d :: ds else x :: insertDay d rest
  end.

Definition sortDays (ds : list Z) : list Z := fold_right insertDay [] ds.

(** [addReminder]; [uuid] is the result of [crypto.randomUUID()]. *)
Definition addReminder (uuid : string) (f : Form) (prev : list Reminder) : list Reminder :=
  if negb (JsString.truthy (JsString.trim (formTitle f))) || negb (JsString.truthy (formTime f))
  then prev
  else
    let r := {| id := uuid;
                title := JsString.trim (formTitle f);
                time := formTime f;
                enabled := formEnabled f;
                repeat := formRepeat f;
                daysOfWeek := match formRepeat f with
                              | Weekly => Some (sortDays (formWeekDays f))
                              | _ => None
                              end;
                lastTriggeredKey := None;
                nextSnoozeAt := None |} in
    prev ++ [r].

Definition removeReminder (i : string) (prev : list Reminder) : list Reminder :=
  filter (fun r => negb (String.eqb (id r) i)) prev.

Definition toggleReminder (i : string) (prev : list Reminder) : list Reminder :=
  map (fun r => if String.eqb (id r) i
                then mkReminder (id r) (title r) (time r) (negb (enabled r)) (repeat r)
                                (daysOfWeek r) (lastTriggeredKey r) (nextSnoozeAt r)
                else r) prev.

(** ** Scheduler *)

(** The readings of the clock taken by one tick. *)
Record Clock : Type := mkClock {
  nowMs : Z;          (* Date.now() *)
  hours : Z;          (* now.getHours() *)
  minutes : Z;        (* now.getMinutes() *)
  isoDate : string;   (* new Date().toISOString().slice(0, 10) *)
  day : Z             (* now.getDay(), 0..6 *)
}.

Definition currentTime (c : Clock) : string :=
  JsString.padStart0 2 (JsString.ofNat (hours c)) ++ ":"
  ++ JsString.padStart0 2 (JsString.ofNat (minutes c)).

Definition currentKey (c : Clock) : string :=
  isoDate c ++ "-" ++ currentTime c.

(** [triggerReminder]: the updater passed to [setReminders], then the
    whole state change, [startAlarm()] being called. *)
Definition markTriggered (remId key : string) (r : Reminder) : Reminder :=
  if negb (String.eqb (id r) remId) then r
  else
    let nextEnabled := match repeat r with RepeatNone => false | _ => enabled r end in
    mkReminder (id r) (title r) (time r) nextEnabled (repeat r)
               (daysOfWeek r) (Some key) (nextSnoozeAt r).

Definition triggerReminder (rem : Reminder) (key : string) (st : State) : State :=
  {| reminders := map (markTriggered (id rem) key) (reminders st);
     activeReminderId := Some (id rem);
     alarmRequested := true |}.

(** [r.nextSnoozeAt && Date.now() >= r.nextSnoozeAt]: a time stamp of
    0 is falsy. *)
Definition snoozeDue (c : Clock) (r : Reminder) : bool :=
  match nextSnoozeAt r with
  | Some t => negb (t =? 0) && (t <=? nowMs c)
  | None => false
  end.

Definition keyIs (k : option string) (key : string) : bool :=
  match k with Some k' => String.eqb k' key | None => false end.

(** The checks below the snooze check: time of day, dedup key, weekday. *)
Definition timeDue (c : Clock) (r : Reminder) : bool :=
  if negb (String.eqb (time r) (currentTime c)) then false
  else if keyIs (lastTriggeredKey r) (currentKey c) then false
  else match repeat r with
       | Weekly =>
           match daysOfWeek r with
           | None => false
           | Some ds => existsb (Z.eqb (day c)) ds
           end
       | _ => true
       end.

(** One pass of the loop body: [true] is "trigger and break", [false]
    is "continue". *)
Definition fires (c : Clock) (r : Reminder) : bool :=
  if negb (enabled r) then false
  else if snoozeDue c r then true
  else timeDue c r.

(** The [for ... of reminders] loop: the reminder handed to
    [triggerReminder], if any. *)
Fixpoint scan (c : Clock) (rs : list Reminder) : option Reminder :=
  match rs with
  | [] => None
  | r :: rest => if fires c r then Some r else scan c rest
  end.

(** The interval callback. *)
Definition tick (c : Clock) (st : State) : State :=
  match reminders st with
  | [] => st
  | _ => match scan c (reminders st) with
         | Some r => triggerReminder r (currentKey c) st
         | None => st
         end
  end.

Definition stopActiveAlarm (st : State) : State :=
  mkState (reminders st) None false.

(** [snoozeActive]; [now] is [Date.now()]. *)
Definition snoozeActive (now minutes : Z) (st : State) : State :=
  match activeReminderId st with
  | None => st
  | Some a =>
      if negb (JsString.truthy a) then st
      else
        let snoozeUntil := now + minutes * 60 * 1000 in
        stopActiveAlarm
          (withReminders st
             (map (fun r => if String.eqb (id r) a
                            then mkReminder (id r) (title r) (time r) (enabled r) (repeat r)
                                            (daysOfWeek r) (lastTriggeredKey r) (Some snoozeUntil)
                            else r) (reminders st)))
  end.

(** Successive ticks of the interval: the state they leave, and the
    ids of the reminders handed to [triggerReminder], in order. *)
Fixpoint ticks (cs : list Clock) (st : State) : State :=
  match cs with
  | [] => st
  | c :: rest => ticks rest (tick c st)
  end.

Fixpoint triggeredBy (cs : list Clock) (st : State) : list string :=
  match cs with
  | [] => []
  | c :: rest =>
      match scan c (reminders st) with
      | Some r => id r :: triggeredBy rest (tick c st)
      | None => triggeredBy rest (tick c st)
      end
  end.

(** ** The predicates the properties are stated with *)

(** [daysOfWeek] is defined exactly when [repeat] is weekly. *)
Definition daysInvariant (r : Reminder) : Prop :=
  daysOfWeek r <> None <-> repeat r = Weekly.

(** A fresh time match of an enabled reminder: the time equals the
    current HH:MM, the dedup key is not the current composite key, and
    a weekly reminder lists the current weekday. *)
Definition freshTimeMatch (c : Clock) (r : Reminder) : Prop :=
  enabled r = true
  /\ time r = currentTime c
  /\ lastTriggeredKey r <> Some (currentKey c)
  /\ (repeat r = Weekly -> exists ds, daysOfWeek r = Some ds /\ In (day c) ds).

(** An enabled reminder is snooze-due: [nextSnoozeAt] is set (and is
    not the falsy 0) and the current instant is at or past it. *)
Definition snoozeDueEnabled (c : Clock) (r : Reminder) : Prop :=
  enabled r = true
  /\ exists t, nextSnoozeAt r = Some t /\ t <> 0 /\ t <= nowMs c.

(** What the load guard asks of a persisted element: an object
    whose [id], [title] and [time] are strings, whose [enabled] is a
    boolean and whose [repeat] is one of the three repeat options.
    The guard looks at nothing else; the Reminder record of the data
    model is [wellFormedReminder] below. *)
Definition wellFormedItem (item : json) : Prop :=
  exists fs i t tm e rp,
    item = JObj fs
    /\ lookup "id" fs = Some (JStr i)
    /\ lookup "title" fs = Some (JStr t)
    /\ lookup "time" fs = Some (JStr tm)
    /\ lookup "enabled" fs = Some (JBool e)
    /\ lookup "repeat" fs = Some (JStr rp)
    /\ In rp ["none"; "daily"; "weekly"].

(** ** The Reminder record of the data model

    The record as the specification words it: [id] an identifier,
    [title] a non-empty label, [time] a time of day in 24-hour HH:MM
    form, [enabled] a boolean, [repeat] one of none, daily and
    weekly, [daysOfWeek] a set of weekday indices 0..6 that is
    present exactly when [repeat] is weekly, [lastTriggeredKey] a
    key when present, and [nextSnoozeAt] a time stamp when present. *)

Definition isDigit (c : ascii) : bool :=
  ((48 <=? JsString.code c) && (JsString.code c <=? 57))%N.

Definition digitValue (c : ascii) : N := (JsString.code c - 48)%N.

Definition isTimeOfDay (s : string) : bool :=
  match s with
  | String h1 (String h2 (String sep (String m1 (String m2 EmptyString)))) =>
      isDigit h1 && isDigit h2 && Ascii.eqb sep ":" && isDigit m1 && isDigit m2
      && (10 * digitValue h1 + digitValue h2 <=? 23)%N
      && (10 * digitValue m1 + digitValue m2 <=? 59)%N
  | _ => false
  end.

Definition isWeekdayIndex (v : json) : bool :=
  match v with
  | JNum q =>
      match asInteger q with
      | Some z => (0 <=? z) && (z <=? 6)
      | None => false
      end
  | _ => false
  end.

Definition wellFormedReminder (item : json) : Prop :=
  exists fs i t tm e rp,
    item = JObj fs
    /\ lookup "id" fs = Some (JStr i)
    /\ lookup "title" fs = Some (JStr t) /\ t <> ""
    /\ lookup "time" fs = Some (JStr tm) /\ isTimeOfDay tm = true
    /\ lookup "enabled" fs = Some (JBool e)
    /\ lookup "repeat" fs = Some (JStr rp) /\ In rp ["none"; "daily"; "weekly"]
    /\ match lookup "daysOfWeek" fs with
       | None => rp <> "weekly"
       | Some (JArr ds) => rp = "weekly" /\ forallb isWeekdayIndex ds = true
       | Some _ => False
       end
    /\ match lookup "lastTriggeredKey" fs with
       | None | Some (JStr _) => True
       | Some _ => False
       end
    /\ match lookup "nextSnoozeAt" fs with
       | None | Some (JNum _) => True
       | Some _ => False
       end.

End Reminders.

(* ================================================================== *)
(** * The AQI page: the [category] memo *)
(* ================================================================== *)

(** The numbers of the page are doubles: concentrations, table
    entries and indices are [float]s, the comparisons and the
    arithmetic are those of IEEE 754 binary64, and the literals of
    the tables denote the doubles JavaScript reads them as. *)
Module Aqi64.

Record Breakpoint : Type := mkBreakpoint {
  Clow : float;
  Chigh : float;
  Ilow : float;
  Ihigh : float
}.

(** [Math.round] on a double: the value is m * 2^e; a double with
    e >= 0 is an integer already, and otherwise floor (x + 1/2) is
    computed on the integers and is below 2^53 in absolute value. *)
Definition Math_round (x : float) : float :=
  match Prim2SF x with
  | S754_finite s m e =>
      if (0 <=? e)%Z then x
      else
        let n := if s then Z.neg m else Z.pos m in
        let z := ((2 * n + 2 ^ (- e)) / 2 ^ (1 - e))%Z in
        if s then
          if (z =? 0)%Z then (-0)%float
          else (- (PrimFloat.of_uint63 (Uint63.of_Z (- z))))%float
        else PrimFloat.of_uint63 (Uint63.of_Z z)
  | _ => x
  end.

Definition within (Cp : float) (bp : Breakpoint) : bool :=
  (PrimFloat.leb (Clow bp) Cp && PrimFloat.leb Cp (Chigh bp))%bool.

Definition interpolate (Cp : float) (bp : Breakpoint) : float :=
  (((Ihigh bp - Ilow bp) / (Chigh bp - Clow bp)) * (Cp - Clow bp) + Ilow bp)%float.

Fixpoint computeSubIndex (Cp : float) (breakpoints : list Breakpoint) : option float :=
  match breakpoints with
  | [] => None
  | bp :: rest =>
      if within Cp bp then Some (Math_round (interpolate Cp bp))
      else computeSubIndex Cp rest
  end.

Definition usPm25Breaks : list Breakpoint :=
  [ mkBreakpoint 0.0 12.0 0 50;
    mkBreakpoint 12.1 35.4 51 100;
    mkBreakpoint 35.5 55.4 101 150;
    mkBreakpoint 55.5 150.4 151 200;
    mkBreakpoint 150.5 250.4 201 300;
    mkBreakpoint 250.5 350.4 301 400;
    mkBreakpoint 350.5 500.4 401 500 ].

Definition usPm10Breaks : list Breakpoint :=
  [ mkBreakpoint 0 54 0 50;
    mkBreakpoint 55 154 51 100;
    mkBreakpoint 155 254 101 150;
    mkBreakpoint 255 354 151 200;
    mkBreakpoint 355 424 201 300;
    mkBreakpoint 425 504 301 400;
    mkBreakpoint 505 604 401 500 ].

Definition indiaPm25Breaks : list Breakpoint :=
  [ mkBreakpoint 0.0 30.0 0 50;
    mkBreakpoint 31.0 60.0 51 100;
    mkBreakpoint 61.0 90.0 101 200;
    mkBreakpoint 91.0 120.0 201 300;
    mkBreakpoint 121.0 250.0 301 400;
    mkBreakpoint 250.1 500.0 401 500 ].

Definition indiaPm10Breaks : list Breakpoint :=
  [ mkBreakpoint 0 50 0 50;
    mkBreakpoint 51 100 51 100;
    mkBreakpoint 101 250 101 200;
    mkBreakpoint 251 350 201 300;
    mkBreakpoint 351 430 301 400;
    mkBreakpoint 431 500 401 500 ].

Definition tables : list (list Breakpoint) :=
  [usPm25Breaks; usPm10Breaks; indiaPm25Breaks; indiaPm10Breaks].

(** No later interval starts at or below the end of an earlier one. *)
Fixpoint ascendingb (breaks : list Breakpoint) : bool :=
  match breaks with
  | [] => true
  | bp :: rest =>
      forallb (fun later => negb (PrimFloat.leb (Clow later) (Chigh bp))) rest
      && ascendingb rest
  end.

(** ** The overall index *)

(** The [components] of a reading; a field is [None] when [typeof] of
    its value is not ["number"]. *)
Record Components : Type := mkComponents {
  pm2_5 : option float;
  pm10 : option float;
  o3 : option float;
  no2 : option float;
  so2 : option float;
  co : option float
}.

(** The body shared by [usAqiFromComponents] and
    [indiaAqiFromComponents]: [subIdx] after the two pushes. *)
Definition pushSubIndex (v : option float) (breaks : list Breakpoint) (subIdx : list float)
  : list float :=
  match v with
  | Some Cp =>
      match computeSubIndex Cp breaks with
      | Some s => subIdx ++ [s]
      | None => subIdx
      end
  | None => subIdx
  end.

Definition subIndices (pm25Breaks pm10Breaks : list Breakpoint) (c : Components) : list float :=
  pushSubIndex (pm10 c) pm10Breaks (pushSubIndex (pm2_5 c) pm25Breaks []).

Definition isPositiveZero (x : float) : bool :=
  match Prim2SF x with S754_zero false => true | _ => false end.

Definition isNegativeZero (x : float) : bool :=
  match Prim2SF x with S754_zero true => true | _ => false end.

(** One step of [Math.max]: [number] replaces [highest] when it is
    greater, +0 counting as greater than -0. *)
Definition higher (highest number : float) : float :=
  if isPositiveZero number && isNegativeZero highest then number
  else if PrimFloat.ltb highest number then number
  else highest.

(** [Math.max(...xs)]: NaN when an argument is NaN, and otherwise the
    greatest argument, starting from -Infinity. *)
Definition Math_max (xs : list float) : float :=
  if existsb PrimFloat.is_nan xs then nan else fold_left higher xs neg_infinity.

Definition aqiFrom (pm25Breaks pm10Breaks : list Breakpoint)
           (components : option Components) : option float :=
  match components with
  | None => None
  | Some c =>
      match subIndices pm25Breaks pm10Breaks c with
      | [] => None
      | subIdx => Some (Math_max subIdx)
      end
  end.

Definition usAqiFromComponents : option Components -> option float :=
  aqiFrom usPm25Breaks usPm10Breaks.

Definition indiaAqiFromComponents : option Components -> option float :=
  aqiFrom indiaPm25Breaks indiaPm10Breaks.

(** [const aqi = isIndia ? india... : us...] with [isIndia = (country === "IN")]. *)
Definition aqi (country : string) (components : option Components) : option float :=
  if String.eqb country "IN" then indiaAqiFromComponents components
  else usAqiFromComponents components.

Definition labelForAqi (val : option float) (isIndia : bool) : string :=
  match val with
  | None => "-"
  | Some v =>
      if isIndia then
        if PrimFloat.leb v 50 then "Good"
        else if PrimFloat.leb v 100 then "Satisfactory"
        else if PrimFloat.leb v 200 then "Moderate"
        else if PrimFloat.leb v 300 then "Poor"
        else if PrimFloat.leb v 400 then "Very Poor"
        else "Severe"
      else
        if PrimFloat.leb v 50 then "Good"
        else if PrimFloat.leb v 100 then "Moderate"
        else if PrimFloat.leb v 150 then "Unhealthy for Sensitive Groups"
        else if PrimFloat.leb v 200 then "Unhealthy"
        else if PrimFloat.leb v 300 then "Very Unhealthy"
        else "Hazardous"
  end.

(** The tables of a standard. *)
Definition pm25BreaksOf (country : string) : list Breakpoint :=
  if String.eqb country "IN" then indiaPm25Breaks else usPm25Breaks.

Definition pm10BreaksOf (country : string) : list Breakpoint :=
  if String.eqb country "IN" then indiaPm10Breaks else usPm10Breaks.

(** ** Checks on a table *)

(** A double that is a number and is not infinite. *)
Definition finiteOrZero (s : spec_float) : bool :=
  match s with
  | S754_zero _ | S754_finite _ _ _ => true
  | _ => false
  end.

Definition isFinite (s : spec_float) : bool :=
  match s with S754_finite _ _ _ => true | _ => false end.

(** The entries of an interval are finite numbers, and so is the
    slope (Ihigh - Ilow) / (Chigh - Clow), which is not zero. *)
Definition intervalFinite (bp : Breakpoint) : bool :=
  finiteOrZero (Prim2SF (Clow bp)) && finiteOrZero (Prim2SF (Chigh bp))
  && finiteOrZero (Prim2SF (Ilow bp))
  && isFinite (Prim2SF ((Ihigh bp - Ilow bp) / (Chigh bp - Clow bp))%float).

End Aqi64.

(* ================================================================== *)
(** * services/symptomChecker.ts *)
(* ================================================================== *)

Module SymptomChecker.
Import JsString.
Local Open Scope string_scope.
Local Open Scope nat_scope.

Inductive Severity : Type := Mild | Moderate | Severe.

(** [interface SymptomData]. *)
Record SymptomData : Type := mkSymptomData {
  conditions : list string;
  dataRecommendations : list string;
  dataSeverity : Severity;
  dataAdvice : string
}.

(** [interface SymptomAnalysis].  A field is [None] when the returned
    object holds [undefined] there. *)
Record SymptomAnalysis : Type := mkSymptomAnalysis {
  possibleConditions : option (list string);
  recommendations : option (list string);
  severity : option Severity;
  advice : option string
}.

(** The degree sign U+00B0, one code unit. *)
Definition degree : string := String (ascii_of_N 176) EmptyString.

Definition symptomDatabase : list (string * SymptomData) :=
[
  ("diarrhea",
   mkSymptomData
     ["Gastroenteritis (stomach flu)";
      "Food poisoning";
      "Irritable Bowel Syndrome (IBS)";
      "Bacterial infection"]
     ["Drink plenty of fluids (water, electrolyte solutions, clear broths)";
      "Avoid dairy, fatty foods, and caffeine";
      "Eat BRAT diet: Bananas, Rice, Applesauce, Toast";
      "Consider oral rehydration solutions to prevent dehydration"]
     Moderate
     "Diarrhea can lead to dehydration quickly. Drink plenty of fluids and seek medical attention if it lasts more than 2 days, you have signs of dehydration (dry mouth, dark urine, dizziness), or if you see blood in stool.");
  ("loose stool",
   mkSymptomData
     ["Gastroenteritis";
      "Food intolerance";
      "IBS";
      "Bacterial infection"]
     ["Stay hydrated with water and electrolyte drinks";
      "Avoid spicy, fatty, or dairy foods";
      "Eat bland foods like rice, bananas, and toast";
      "Rest and avoid strenuous activity"]
     Moderate
     "Monitor your symptoms. If loose stools persist for more than 3 days or are accompanied by fever, blood, or severe dehydration, consult a healthcare provider.");
  ("constipation",
   mkSymptomData
     ["Dehydration";
      "Dietary fiber deficiency";
      "IBS";
      "Medication side effects"]
     ["Increase fiber intake (fruits, vegetables, whole grains)";
      "Drink plenty of water (8-10 glasses daily)";
      "Engage in regular physical activity";
      "Consider over-the-counter fiber supplements or stool softeners"]
     Mild
     "Most constipation resolves with dietary changes and increased hydration. See a doctor if it lasts more than 2 weeks, is severe, or accompanied by blood in stool.");
  ("nausea",
   mkSymptomData
     ["Gastroenteritis";
      "Food poisoning";
      "Motion sickness";
      "Pregnancy";
      "Medication side effects"]
     ["Eat small, bland meals throughout the day";
      "Avoid strong smells and spicy foods";
      "Stay hydrated with small sips of water or ginger tea";
      "Get fresh air and rest in a quiet environment"]
     Moderate
     "Nausea is usually temporary. Seek medical attention if it persists for more than 2 days, you cannot keep fluids down, or if you experience severe vomiting.");
  ("vomiting",
   mkSymptomData
     ["Gastroenteritis";
      "Food poisoning";
      "Viral infection";
      "Migraine";
      "Motion sickness"]
     ["Rest and avoid solid foods for a few hours";
      "Sip small amounts of clear fluids (water, electrolyte solutions)";
      "Gradually reintroduce bland foods (crackers, toast)";
      "Avoid dairy, caffeine, and alcohol"]
     Moderate
     "Vomiting can cause dehydration. If vomiting persists for more than 24 hours, you cannot keep fluids down, see blood in vomit, or have signs of dehydration, seek immediate medical care.");
  ("stomach pain",
   mkSymptomData
     ["Gastritis";
      "Indigestion";
      "IBS";
      "Appendicitis (if severe)";
      "Food poisoning"]
     ["Avoid spicy, fatty, or acidic foods";
      "Eat smaller, more frequent meals";
      "Apply a warm compress to the abdomen";
      "Consider antacids for indigestion"]
     Moderate
     "Mild stomach pain often resolves with dietary changes. Seek immediate medical attention if pain is severe, persistent, located in lower right abdomen, or accompanied by fever, vomiting, or blood in stool.");
  ("abdominal pain",
   mkSymptomData
     ["Gastritis";
      "Indigestion";
      "IBS";
      "Appendicitis (if severe)";
      "Food poisoning"]
     ["Avoid spicy, fatty, or acidic foods";
      "Eat smaller, more frequent meals";
      "Apply a warm compress to the abdomen";
      "Consider antacids for indigestion"]
     Moderate
     "Mild abdominal pain often resolves with dietary changes. Seek immediate medical attention if pain is severe, persistent, located in lower right abdomen, or accompanied by fever, vomiting, or blood in stool.");
  ("cough",
   mkSymptomData
     ["Common cold";
      "Upper respiratory infection";
      "Bronchitis";
      "Allergies";
      "Asthma"]
     ["Stay hydrated with warm fluids (tea, soup)";
      "Use a humidifier or steam inhalation";
      "Avoid irritants like smoke and dust";
      "Get plenty of rest and consider cough drops"]
     Moderate
     "Most coughs resolve within 1-2 weeks. See a doctor if cough persists for more than 3 weeks, produces blood, is accompanied by chest pain or difficulty breathing, or if you have a high fever.");
  ("sore throat",
   mkSymptomData
     ["Viral pharyngitis";
      "Strep throat (bacterial)";
      "Common cold";
      "Allergies"]
     ["Gargle with warm salt water several times daily";
      "Drink warm fluids (tea with honey, soup)";
      "Use throat lozenges or sprays";
      "Rest your voice and avoid irritants"]
     Moderate
     "Most sore throats are viral and resolve in 3-7 days. See a doctor if symptoms persist, you have difficulty swallowing, high fever, or white spots on tonsils (possible strep throat).");
  ("runny nose",
   mkSymptomData
     ["Common cold";
      "Allergies";
      "Sinusitis";
      "Viral infection"]
     ["Use saline nasal spray or rinse";
      "Stay hydrated";
      "Use a humidifier";
      "Consider over-the-counter decongestants or antihistamines"]
     Mild
     "Runny nose is usually part of a cold or allergies. If it persists for more than 10 days, is accompanied by fever, or you have facial pain, consult a healthcare provider.");
  ("nasal congestion",
   mkSymptomData
     ["Common cold";
      "Allergies";
      "Sinusitis";
      "Viral infection"]
     ["Use saline nasal spray or rinse";
      "Apply warm compress to face";
      "Use a humidifier";
      "Consider over-the-counter decongestants"]
     Mild
     "Nasal congestion usually resolves with a cold. See a doctor if it lasts more than 10 days, is accompanied by fever or facial pain, or if you have difficulty breathing.");
  ("difficulty breathing",
   mkSymptomData
     ["Asthma";
      "Anxiety";
      "Pneumonia";
      "COPD";
      "Allergic reaction"]
     ["Sit upright and try to stay calm";
      "Avoid triggers (allergens, smoke)";
      "Use prescribed inhaler if available";
      "Seek immediate medical attention if severe"]
     Severe
     "Difficulty breathing requires immediate medical attention. Go to the emergency room if breathing is severely impaired, you have chest pain, or your lips/fingernails turn blue.");
  ("headache",
   mkSymptomData
     ["Tension headache";
      "Migraine";
      "Sinus headache";
      "Dehydration";
      "Eye strain"]
     ["Rest in a dark, quiet room";
      "Apply cold or warm compress to forehead";
      "Stay hydrated";
      "Consider over-the-counter pain relievers (ibuprofen, acetaminophen)"]
     Moderate
     "Most headaches are tension-related and resolve with rest and pain relievers. Seek immediate medical attention if headache is sudden and severe (thunderclap), accompanied by fever/stiff neck, or if you have vision changes or confusion.");
  ("migraine",
   mkSymptomData
     ["Migraine";
      "Tension headache";
      "Cluster headache"]
     ["Rest in a dark, quiet room";
      "Apply cold compress to head";
      "Avoid triggers (bright lights, loud noises)";
      "Consider prescription migraine medication if available"]
     Moderate
     "Migraines can be debilitating. If you experience frequent migraines, see a doctor for proper diagnosis and treatment. Seek immediate care if migraine is accompanied by vision loss, confusion, or weakness.");
  ("dizziness",
   mkSymptomData
     ["Dehydration";
      "Low blood pressure";
      "Inner ear infection";
      "Anemia";
      "Vertigo"]
     ["Sit or lie down immediately";
      "Stay hydrated";
      "Move slowly when changing positions";
      "Avoid sudden head movements"]
     Moderate
     "Dizziness can be caused by many factors. If it persists, is severe, or is accompanied by chest pain, difficulty speaking, or loss of consciousness, seek immediate medical attention.");
  ("ear pain",
   mkSymptomData
     ["Ear infection (otitis media)";
      "Swimmer's ear";
      "Eustachian tube dysfunction";
      "TMJ disorder"]
     ["Apply warm compress to affected ear";
      "Use over-the-counter pain relievers";
      "Avoid inserting anything into the ear";
      "Keep ear dry if it's an outer ear infection"]
     Moderate
     "Ear pain, especially in children, should be evaluated by a doctor. See a healthcare provider if pain is severe, persists more than 2 days, or is accompanied by fever, hearing loss, or discharge from the ear.");
  ("fever",
   mkSymptomData
     ["Viral infection";
      "Bacterial infection";
      "Inflammatory condition";
      "Common cold";
      "Flu"]
     ["Stay hydrated with water and electrolyte drinks";
      "Rest and get plenty of sleep";
      "Take fever-reducing medication (acetaminophen or ibuprofen)";
      "Use cool compresses or lukewarm bath"]
     Moderate
     ("Fever is usually a sign of infection. Seek medical attention if fever is above 103" ++ degree ++ "F (39.4" ++ degree ++ "C), persists for more than 3 days, is accompanied by severe symptoms, or if you have a weakened immune system."));
  ("chills",
   mkSymptomData
     ["Viral infection";
      "Bacterial infection";
      "Fever";
      "Flu";
      "Common cold"]
     ["Stay warm with blankets";
      "Rest and stay hydrated";
      "Monitor temperature";
      "Take fever-reducing medication if needed"]
     Moderate
     "Chills often accompany fever and infections. If chills are severe, persistent, or accompanied by high fever, seek medical attention.");
  ("fatigue",
   mkSymptomData
     ["Anemia";
      "Sleep disorder";
      "Chronic fatigue syndrome";
      "Depression";
      "Thyroid issues";
      "Viral infection"]
     ["Ensure adequate sleep (7-9 hours)";
      "Maintain a balanced diet";
      "Stay hydrated";
      "Engage in light exercise"]
     Moderate
     "Fatigue can have many causes. If it persists for more than 2 weeks, is severe, or is accompanied by other symptoms like weight loss or fever, consult a healthcare provider.");
  ("body ache",
   mkSymptomData
     ["Viral infection";
      "Flu";
      "Fibromyalgia";
      "Dehydration";
      "Overexertion"]
     ["Rest and allow body to recover";
      "Apply warm compresses to sore areas";
      "Take over-the-counter pain relievers";
      "Stay hydrated and maintain gentle movement"]
     Moderate
     "Body aches are common with infections like flu. If aches are severe, persistent, or accompanied by high fever, consult a healthcare provider.");
  ("muscle pain",
   mkSymptomData
     ["Muscle strain";
      "Overexertion";
      "Fibromyalgia";
      "Viral infection";
      "Dehydration"]
     ["Rest the affected muscles";
      "Apply ice for first 48 hours, then heat";
      "Gentle stretching and massage";
      "Take over-the-counter pain relievers"]
     Mild
     "Most muscle pain resolves with rest and self-care. See a doctor if pain is severe, persists for more than a week, or is accompanied by swelling, redness, or fever.");
  ("rash",
   mkSymptomData
     ["Allergic reaction";
      "Contact dermatitis";
      "Eczema";
      "Viral infection";
      "Heat rash"]
     ["Avoid scratching the affected area";
      "Apply cool compresses or calamine lotion";
      "Use fragrance-free moisturizers";
      "Identify and avoid potential allergens"]
     Moderate
     "Most rashes are not serious. Seek medical attention if rash is widespread, accompanied by fever, difficulty breathing, or if it appears suddenly and spreads rapidly.");
  ("itching",
   mkSymptomData
     ["Allergic reaction";
      "Dry skin";
      "Eczema";
      "Contact dermatitis";
      "Insect bites"]
     ["Apply cool compresses to itchy areas";
      "Use fragrance-free moisturizers";
      "Avoid hot showers and harsh soaps";
      "Consider over-the-counter antihistamines or hydrocortisone cream"]
     Mild
     "Mild itching usually resolves with self-care. See a doctor if itching is severe, persistent, widespread, or accompanied by rash, swelling, or difficulty breathing.");
  ("chest pain",
   mkSymptomData
     ["Heartburn/acid reflux";
      "Anxiety";
      "Muscle strain";
      "Angina";
      "Heart attack (if severe)"]
     ["Rest and avoid strenuous activity";
      "If heartburn, avoid trigger foods and consider antacids";
      "Stay calm and monitor symptoms";
      "Seek immediate medical attention if severe"]
     Severe
     "Chest pain can be serious. Seek IMMEDIATE emergency medical attention if pain is severe, radiates to arm/jaw, is accompanied by shortness of breath, nausea, or sweating - these could indicate a heart attack.");
  ("back pain",
   mkSymptomData
     ["Muscle strain";
      "Poor posture";
      "Herniated disc";
      "Arthritis";
      "Kidney infection"]
     ["Rest and avoid heavy lifting";
      "Apply ice for first 48 hours, then heat";
      "Practice good posture";
      "Gentle stretching and over-the-counter pain relievers"]
     Moderate
     "Most back pain improves with rest and self-care. See a doctor if pain is severe, persists for more than 2 weeks, radiates down legs, or is accompanied by numbness, weakness, or loss of bladder control.");
  ("joint pain",
   mkSymptomData
     ["Arthritis";
      "Injury";
      "Bursitis";
      "Gout";
      "Overuse"]
     ["Rest the affected joint";
      "Apply ice to reduce inflammation";
      "Take over-the-counter anti-inflammatory medication";
      "Gentle range-of-motion exercises"]
     Moderate
     "Joint pain can have various causes. If pain is severe, persistent, or accompanied by swelling, redness, or fever, consult a healthcare provider.");
  ("eye pain",
   mkSymptomData
     ["Eye strain";
      "Dry eyes";
      "Conjunctivitis";
      "Sinusitis";
      "Foreign object"]
     ["Rest eyes and avoid screens";
      "Use artificial tears for dry eyes";
      "Apply warm compress";
      "Avoid rubbing eyes"]
     Moderate
     "Eye pain should be evaluated by a doctor, especially if it's severe, accompanied by vision changes, discharge, or sensitivity to light.");
  ("sore muscles",
   mkSymptomData
     ["Muscle strain";
      "Overexertion";
      "Delayed onset muscle soreness (DOMS)";
      "Viral infection"]
     ["Rest and allow muscles to recover";
      "Apply ice for first 48 hours, then heat";
      "Gentle stretching and massage";
      "Stay hydrated and take over-the-counter pain relievers"]
     Mild
     "Sore muscles usually resolve with rest. If pain is severe, persists for more than a week, or is accompanied by swelling or fever, consult a healthcare provider.")
].

(** ** Reading [symptomDatabase[key]]

    The object literal inherits from [Object.prototype]: a key that
    names an inherited member reads as that member, which is truthy
    and has none of the four fields. *)
Definition objectPrototypeKeys : list string :=
  ["constructor"; "__defineGetter__"; "__defineSetter__"; "hasOwnProperty";
   "__lookupGetter__"; "__lookupSetter__"; "isPrototypeOf"; "propertyIsEnumerable";
   "toString"; "valueOf"; "__proto__"; "toLocaleString"].

Inductive Lookup : Type :=
| Own (data : SymptomData)
| Inherited
| Absent.

Fixpoint ownEntry (key : string) (entries : list (string * SymptomData)) : option SymptomData :=
  match entries with
  | [] => None
  | (k, d) :: rest => if String.eqb key k then Some d else ownEntry key rest
  end.

Definition dbGet (key : string) : Lookup :=
  match ownEntry key symptomDatabase with
  | Some d => Own d
  | None => if existsb (String.eqb key) objectPrototypeKeys then Inherited else Absent
  end.

(** [lowerSymptoms.includes(key) || key.includes(lowerSymptoms)]. *)
Definition partialMatch (lowerSymptoms key : string) : bool :=
  includes lowerSymptoms key || includes key lowerSymptoms.

(** The [for (const [key, data] of Object.entries(symptomDatabase))]
    loops that return at the first partial match. *)
Fixpoint firstPartial (lowerSymptoms : string) (entries : list (string * SymptomData))
  : option (string * SymptomData) :=
  match entries with
  | [] => None
  | (k, d) :: rest =>
      if partialMatch lowerSymptoms k then Some (k, d) else firstPartial lowerSymptoms rest
  end.

(** ** [assessSeverity] *)
Definition severeKeywords : list string :=
  ["severe"; "extreme"; "unbearable"; "emergency"; "chest pain";
   "difficulty breathing"; "loss of consciousness"].

Definition mildKeywords : list string := ["mild"; "slight"; "minor"; "occasional"].

Definition assessSeverity (symptoms : string) : Severity :=
  if existsb (fun keyword => includes symptoms keyword) severeKeywords then Severe
  else if existsb (fun keyword => includes symptoms keyword) mildKeywords then Mild
  else Moderate.

(** ** [extractConditionsFromSymptoms] *)

(** The comparator handed to [foundSymptoms.sort]. *)
Definition compareFound (lowerSymptoms : string) (a b : string * SymptomData) : Z :=
  if String.eqb (fst a) lowerSymptoms then (-1)%Z
  else if String.eqb (fst b) lowerSymptoms then 1%Z
  else (Z.of_nat (String.length (fst b)) - Z.of_nat (String.length (fst a)))%Z.

(** [Array.prototype.sort] is stable: an element goes after the
    elements it does not precede. *)
Fixpoint insertFound (cmp : string * SymptomData -> string * SymptomData -> Z)
         (x : string * SymptomData) (sorted : list (string * SymptomData))
  : list (string * SymptomData) :=
  match sorted with
  | [] => [x]
  | y :: rest => if (cmp x y <? 0)%Z then x :: sorted else y :: insertFound cmp x rest
  end.

Definition sortFound (cmp : string * SymptomData -> string * SymptomData -> Z)
           (xs : list (string * SymptomData)) : list (string * SymptomData) :=
  fold_left (fun sorted x => insertFound cmp x sorted) xs [].

Definition keywordMap : list (string * list string) :=
  [ ("stomach", ["Gastritis"; "Indigestion"; "IBS"]);
    ("belly", ["Gastritis"; "Indigestion"; "IBS"]);
    ("throat", ["Viral pharyngitis"; "Strep throat"; "Common cold"]);
    ("nose", ["Common cold"; "Allergies"; "Sinusitis"]);
    ("chest", ["Heartburn"; "Anxiety"; "Muscle strain"]);
    ("back", ["Muscle strain"; "Poor posture"; "Herniated disc"]);
    ("joint", ["Arthritis"; "Injury"; "Bursitis"]);
    ("muscle", ["Muscle strain"; "Overexertion"; "Fibromyalgia"]);
    ("eye", ["Eye strain"; "Dry eyes"; "Conjunctivitis"]);
    ("ear", ["Ear infection"; "Swimmer's ear"; "Eustachian tube dysfunction"]) ].

Fixpoint firstKeyword (lowerSymptoms : string) (entries : list (string * list string))
  : option (list string) :=
  match entries with
  | [] => None
  | (keyword, conds) :: rest =>
      if includes lowerSymptoms keyword then Some conds else firstKeyword lowerSymptoms rest
  end.

Definition generalConditions : list string :=
  ["General symptoms - consult a healthcare provider for proper diagnosis"].

(** [None] is the [undefined] read from an inherited member. *)
Definition extractConditionsFromSymptoms (symptoms : string) : option (list string) :=
  let lowerSymptoms := trim (toLowerCase symptoms) in
  match dbGet lowerSymptoms with
  | Own d => Some (conditions d)
  | Inherited => None
  | Absent =>
      let foundSymptoms :=
        filter (fun e => partialMatch lowerSymptoms (fst e)) symptomDatabase in
      match sortFound (compareFound lowerSymptoms) foundSymptoms with
      | best :: _ => Some (conditions (snd best))
      | [] =>
          match firstKeyword lowerSymptoms keywordMap with
          | Some conds => Some conds
          | None => Some generalConditions
          end
      end
  end.

(** ** [getDefaultRecommendations] *)
Definition keywordRecommendations (lowerSymptoms : string) : list string :=
  if includes lowerSymptoms "fever" || includes lowerSymptoms "temperature" then
    ["Stay hydrated with water and electrolyte drinks";
     "Rest and get plenty of sleep";
     "Take fever-reducing medication (acetaminophen or ibuprofen)";
     "Monitor temperature regularly"]
  else if includes lowerSymptoms "pain" || includes lowerSymptoms "ache" then
    ["Rest the affected area";
     "Apply ice for first 48 hours, then heat";
     "Take over-the-counter pain relievers (ibuprofen or acetaminophen)";
     "Avoid activities that worsen the pain"]
  else if includes lowerSymptoms "cough" || includes lowerSymptoms "cold" then
    ["Stay hydrated with warm fluids (tea, soup)";
     "Use a humidifier or steam inhalation";
     "Get plenty of rest";
     "Consider cough drops or over-the-counter cough medicine"]
  else if includes lowerSymptoms "nausea" || includes lowerSymptoms "vomit" then
    ["Eat small, bland meals throughout the day";
     "Stay hydrated with small sips of water or electrolyte drinks";
     "Avoid strong smells and spicy foods";
     "Get fresh air and rest in a quiet environment"]
  else if includes lowerSymptoms "headache" || includes lowerSymptoms "head" then
    ["Rest in a dark, quiet room";
     "Apply cold or warm compress to forehead";
     "Stay hydrated";
     "Consider over-the-counter pain relievers"]
  else
    ["Get adequate rest (7-9 hours of sleep)";
     "Stay hydrated with water";
     "Monitor symptoms closely";
     "Avoid triggers that may worsen symptoms"].

Definition getDefaultRecommendations (symptoms : string) : option (list string) :=
  let lowerSymptoms := trim (toLowerCase symptoms) in
  match dbGet lowerSymptoms with
  | Own d => Some (dataRecommendations d)
  | Inherited => None
  | Absent =>
      match firstPartial lowerSymptoms symptomDatabase with
      | Some (_, d) => Some (dataRecommendations d)
      | None => Some (slice0 4 (keywordRecommendations lowerSymptoms))
      end
  end.

(** ** [getDefaultAdvice] *)
Definition severityAdvice (s : Severity) : string :=
  match s with
  | Severe => "These symptoms may require immediate medical attention. Please consult a healthcare provider or visit an emergency room immediately, especially if symptoms are worsening or you have difficulty breathing, chest pain, or loss of consciousness."
  | Moderate => "Monitor your symptoms closely. If they persist for more than 2-3 days, worsen, or are accompanied by fever, severe pain, or other concerning symptoms, consult a healthcare provider for proper evaluation and treatment."
  | Mild => "These symptoms are typically mild and may resolve with self-care including rest, hydration, and over-the-counter remedies. However, if symptoms persist for more than a week, worsen, or you have concerns, consult a healthcare provider for proper diagnosis."
  end.

(** [symptoms] is [None] when the argument is omitted. *)
Definition getDefaultAdvice (sev : Severity) (symptoms : option string) : option string :=
  match symptoms with
  | Some s =>
      if negb (truthy s) then Some (severityAdvice sev)
      else
        let lowerSymptoms := trim (toLowerCase s) in
        match dbGet lowerSymptoms with
        | Own d => Some (dataAdvice d)
        | Inherited => None
        | Absent =>
            match firstPartial lowerSymptoms symptomDatabase with
            | Some (_, d) => Some (dataAdvice d)
            | None => Some (severityAdvice sev)
            end
        end
  | None => Some (severityAdvice sev)
  end.

(** ** [getFallbackAnalysis] *)
Definition ofData (d : SymptomData) : SymptomAnalysis :=
  {| possibleConditions := Some (conditions d);
     recommendations := Some (dataRecommendations d);
     severity := Some (dataSeverity d);
     advice := Some (dataAdvice d) |}.

Definition getFallbackAnalysis (symptoms : string) : SymptomAnalysis :=
  let lowerSymptoms := trim (toLowerCase symptoms) in
  match dbGet lowerSymptoms with
  | Own d => ofData d
  | Inherited => mkSymptomAnalysis None None None None
  | Absent =>
      match firstPartial lowerSymptoms symptomDatabase with
      | Some (_, d) => ofData d
      | None =>
          let sev := assessSeverity lowerSymptoms in
          {| possibleConditions := extractConditionsFromSymptoms lowerSymptoms;
             recommendations := getDefaultRecommendations lowerSymptoms;
             severity := Some sev;
             advice := getDefaultAdvice sev (Some lowerSymptoms) |}
      end
  end.

(** ** [parseAIResponse] *)

(** Case folding of a regular expression with the [i] flag (and no
    [u] flag), as far as it concerns the ASCII letters of a label. *)
Definition foldAscii (c : ascii) : ascii :=
  let n := code c in
  if ((65 <=? n) && (n <=? 90))%N then ascii_of_N (n + 32) else c.

(** [label] is given in lower case. *)
Fixpoint afterLabel (label text : string) : option string :=
  match label, text with
  | EmptyString, _ => Some text
  | String l label', String c text' =>
      if Ascii.eqb (foldAscii c) l then afterLabel label' text' else None
  | String _ _, EmptyString => None
  end.

Fixpoint takeWhile (p : ascii -> bool) (s : string) : string :=
  match s with
  | EmptyString => EmptyString
  | String c r => if p c then String c (takeWhile p r) else EmptyString
  end.

Fixpoint dropWhile (p : ascii -> bool) (s : string) : string :=
  match s with
  | EmptyString => EmptyString
  | String c r => if p c then dropWhile p r else s
  end.

Fixpoint lastChar (s : string) : option ascii :=
  match s with
  | EmptyString => None
  | String c EmptyString => Some c
  | String _ r => lastChar r
  end.

Definition notBar (c : ascii) : bool := negb (Ascii.eqb c "|").

(** An attempt of [/LABELS?:\s*([^|]+)/i] at the start of [text]
    ([plural] says whether the pattern has the optional [S]): the
    text captured by the group.  [S?] takes an [s] when there is one;
    [\s*] takes the whole run of white space and gives its last
    character back to the group when nothing else is left for it. *)
Definition captureAt (label : string) (plural : bool) (text : string) : option string :=
  match afterLabel label text with
  | None => None
  | Some r =>
      let r1 := match r with
                | String c r' => if plural && Ascii.eqb (foldAscii c) "s" then r' else r
                | EmptyString => r
                end in
      match r1 with
      | String c r2 =>
          if Ascii.eqb c ":" then
            let ws := takeWhile isWhiteSpace r2 in
            match takeWhile notBar (dropWhile isWhiteSpace r2) with
            | EmptyString =>
                match lastChar ws with
                | Some w => Some (String w EmptyString)
                | None => None
                end
            | group => Some group
            end
          else None
      | EmptyString => None
      end
  end.

(** [aiText.match(/LABELS?:\s*([^|]+)/i)]: group 1 of the leftmost
    match, [None] when there is no match. *)
Fixpoint capture (label : string) (plural : bool) (text : string) : option string :=
  match captureAt label plural text with
  | Some g => Some g
  | None =>
      match text with
      | EmptyString => None
      | String _ r => capture label plural r
      end
  end.

Definition isListSeparator (c : ascii) : bool :=
  Ascii.eqb c "," || Ascii.eqb c ";".

(** [.split(/[,;]/).map((c) => c.trim()).filter(Boolean).slice(0, 3)]. *)
Definition listItems (group : string) : list string :=
  slice0 3 (filter truthy (map trim (split isListSeparator group))).

(** [None] is the [TypeError] of [conditions.length] on [undefined]. *)
Definition parseAIResponse (aiText originalSymptoms : string) : option SymptomAnalysis :=
  let lowerText := toLowerCase aiText in
  let lowerSymptoms := toLowerCase originalSymptoms in
  let conds :=
    match capture "condition" true aiText with
    | Some g => Some (listItems g)
    | None => extractConditionsFromSymptoms lowerSymptoms
    end in
  let recs :=
    match capture "recommendation" true aiText with
    | Some g => Some (listItems g)
    | None => getDefaultRecommendations lowerSymptoms
    end in
  let sev :=
    if includes lowerText "severe" || includes lowerText "emergency" then Severe
    else if includes lowerText "mild" || includes lowerText "minor" then Mild
    else assessSeverity lowerSymptoms in
  let adv :=
    match capture "advice" false aiText with
    | Some g => Some (trim g)
    | None => getDefaultAdvice sev None
    end in
  match conds with
  | None => None
  | Some cs =>
      Some {| possibleConditions :=
                Some (if (0 <? List.length cs) then cs else ["General symptoms"]);
              recommendations := recs;
              severity := Some sev;
              advice := adv |}
  end.

(** ** [analyzeSymptoms] *)

(** What the request to the inference service comes to. *)
Inductive Remote : Type :=
| RequestFails                   (* fetch or response.json() rejects *)
| NotOk                          (* !response.ok *)
| GeneratedText (text : string)  (* data[0].generated_text or data.generated_text, a string *)
| OtherShape.                    (* any other body *)

Inductive Outcome : Type :=
| Throws (message : string)
| Returns (analysis : SymptomAnalysis).

Definition analyzeSymptoms (symptoms : string) (remote : Remote) : Outcome :=
  if negb (truthy (trim symptoms)) then Throws "Please describe your symptoms"
  else
    match remote with
    | GeneratedText text =>
        if truthy text then
          match parseAIResponse text symptoms with
          | Some a => Returns a
          | None => Returns (getFallbackAnalysis symptoms)
          end
        else Returns (getFallbackAnalysis symptoms)
    | _ => Returns (getFallbackAnalysis symptoms)
    end.

(** ** The predicates the properties are stated with *)

(** The output guarantee: every field is present, the two lists are
    not empty, and there are at most four recommendations. *)
Definition wellFormedAnalysis (a : SymptomAnalysis) : Prop :=
  (exists cs, possibleConditions a = Some cs /\ cs <> [])
  /\ (exists rs, recommendations a = Some rs /\ rs <> [] /\ List.length rs <= 4)
  /\ (exists s, severity a = Some s)
  /\ (exists t, advice a = Some t).

(** The keys of the knowledge base that partially match the input. *)
Definition matchingKeys (lowerSymptoms : string) : list string :=
  map fst (filter (fun e => partialMatch lowerSymptoms (fst e)) symptomDatabase).

Definition normalize (symptoms : string) : string := trim (toLowerCase symptoms).

(** What the output guarantee asks of an entry of the knowledge base. *)
Definition entryOk (e : string * SymptomData) : bool :=
  (0 <? List.length (conditions (snd e)))
  && (0 <? List.length (dataRecommendations (snd e)))
  && (List.length (dataRecommendations (snd e)) <=? 4).

(** A string is empty or starts with a character that is not white space. *)
Definition headOk (s : string) : Prop :=
  match s with
  | EmptyString => True
  | String c _ => isWhiteSpace c = false
  end.

End SymptomChecker.

(* ================================================================== *)
(** * Concrete inputs used by the examples below *)
(* ================================================================== *)

Module Scenario.
Import Json Reminders.

(** Monday 2024-01-01; the local zone is UTC. *)
Definition at_08_00_02 : Clock := mkClock 1704096002000 8 0 "2024-01-01" 1.
Definition at_08_05_31 : Clock := mkClock 1704096331000 8 5 "2024-01-01" 1.
Definition at_08_05_36 : Clock := mkClock 1704096336000 8 5 "2024-01-01" 1.

(** A daily reminder for 08:00, as [addReminder] builds it. *)
Definition aspirinForm : Form := mkForm "Aspirin 100mg" "08:00" true Daily [].
Definition aspirin : Reminder :=
  mkReminder "id-aspirin" "Aspirin 100mg" "08:00" true Daily None None None.

Definition started : State := mkState (addReminder "id-aspirin" aspirinForm []) None false.

(** The alarm of 08:00 rings at the first tick of that minute and is
    snoozed for five minutes at 08:00:30. *)
Definition rung : State := tick at_08_00_02 started.
Definition snoozed : State := snoozeActive 1704096030000 5 rung.
(** The snooze elapses at 08:05:30; the next tick is at 08:05:31. *)
Definition rungAgain : State := tick at_08_05_31 snoozed.

(** Another run: the alarm of Sunday 2023-12-31 08:00 is left active
    and is snoozed for five minutes on Monday at 07:55:30, until
    08:00:30.  The tick of Monday 08:00:02 triggers the reminder by its
    time of day; the tick at 08:00:32 is the first after the snooze
    has elapsed. *)
Definition sunday_08_00_02 : Clock := mkClock 1704009602000 8 0 "2023-12-31" 0.
Definition at_08_00_32 : Clock := mkClock 1704096032000 8 0 "2024-01-01" 1.
Definition at_08_00_07 : Clock := mkClock 1704096007000 8 0 "2024-01-01" 1.
Definition at_08_00_12 : Clock := mkClock 1704096012000 8 0 "2024-01-01" 1.
Definition leftActive : State := tick sunday_08_00_02 started.
Definition snoozedLate : State := snoozeActive 1704095730000 5 leftActive.
Definition rungOnTime : State := tick at_08_00_02 snoozedLate.

(** A reminder for 08:05 placed before a reminder whose snooze is due. *)
Definition vitamin : Reminder :=
  mkReminder "id-vitamin" "Vitamin D" "08:05" true Daily None None None.
Definition aspirinSnoozed : Reminder :=
  mkReminder "id-aspirin" "Aspirin 100mg" "08:00" true Daily None
             (Some "2024-01-01-08:00") (Some 1704096330000).

(** The reminder as the tick at 08:00:02 leaves it. *)
Definition triggeredAspirin : Reminder :=
  mkReminder "id-aspirin" "Aspirin 100mg" "08:00" true Daily None
             (Some "2024-01-01-08:00") None.

(** A one-time reminder. *)
Definition antibiotic : Reminder :=
  mkReminder "id-once" "Antibiotic" "08:00" true RepeatNone None None None.

(** A stored array that passes [isReminderArray]: a weekly reminder
    without [daysOfWeek]. *)
Definition weeklyWithoutDays : json :=
  JObj [("id", JStr "id-iron"); ("title", JStr "Iron"); ("time", JStr "09:00");
        ("enabled", JBool true); ("repeat", JStr "weekly")].

Definition weeklyWithoutDaysReminder : Reminder :=
  mkReminder "id-iron" "Iron" "09:00" true Weekly None None None.

(** A stored array with one element of the right shape and one that
    is not an object. *)
Definition mixedArray : json := JArr [toJson aspirin; JNull].

(** A stored element that passes the load guard and is no Reminder
    record: its title is empty, its time is no time of day, and its
    [daysOfWeek] and [nextSnoozeAt] are strings. *)
Definition illFormedIron : json :=
  JObj [("id", JStr "id-iron"); ("title", JStr ""); ("time", JStr "25:99");
        ("enabled", JBool true); ("repeat", JStr "weekly");
        ("daysOfWeek", JStr "x"); ("nextSnoozeAt", JStr "soon")].

End Scenario.

(* ================================================================== *)
(** * [Array.prototype.sort] without a comparator *)
(* ================================================================== *)

Module JsArray.

(** [String(n)] for an integer below 10^21 in absolute value. *)
Definition toString (n : Z) : string :=
  if n <? 0 then "-" ++ JsString.ofNat (- n) else JsString.ofNat n.

(** The default comparison: the elements are compared by the code
    units of their spellings. *)
Definition spelledBefore (x y : Z) : bool := String.ltb (toString x) (toString y).

(** The sort is stable: an element goes in front of the first one
    that is not spelled before it. *)
Fixpoint insertSpelled (x : Z) (sorted : list Z) : list Z :=
  match sorted with
  | [] => [x]
  | y :: rest => if spelledBefore y x then y :: insertSpelled x rest else x :: sorted
  end.

Definition sort (xs : list Z) : list Z := fold_right insertSpelled [] xs.

End JsArray.

(* ================================================================== *)
(** * [pages/Reminders.tsx]: the dialog and the mount effects *)
(* ================================================================== *)

Module RemindersPage.
Import Json Reminders.

(** The initial values of the form's state hooks, which [addReminder]
    sets again after a reminder is added. *)
Definition initialForm : Form := mkForm "" "" true Daily [].

Definition setFormTitle (value : string) (f : Form) : Form :=
  mkForm value (formTime f) (formEnabled f) (formRepeat f) (formWeekDays f).

Definition setFormTime (value : string) (f : Form) : Form :=
  mkForm (formTitle f) value (formEnabled f) (formRepeat f) (formWeekDays f).

Definition setFormEnabled (checked : bool) (f : Form) : Form :=
  mkForm (formTitle f) (formTime f) checked (formRepeat f) (formWeekDays f).

(** [handleRepeatChange]; [value] is [event.target.value]. *)
Definition handleRepeatChange (value : string) (f : Form) : Form :=
  if negb (isRepeatOption value) then f
  else
    match asRepeat value with
    | None => f
    | Some rp =>
        let days := if negb (String.eqb value "weekly") then [] else formWeekDays f in
        mkForm (formTitle f) (formTime f) (formEnabled f) rp days
    end.

(** The [onClick] of the button of weekday [idx]: [selected] is
    [formWeekDays.includes(idx)] of the render that shows the button. *)
Definition clickDay (idx : Z) (f : Form) : Form :=
  let selected := existsb (Z.eqb idx) (formWeekDays f) in
  let days := if selected
              then filter (fun v => negb (v =? idx)) (formWeekDays f)
              else (formWeekDays f ++ [idx])%list in
  mkForm (formTitle f) (formTime f) (formEnabled f) (formRepeat f) days.

(** The guard of [addReminder] lets the form through. *)
Definition accepted (f : Form) : bool :=
  JsString.truthy (JsString.trim (formTitle f)) && JsString.truthy (formTime f).

(** The form and the collection, and what the user does in the dialog. *)
Record Dialog : Type := mkDialog {
  form : Form;
  collection : list Reminder
}.

Inductive DialogEvent : Type :=
| TypeTitle (value : string)
| PickTime (value : string)
| SwitchEnabled (checked : bool)
| SelectRepeat (value : string)
| ClickDay (idx : Z)
| Submit (uuid : string).

(** [onSubmit={addReminder}]: the collection gets the new reminder and
    the form is set back, unless the guard returns early. *)
Definition submit (uuid : string) (d : Dialog) : Dialog :=
  mkDialog (if accepted (form d) then initialForm else form d)
           (addReminder uuid (form d) (collection d)).

Definition handle (e : DialogEvent) (d : Dialog) : Dialog :=
  match e with
  | TypeTitle v => mkDialog (setFormTitle v (form d)) (collection d)
  | PickTime v => mkDialog (setFormTime v (form d)) (collection d)
  | SwitchEnabled b => mkDialog (setFormEnabled b (form d)) (collection d)
  | SelectRepeat v => mkDialog (handleRepeatChange v (form d)) (collection d)
  | ClickDay idx => mkDialog (clickDay idx (form d)) (collection d)
  | Submit uuid => submit uuid d
  end.

(** The day buttons are rendered for the indices 0..6, and only while
    the form's repeat is weekly; the other controls are always there. *)
Definition offered (d : Dialog) (e : DialogEvent) : bool :=
  match e with
  | ClickDay idx =>
      match formRepeat (form d) with
      | Weekly => (0 <=? idx) && (idx <=? 6)
      | _ => false
      end
  | _ => true
  end.

(** A session: the events in order, each one offered by the dialog as
    it stands; [None] when an event is not offered. *)
Fixpoint session (events : list DialogEvent) (d : Dialog) : option Dialog :=
  match events with
  | [] => Some d
  | e :: rest => if offered d e then session rest (handle e d) else None
  end.

(** ** The two persistence effects at mount *)

(** The load effect: [Some items] when it calls [setReminders(items)]. *)
Definition loadEffect (s : Stored) : option (list json) :=
  match s with
  | NoValue => None
  | Unparsable => None
  | Parsed parsed =>
      if isReminderArray parsed
      then match parsed with JArr items => Some items | _ => None end
      else None
  end.

(** The save effect for a collection of parsed objects:
    [localStorage.setItem(STORAGE_KEY, JSON.stringify(reminders))]
    puts the collection under the key, unless [setItem] throws
    ([writable] is false), which the effect catches. *)
Definition saveEffect (writable : bool) (items : list json) (stored : Stored) : Stored :=
  if writable then Parsed (JArr items) else stored.

(** The first render has [reminders = []]: the load effect runs, then
    the save effect with that empty collection; when the load effect
    has set the collection, the next render runs the save effect
    again.  The result is the collection in memory and the value under
    the storage key. *)
Definition mount (writable : bool) (s : Stored) : list json * Stored :=
  let afterFirstSave := saveEffect writable [] s in
  match loadEffect s with
  | Some items => (items, saveEffect writable items afterFirstSave)
  | None => ([], afterFirstSave)
  end.

(** [{ ...r, nextSnoozeAt: snoozeUntil }]. *)
Definition snoozedUntil (t : Z) (r : Reminder) : Reminder :=
  mkReminder (id r) (title r) (time r) (enabled r) (repeat r)
             (daysOfWeek r) (lastTriggeredKey r) (Some t).

(** ** Predicates *)

(** The days are kept only while the repeat is weekly, and they are
    distinct indices of day buttons. *)
Definition formOk (f : Form) : Prop :=
  (formRepeat f <> Weekly -> formWeekDays f = [])
  /\ NoDup (formWeekDays f)
  /\ Forall (fun d => 0 <= d <= 6) (formWeekDays f).

(** A list of weekdays in ascending order without repetition. *)
Definition weekdaysOk (ds : list Z) : Prop :=
  StronglySorted Z.lt ds /\ Forall (fun d => 0 <= d <= 6) ds.

(** What the dialog guarantees of a reminder it has created. *)
Definition createdOk (r : Reminder) : Prop :=
  title r <> ""
  /\ JsString.trim (title r) = title r
  /\ time r <> ""
  /\ lastTriggeredKey r = None
  /\ nextSnoozeAt r = None
  /\ match repeat r with
     | Weekly => exists ds, daysOfWeek r = Some ds /\ weekdaysOk ds
     | _ => daysOfWeek r = None
     end.

(** ** Values used in examples *)

(** A second daily reminder for 08:00, and the tick of 08:00:02 on
    the next day. *)
Definition calcium : Reminder :=
  mkReminder "id-calcium" "Calcium" "08:00" true Daily None None None.

Definition next_day_08_00_02 : Clock := mkClock 1704182402000 8 0 "2024-01-02" 2.

End RemindersPage.

(* ================================================================== *)
(** * The AQI page around the index: category, advice, error text *)
(* ================================================================== *)

Module AqiPage.
Import Aqi64.

Record Colors : Type := mkColors {
  ringClass : string;
  textClass : string
}.

Definition colorForAqi (val : option float) (isIndia : bool) : Colors :=
  match val with
  | None => mkColors "bg-muted" "text-muted-foreground"
  | Some v =>
      if isIndia then
        if PrimFloat.leb v 50 then mkColors "bg-green-500/20" "text-green-600"
        else if PrimFloat.leb v 100 then mkColors "bg-yellow-500/20" "text-yellow-600"
        else if PrimFloat.leb v 200 then mkColors "bg-orange-500/20" "text-orange-600"
        else if PrimFloat.leb v 300 then mkColors "bg-red-500/20" "text-red-600"
        else if PrimFloat.leb v 400 then mkColors "bg-red-600/20" "text-red-700"
        else mkColors "bg-rose-700/20" "text-rose-700"
      else
        if PrimFloat.leb v 50 then mkColors "bg-green-500/20" "text-green-600"
        else if PrimFloat.leb v 100 then mkColors "bg-yellow-500/20" "text-yellow-600"
        else if PrimFloat.leb v 150 then mkColors "bg-orange-500/20" "text-orange-600"
        else if PrimFloat.leb v 200 then mkColors "bg-red-500/20" "text-red-600"
        else if PrimFloat.leb v 300 then mkColors "bg-purple-500/20" "text-purple-600"
        else mkColors "bg-rose-700/20" "text-rose-700"
  end.

Record CategorySummary : Type := mkCategorySummary {
  label : string;
  categoryRingClass : string;
  categoryTextClass : string;
  categoryAqi : option float;
  aqiType : string
}.

Definition defaultCategory : CategorySummary :=
  mkCategorySummary "-" "bg-muted" "text-muted-foreground" None "US".

(** The [category] memo; [air] is the [components] of the reading, or
    [None] while there is no reading. *)
Definition category (air : option Components) (country : string) : CategorySummary :=
  match air with
  | None => defaultCategory
  | Some components =>
      let isIndia := String.eqb country "IN" in
      let a := aqi country (Some components) in
      let colors := colorForAqi a isIndia in
      mkCategorySummary (labelForAqi a isIndia) (ringClass colors) (textClass colors) a
                        (if isIndia then "India" else "US")
  end.

(** The text of the "Health Recommendations" card when the page is
    neither loading nor in error. *)
Definition healthRecommendation (c : CategorySummary) : string :=
  if String.eqb (label c) "Good"
  then "Air quality is satisfactory. Enjoy outdoor activities."
  else if String.eqb (label c) "Satisfactory"
  then "Acceptable; some risk for sensitive groups."
  else if String.eqb (label c) "Moderate"
  then (if String.eqb (aqiType c) "India"
        then "Sensitive groups should limit prolonged outdoor exertion."
        else "Acceptable; some risk for sensitive groups.")
  else if String.eqb (label c) "Unhealthy for Sensitive Groups"
  then "Sensitive groups should limit prolonged outdoor exertion."
  else if String.eqb (label c) "Poor" || String.eqb (label c) "Unhealthy"
  then "Everyone may experience health effects; reduce outdoor exertion."
  else if String.eqb (label c) "Very Poor" || String.eqb (label c) "Very Unhealthy"
  then "Health alert: avoid outdoor activities; consider PM-rated mask."
  else "Hazardous: stay indoors with filtered air; avoid outdoor exposure.".

(** A value caught by [catch (error: unknown)]. *)
Inductive Thrown : Type :=
| ErrorObject (message : string)   (* error instanceof Error *)
| StringValue (text : string)      (* typeof error === "string" *)
| OtherValue.

Definition getErrorMessage (error : Thrown) (fallback : string) : string :=
  match error with
  | ErrorObject message => if JsString.truthy message then message else fallback
  | StringValue text =>
      if (0 <? Z.of_nat (String.length (JsString.trim text))) then text else fallback
  | OtherValue => fallback
  end.

End AqiPage.

(* ================================================================== *)
(** * [pages/Dashboard.tsx]: the symptom panel *)
(* ================================================================== *)

Module Dashboard.
Import JsString SymptomChecker.

Inductive Toast : Type :=
| ToastError (message : string)
| ToastSuccess (message : string).

(** The state hooks of the panel, and the toasts shown so far. *)
Record Panel : Type := mkPanel {
  symptomInput : string;
  isAnalyzing : bool;
  analysisResult : option SymptomAnalysis;
  toasts : list Toast
}.

(** [handleAnalyzeSymptoms], from the click to the end of the
    [finally] block; [remote] is what the request made by
    [analyzeSymptoms] comes to. *)
Definition handleAnalyzeSymptoms (remote : Remote) (p : Panel) : Panel :=
  if negb (truthy (trim (symptomInput p)))
  then mkPanel (symptomInput p) (isAnalyzing p) (analysisResult p)
               (toasts p ++ [ToastError "Please describe your symptoms"])
  else
    match analyzeSymptoms (symptomInput p) remote with
    | Returns result =>
        mkPanel (symptomInput p) false (Some result)
                (toasts p ++ [ToastSuccess "Symptom analysis completed"])
    | Throws message =>
        mkPanel (symptomInput p) false None
                (toasts p ++ [ToastError (if truthy message then message
                                          else "Failed to analyze symptoms. Please try again.")])
    end.

(** The panel renders [analysisResult.possibleConditions.map],
    [analysisResult.recommendations.map] and
    [analysisResult.severity.charAt]: each of the three fields has to
    be there. *)
Definition renders (a : SymptomAnalysis) : bool :=
  match possibleConditions a, recommendations a, severity a with
  | Some _, Some _, Some _ => true
  | _, _, _ => false
  end.

(** No item contains a list separator. *)
Definition noSeparator (s : string) : bool :=
  negb (existsb isListSeparator (list_ascii_of_string s)).

End Dashboard.


(* ================================================================== *)
(** * Properties of the reminder scheduler *)
(* ================================================================== *)

Module SchedulerFacts.
Import Json Reminders Scenario.

Lemma snoozeDue_iff (c : Clock) (r : Reminder) :
  snoozeDue c r = true <-> exists t, nextSnoozeAt r = Some t /\ t <> 0 /\ t <= nowMs c.
Proof.
  unfold snoozeDue. destruct (nextSnoozeAt r) as [t|].
  - rewrite andb_true_iff, negb_true_iff, Z.eqb_neq, Z.leb_le. split.
    + intros [Hnz Hle]. exists t. auto.
    + intros (t' & Heq & Hnz & Hle). injection Heq as <-. auto.
  - split; [discriminate | intros (t & Heq & _); discriminate].
Qed.

Lemma timeDue_iff (c : Clock) (r : Reminder) :
  timeDue c r = true <->
  time r = currentTime c
  /\ lastTriggeredKey r <> Some (currentKey c)
  /\ (repeat r = Weekly -> exists ds, daysOfWeek r = Some ds /\ In (day c) ds).
Proof.
  unfold timeDue, keyIs.
  destruct (String.eqb_spec (time r) (currentTime c)) as [Ht|Ht]; simpl.
  2:{ split; [discriminate | intros [K _]; contradiction]. }
  destruct (lastTriggeredKey r) as [k|].
  - destruct (String.eqb_spec k (currentKey c)) as [Hk|Hk].
    + split; [discriminate|]. intros (_ & K & _). subst k. now contradiction K.
    + assert (Hk' : Some k <> Some (currentKey c)) by congruence.
      destruct (repeat r) eqn:Hrep; try (split; [intros _; repeat split; auto; discriminate | reflexivity]).
      destruct (daysOfWeek r) as [ds|].
      * rewrite existsb_exists. split.
        -- intros (d & Hd & Heq). apply Z.eqb_eq in Heq. subst d.
           repeat split; auto. intros _. eauto.
        -- intros (_ & _ & K). destruct (K eq_refl) as (ds' & Heq & Hin).
           injection Heq as <-. exists (day c). split; [exact Hin | apply Z.eqb_refl].
      * split; [discriminate|]. intros (_ & _ & K).
        destruct (K eq_refl) as (ds' & Heq & _). discriminate.
  - destruct (repeat r) eqn:Hrep;
      try (split; [intros _; repeat split; auto; discriminate | reflexivity]).
    destruct (daysOfWeek r) as [ds|].
    * rewrite existsb_exists. split.
      -- intros (d & Hd & Heq). apply Z.eqb_eq in Heq. subst d.
         repeat split; auto; [discriminate|]. intros _. eauto.
      -- intros (_ & _ & K). destruct (K eq_refl) as (ds' & Heq & Hin).
         injection Heq as <-. exists (day c). split; [exact Hin | apply Z.eqb_refl].
    * split; [discriminate|]. intros (_ & _ & K).
      destruct (K eq_refl) as (ds' & Heq & _). discriminate.
Qed.

Lemma snoozeDueEnabled_bool (c : Clock) (r : Reminder) :
  snoozeDueEnabled c r <-> enabled r = true /\ snoozeDue c r = true.
Proof. unfold snoozeDueEnabled. now rewrite snoozeDue_iff. Qed.

Lemma freshTimeMatch_bool (c : Clock) (r : Reminder) :
  freshTimeMatch c r <-> enabled r = true /\ timeDue c r = true.
Proof. unfold freshTimeMatch. now rewrite timeDue_iff. Qed.

(** The loop body reaches a trigger exactly for an enabled reminder
    that is snooze-due or has a fresh time match. *)
Lemma fires_iff (c : Clock) (r : Reminder) :
  fires c r = true <-> snoozeDueEnabled c r \/ freshTimeMatch c r.
Proof.
  rewrite snoozeDueEnabled_bool, freshTimeMatch_bool. unfold fires.
  destruct (enabled r), (snoozeDue c r), (timeDue c r); simpl; intuition congruence.
Qed.

(** The loop hands to [triggerReminder] the first reminder, in list
    order, on which the body reaches a trigger. *)
Lemma scan_Some (c : Clock) (rs : list Reminder) (r : Reminder) :
  scan c rs = Some r <->
  exists pre post, rs = (pre ++ r :: post)%list
                   /\ Forall (fun x => fires c x = false) pre
                   /\ fires c r = true.
Proof.
  split.
  - induction rs as [|x rs IH]; simpl; [discriminate|].
    destruct (fires c x) eqn:Hx; intros H.
    + injection H as ->. exists [], rs. auto.
    + destruct (IH H) as (pre & post & -> & Hpre & Hr).
      exists (x :: pre), post. auto.
  - intros (pre & post & -> & Hpre & Hr).
    induction Hpre as [|x pre Hx _ IH]; simpl.
    + now rewrite Hr.
    + now rewrite Hx.
Qed.

Lemma scan_None (c : Clock) (rs : list Reminder) :
  scan c rs = None <-> Forall (fun x => fires c x = false) rs.
Proof.
  induction rs as [|x rs IH]; simpl.
  - split; auto.
  - destruct (fires c x) eqn:Hx; split; intros H.
    + discriminate.
    + inversion H; congruence.
    + constructor; tauto.
    + inversion H; tauto.
Qed.

Lemma scan_In (c : Clock) (rs : list Reminder) (r : Reminder) :
  scan c rs = Some r -> In r rs.
Proof.
  intros H. apply scan_Some in H. destruct H as (pre & post & -> & _ & _).
  apply in_elt.
Qed.

Lemma tick_fires (c : Clock) (st : State) (r : Reminder) :
  scan c (reminders st) = Some r -> tick c st = triggerReminder r (currentKey c) st.
Proof.
  intros H. unfold tick. rewrite H.
  destruct (reminders st); [discriminate | reflexivity].
Qed.

(** [triggerReminder] changes the dedup key and [enabled] only. *)
Lemma markTriggered_nextSnoozeAt (i key : string) (r : Reminder) :
  nextSnoozeAt (markTriggered i key r) = nextSnoozeAt r.
Proof. unfold markTriggered. now destruct (negb (String.eqb (id r) i)). Qed.

Lemma markTriggered_other (i key : string) (r : Reminder) :
  id r <> i -> markTriggered i key r = r.
Proof.
  intros H. unfold markTriggered.
  destruct (String.eqb_spec (id r) i); [contradiction | reflexivity].
Qed.

Lemma triggerReminder_nextSnoozeAt (rem : Reminder) (key : string) (st : State) :
  map nextSnoozeAt (reminders (triggerReminder rem key st)) = map nextSnoozeAt (reminders st).
Proof.
  simpl. rewrite map_map. apply map_ext. intros r. apply markTriggered_nextSnoozeAt.
Qed.

(** A snooze that is due stays due: once a repeating reminder has been
    triggered through the snooze check, every later tick finds a
    reminder to trigger. *)
Lemma consumed_snooze_stays_due (c c' : Clock) (st : State) (r : Reminder) :
  scan c (reminders st) = Some r ->
  snoozeDueEnabled c r ->
  repeat r <> RepeatNone ->
  nowMs c <= nowMs c' ->
  exists r', In r' (reminders (tick c st))
             /\ id r' = id r
             /\ nextSnoozeAt r' = nextSnoozeAt r
             /\ snoozeDueEnabled c' r'
             /\ scan c' (reminders (tick c st)) <> None.
Proof.
  intros Hscan Hsd Hrep Hle.
  apply snoozeDueEnabled_bool in Hsd. destruct Hsd as [Hen Hdue].
  pose proof (scan_In _ _ _ Hscan) as Hin.
  pose proof (tick_fires _ _ _ Hscan) as Htick.
  set (r' := markTriggered (id r) (currentKey c) r).
  assert (Hin' : In r' (reminders (tick c st))).
  { rewrite Htick. simpl. now apply in_map. }
  assert (Hr' : r' = mkReminder (id r) (title r) (time r) (enabled r) (repeat r)
                                (daysOfWeek r) (Some (currentKey c)) (nextSnoozeAt r)).
  { unfold r', markTriggered. rewrite String.eqb_refl. simpl.
    destruct (repeat r); [contradiction | reflexivity | reflexivity]. }
  assert (Hdue' : snoozeDueEnabled c' r').
  { apply snoozeDueEnabled_bool.
    rewrite Hr'. split; [exact Hen|]. unfold snoozeDue in *. simpl.
    destruct (nextSnoozeAt r) as [t|]; [|discriminate].
    apply andb_true_iff in Hdue. destruct Hdue as [Hnz Ht].
    apply andb_true_iff. split; [exact Hnz|].
    apply Z.leb_le in Ht. apply Z.leb_le. lia. }
  exists r'. split; [exact Hin'|]. split; [now rewrite Hr'|].
  split; [now rewrite Hr'|]. split; [exact Hdue'|].
  intros Hnone. apply scan_None in Hnone. rewrite Forall_forall in Hnone.
  specialize (Hnone r' Hin').
  assert (fires c' r' = true) by (apply fires_iff; now left). congruence.
Qed.

Lemma consumed_snooze_stays_due_witness :
  scan at_08_05_36 (reminders (tick at_08_05_31 snoozed)) <> None.
Proof.
  destruct (consumed_snooze_stays_due at_08_05_31 at_08_05_36 snoozed
              (mkReminder "id-aspirin" "Aspirin 100mg" "08:00" true Daily None
                          (Some "2024-01-01-08:00") (Some 1704096330000)))
    as (r' & _ & _ & _ & _ & Hscan).
  - reflexivity.
  - apply snoozeDueEnabled_bool. split; reflexivity.
  - discriminate.
  - discriminate.
  - exact Hscan.
Defined.

(** (C1) The run: the 08:00 alarm is snoozed for five minutes; the
    tick at 08:05:31 triggers the reminder through the snooze check.
    The state after that trigger still holds the consumed
    [nextSnoozeAt], and the tick five seconds later triggers the same
    reminder through the snooze check again. *)
Theorem snooze_trigger_keeps_nextSnoozeAt :
  map nextSnoozeAt (reminders snoozed) = [Some 1704096330000]
  /\ (exists r, scan at_08_05_31 (reminders snoozed) = Some r
                /\ snoozeDueEnabled at_08_05_31 r)
  /\ map nextSnoozeAt (reminders rungAgain) = [Some 1704096330000]
  /\ (exists r, scan at_08_05_36 (reminders rungAgain) = Some r
                /\ id r = "id-aspirin"
                /\ snoozeDueEnabled at_08_05_36 r).
Proof.
  split; [reflexivity|]. split; [|split; [reflexivity|]].
  - eexists. split; [vm_compute; reflexivity|].
    apply snoozeDueEnabled_bool. split; reflexivity.
  - eexists. split; [vm_compute; reflexivity|]. split; [reflexivity|].
    apply snoozeDueEnabled_bool. split; reflexivity.
Qed.

(** ** Dedup *)

(** (C3, as stated) The reminder was triggered for 2024-01-01 08:00
    by the tick at 08:00:02, which recorded the composite key of that
    minute; its snooze, set before, elapses at 08:00:30.  The tick at
    08:00:32, still in that minute, triggers the reminder a second
    time, through the snooze check. *)
Lemma pending_snooze_fires_in_same_minute :
  currentKey at_08_00_02 = currentKey at_08_00_32
  /\ map lastTriggeredKey (reminders snoozedLate) = [Some "2023-12-31-08:00"]
  /\ map nextSnoozeAt (reminders snoozedLate) = [Some 1704096030000]
  /\ (exists r, scan at_08_00_02 (reminders snoozedLate) = Some r
                /\ ~ snoozeDueEnabled at_08_00_02 r
                /\ freshTimeMatch at_08_00_02 r)
  /\ exists r, In r (reminders rungOnTime)
               /\ lastTriggeredKey r = Some (currentKey at_08_00_32)
               /\ scan at_08_00_32 (reminders rungOnTime) = Some r.
Proof.
  split; [reflexivity|]. split; [reflexivity|]. split; [reflexivity|]. split.
  - eexists. split; [vm_compute; reflexivity|]. split.
    + intros K. apply snoozeDueEnabled_bool in K. destruct K as [_ K]. discriminate K.
    + apply freshTimeMatch_bool. split; reflexivity.
  - eexists. split; [left; reflexivity|]. split; [reflexivity | vm_compute; reflexivity].
Qed.

Lemma deduped_not_fires (c : Clock) (x : Reminder) :
  lastTriggeredKey x = Some (currentKey c) -> snoozeDue c x = false -> fires c x = false.
Proof.
  intros Hk Hs. unfold fires, timeDue, keyIs. rewrite Hs, Hk, String.eqb_refl.
  destruct (enabled x); simpl; [|reflexivity].
  now destruct (negb (String.eqb (time x) (currentTime c))).
Qed.

Lemma markTriggered_id (i key : string) (x : Reminder) : id (markTriggered i key x) = id x.
Proof. unfold markTriggered. now destruct (negb (String.eqb (id x) i)). Qed.

Lemma markTriggered_key (key : string) (x : Reminder) :
  lastTriggeredKey (markTriggered (id x) key x) = Some key.
Proof. unfold markTriggered. now rewrite String.eqb_refl. Qed.

(** A tick leaves the reminders of an id it does not trigger as they
    are. *)
Lemma tick_other_ids (c : Clock) (st : State) (i : string) :
  (forall r, scan c (reminders st) = Some r -> id r <> i) ->
  forall x, id x = i -> (In x (reminders (tick c st)) <-> In x (reminders st)).
Proof.
  intros Hne x Hx.
  destruct (scan c (reminders st)) as [r|] eqn:Hs.
  2:{ assert (E : tick c st = st) by (unfold tick; rewrite Hs; now destruct (reminders st)).
      now rewrite E. }
  rewrite (tick_fires c st r Hs).
  specialize (Hne r eq_refl). simpl. rewrite in_map_iff. split.
  - intros (y & Hy & Hin).
    assert (Hid : id y <> id r).
    { rewrite <- (markTriggered_id (id r) (currentKey c) y), Hy, Hx. congruence. }
    rewrite (markTriggered_other _ _ _ Hid) in Hy. now subst.
  - intros Hin. exists x. split; [|exact Hin].
    apply markTriggered_other. congruence.
Qed.

(** (C3, amended) A trigger records the composite key of its tick in
    the reminder it rings.  A reminder that holds the composite key of
    a date and time, and whose snooze is not due at the ticks in
    question, is triggered by no tick of that date and time, however
    many of them follow one another, and those ticks leave it as it
    is.  The key does not cover the snooze: an enabled reminder whose
    snooze is due is triggered, with that key or without, by a tick
    at which no reminder listed before it is triggered. *)
Theorem dedup_on_time_path (i key : string) (cs : list Clock) (st : State) :
  (forall c r, scan c (reminders st) = Some r ->
               tick c st = triggerReminder r (currentKey c) st
               /\ forall x, In x (reminders (tick c st)) -> id x = id r ->
                            lastTriggeredKey x = Some (currentKey c))
  /\ ((forall c, In c cs -> currentKey c = key) ->
      (forall x, In x (reminders st) -> id x = i ->
                 lastTriggeredKey x = Some key
                 /\ forall c, In c cs -> snoozeDue c x = false) ->
      ~ In i (triggeredBy cs st)
      /\ forall x, id x = i -> (In x (reminders (ticks cs st)) <-> In x (reminders st)))
  /\ (forall c pre r post,
         reminders st = (pre ++ r :: post)%list ->
         Forall (fun x => fires c x = false) pre ->
         enabled r = true ->
         snoozeDue c r = true ->
         tick c st = triggerReminder r (currentKey c) st).
Proof.
  split; [|split].
  - intros c r Hscan. split; [now apply tick_fires|].
    rewrite (tick_fires c st r Hscan). simpl. intros x Hin Hid.
    apply in_map_iff in Hin. destruct Hin as (y & <- & Hy).
    rewrite markTriggered_id in Hid. rewrite <- Hid. apply markTriggered_key.
  - revert st. induction cs as [|c rest IH]; intros st Hkey Hinv.
    + simpl. split; [intros [] | intros x _; reflexivity].
    + assert (Hne : forall r, scan c (reminders st) = Some r -> id r <> i).
      { intros r Hscan Hid.
        pose proof (scan_In c _ r Hscan) as Hin.
        destruct (Hinv r Hin Hid) as [Hk Hs].
        apply scan_Some in Hscan. destruct Hscan as (_ & _ & _ & _ & Hf).
        rewrite (deduped_not_fires c r) in Hf; [discriminate | |].
        - rewrite Hk. f_equal. symmetry. apply Hkey. now left.
        - apply Hs. now left. }
      pose proof (tick_other_ids c st i Hne) as Hsame.
      destruct (IH (tick c st)) as [Hnot Hkeep].
      * intros c' Hc'. apply Hkey. now right.
      * intros x Hin Hid. apply (Hsame x Hid) in Hin.
        destruct (Hinv x Hin Hid) as [Hk Hs]. split; [exact Hk|].
        intros c' Hc'. apply Hs. now right.
      * split.
        -- simpl. destruct (scan c (reminders st)) as [r|] eqn:Hscan; [|exact Hnot].
           intros [Hid|Hin]; [exact (Hne r eq_refl Hid) | exact (Hnot Hin)].
        -- intros x Hid. simpl. rewrite (Hkeep x Hid). now apply Hsame.
  - intros c pre r post Heq Hpre Hen Hs. apply tick_fires. apply scan_Some.
    exists pre, post. split; [exact Heq|]. split; [exact Hpre|].
    unfold fires. now rewrite Hen, Hs.
Qed.

(** The reminder of 08:00, rung by the tick at 08:00:02: the ticks at
    08:00:07, 08:00:12 and 08:00:32 do not ring it again. *)
Lemma dedup_on_time_path_witness :
  lastTriggeredKey triggeredAspirin = Some (currentKey at_08_00_02)
  /\ In triggeredAspirin (reminders rung)
  /\ ~ In "id-aspirin" (triggeredBy [at_08_00_07; at_08_00_12; at_08_00_32] rung).
Proof.
  destruct (dedup_on_time_path "id-aspirin" (currentKey at_08_00_02)
              [at_08_00_07; at_08_00_12; at_08_00_32] started) as (Hrec & _ & _).
  destruct (Hrec at_08_00_02 aspirin eq_refl) as [_ Hkey].
  split; [apply (Hkey triggeredAspirin); [now left | reflexivity]|].
  split; [now left|].
  destruct (dedup_on_time_path "id-aspirin" (currentKey at_08_00_02)
              [at_08_00_07; at_08_00_12; at_08_00_32] rung) as (_ & Hdedup & _).
  destruct Hdedup as [Hnot _].
  - intros c [<-|[<-|[<-|[]]]]; reflexivity.
  - intros x [<-|[]] _. split; [reflexivity|].
    intros c [<-|[<-|[<-|[]]]]; reflexivity.
  - exact Hnot.
Defined.

(** ** Snooze priority *)

(** (C2, as stated) The reminder for 08:05 stands before the
    reminder whose snooze is due; both are enabled.  The tick at
    08:05:31 triggers the reminder for 08:05, not the snoozed one. *)
Lemma time_match_listed_first_wins :
  snoozeDueEnabled at_08_05_31 aspirinSnoozed
  /\ freshTimeMatch at_08_05_31 vitamin
  /\ id vitamin <> id aspirinSnoozed
  /\ scan at_08_05_31 [vitamin; aspirinSnoozed] = Some vitamin
  /\ scan at_08_05_31 [vitamin; aspirinSnoozed] <> Some aspirinSnoozed.
Proof.
  split; [apply snoozeDueEnabled_bool; split; reflexivity|].
  split; [apply freshTimeMatch_bool; split; reflexivity|].
  split; [discriminate|]. split; [reflexivity | vm_compute; discriminate].
Qed.

(** (C2, amended) In a tick in which some enabled reminder is
    snooze-due, exactly one reminder is triggered: the first one in
    list order that is enabled and is snooze-due or has a fresh time
    match.  It is the snooze-due reminder whenever no such reminder
    stands before it in the list, and the trigger leaves every
    reminder with another id as it was. *)
Theorem first_eligible_reminder_fires (c : Clock) (st : State) (a : Reminder) :
  In a (reminders st) ->
  snoozeDueEnabled c a ->
  exists pre r post,
    reminders st = (pre ++ r :: post)%list
    /\ Forall (fun x => ~ snoozeDueEnabled c x /\ ~ freshTimeMatch c x) pre
    /\ (snoozeDueEnabled c r \/ freshTimeMatch c r)
    /\ scan c (reminders st) = Some r
    /\ tick c st = triggerReminder r (currentKey c) st
    /\ (forall x, id x <> id r -> markTriggered (id r) (currentKey c) x = x)
    /\ (forall pre' post',
           reminders st = (pre' ++ a :: post')%list ->
           Forall (fun x => ~ snoozeDueEnabled c x /\ ~ freshTimeMatch c x) pre' ->
           r = a).
Proof.
  intros Hin Ha.
  assert (Hfa : fires c a = true) by (apply fires_iff; now left).
  destruct (scan c (reminders st)) as [r|] eqn:Hscan.
  2:{ apply scan_None in Hscan. rewrite Forall_forall in Hscan.
      specialize (Hscan a Hin). congruence. }
  pose proof Hscan as Hdec. apply scan_Some in Hdec.
  destruct Hdec as (pre & post & Heq & Hpre & Hr).
  assert (Hnot : forall l, Forall (fun x => fires c x = false) l <->
                           Forall (fun x => ~ snoozeDueEnabled c x /\ ~ freshTimeMatch c x) l).
  { intros l. rewrite !Forall_forall. split; intros H x Hx; specialize (H x Hx).
    - split; intros K; [assert (fires c x = true) by (apply fires_iff; now left)
                       | assert (fires c x = true) by (apply fires_iff; now right)];
        congruence.
    - destruct (fires c x) eqn:E; [|reflexivity].
      apply fires_iff in E. tauto. }
  exists pre, r, post. repeat split.
  - exact Heq.
  - now apply Hnot.
  - now apply fires_iff.
  - now apply tick_fires.
  - intros x Hx. now apply markTriggered_other.
  - intros pre' post' Heq' Hpre'.
    assert (Hsa : scan c (reminders st) = Some a).
    { apply scan_Some. exists pre', post'. repeat split; [exact Heq' | now apply Hnot | exact Hfa]. }
    congruence.
Qed.

Lemma first_eligible_reminder_fires_witness :
  exists r, scan at_08_05_31 [aspirinSnoozed; vitamin] = Some r /\ r = aspirinSnoozed.
Proof.
  destruct (first_eligible_reminder_fires at_08_05_31
              (mkState [aspirinSnoozed; vitamin] None false) aspirinSnoozed)
    as (pre & r & post & _ & _ & _ & Hscan & _ & _ & Hfirst).
  - simpl. now left.
  - apply snoozeDueEnabled_bool. split; reflexivity.
  - exists r. split; [exact Hscan|].
    apply (Hfirst [] [vitamin]); [reflexivity | constructor].
Defined.

(** Zero or one trigger per tick, the first match winning: either the
    tick triggers the first reminder in list order that is enabled and
    is snooze-due or has a fresh time match, or there is no such
    reminder and the tick leaves the state as it is. *)
Lemma tick_outcome (c : Clock) (st : State) :
  (exists pre r post,
      reminders st = (pre ++ r :: post)%list
      /\ Forall (fun x => ~ snoozeDueEnabled c x /\ ~ freshTimeMatch c x) pre
      /\ (snoozeDueEnabled c r \/ freshTimeMatch c r)
      /\ tick c st = triggerReminder r (currentKey c) st)
  \/ (Forall (fun x => ~ snoozeDueEnabled c x /\ ~ freshTimeMatch c x) (reminders st)
      /\ tick c st = st).
Proof.
  assert (Hnot : forall l, Forall (fun x => fires c x = false) l ->
                           Forall (fun x => ~ snoozeDueEnabled c x /\ ~ freshTimeMatch c x) l).
  { intros l H. eapply Forall_impl; [|exact H]. intros x Hx.
    split; intros K;
      [assert (fires c x = true) by (apply fires_iff; now left)
      | assert (fires c x = true) by (apply fires_iff; now right)]; congruence. }
  destruct (scan c (reminders st)) as [r|] eqn:Hscan.
  - left. pose proof Hscan as Hdec. apply scan_Some in Hdec.
    destruct Hdec as (pre & post & Heq & Hpre & Hr).
    exists pre, r, post. split; [exact Heq|]. split; [now apply Hnot|].
    split; [now apply fires_iff | now apply tick_fires].
  - right. split; [apply Hnot; now apply scan_None|].
    unfold tick. rewrite Hscan. now destruct (reminders st).
Qed.

(** ** Persistence *)

Lemma isRepeatOption_In (s : string) :
  isRepeatOption s = true <-> In s ["none"; "daily"; "weekly"].
Proof.
  unfold isRepeatOption, repeatOptions. rewrite existsb_exists. split.
  - intros (x & Hx & Heq). apply String.eqb_eq in Heq. now subst.
  - intros H. exists s. split; [exact H | apply String.eqb_refl].
Qed.

Lemma isReminderItem_spec (item : json) :
  isReminderItem item = true <-> wellFormedItem item.
Proof.
  unfold isReminderItem, wellFormedItem. split.
  - destruct item as [| | | |items|fs]; simpl; try discriminate.
    unfold isString, isBoolean.
    destruct (lookup "id" fs) as [[| | |i| |]|] eqn:Hi; simpl; try discriminate.
    destruct (lookup "title" fs) as [[| | |t| |]|] eqn:Ht; simpl; try discriminate.
    destruct (lookup "time" fs) as [[| | |tm| |]|] eqn:Htm; simpl; try discriminate.
    destruct (lookup "enabled" fs) as [[|e| | | |]|] eqn:He; simpl; try discriminate.
    destruct (lookup "repeat" fs) as [[| | |rp| |]|] eqn:Hrp; simpl; try discriminate.
    intros H. apply isRepeatOption_In in H.
    exists fs, i, t, tm, e, rp. repeat split; auto.
  - intros (fs & i & t & tm & e & rp & -> & Hi & Ht & Htm & He & Hrp & Hin).
    simpl. rewrite Hi, Ht, Htm, He, Hrp. simpl. now apply isRepeatOption_In.
Qed.

Lemma isReminderArray_spec (v : json) :
  isReminderArray v = true <-> exists items, v = JArr items /\ Forall wellFormedItem items.
Proof.
  destruct v as [| | | |items|fs]; simpl;
    try (split; [discriminate | intros (? & ? & _); discriminate]).
  rewrite forallb_forall, <- Forall_forall. split.
  - intros H. exists items. split; [reflexivity|].
    eapply Forall_impl; [|exact H]. intros x. apply isReminderItem_spec.
  - intros (items' & Heq & H). injection Heq as <-.
    eapply Forall_impl; [|exact H]. intros x. apply isReminderItem_spec.
Qed.

(** (C9, as stated) The stored array holds a reminder as the page
    saves it and an element that is no Reminder record (empty title,
    time 25:99, [daysOfWeek] and [nextSnoozeAt] strings): not every
    element is a well-formed Reminder record, and the array is loaded
    whole. *)
Lemma ill_formed_reminder_is_loaded :
  wellFormedReminder (toJson aspirin)
  /\ ~ wellFormedReminder illFormedIron
  /\ ~ (exists items, JArr [toJson aspirin; illFormedIron] = JArr items
                      /\ Forall wellFormedReminder items)
  /\ load (Parsed (JArr [toJson aspirin; illFormedIron])) = [toJson aspirin; illFormedIron].
Proof.
  assert (Hbad : ~ wellFormedReminder illFormedIron).
  { intros (fs & i & t & tm & e & rp & Heq & _ & Ht & Hne & _).
    injection Heq as <-. simpl in Ht. injection Ht as <-. now apply Hne. }
  split; [|split; [exact Hbad|split; [|reflexivity]]].
  - unfold wellFormedReminder, toJson, aspirin. simpl.
    eexists _, _, _, _, _, _. split; [reflexivity|].
    repeat (split; [reflexivity || discriminate || (right; left; reflexivity) || exact I|]).
    exact I.
  - intros (items & Heq & Hall). injection Heq as <-.
    inversion Hall as [|x l _ Hrest]; subst.
    inversion Hrest as [|y l' Hiron _]; subst. contradiction.
Qed.

Lemma wellFormedReminder_item (item : json) : wellFormedReminder item -> wellFormedItem item.
Proof.
  intros (fs & i & t & tm & e & rp & Heq & Hi & Ht & _ & Htm & _ & He & Hrp & Hin & _).
  exists fs, i, t, tm, e, rp. repeat split; assumption.
Qed.

(** (C9, amended) A stored value that parses, but is not an array
    whose elements all pass the test of the load guard (an object
    with string [id], [title] and [time], boolean [enabled] and
    [repeat] one of the three options), leaves the in-memory list
    empty; an array whose elements all pass it is loaded whole.  So
    the list is empty or the whole stored array, never a part of it.
    Every well-formed Reminder record passes the test; the test does
    not ask for one. *)
Theorem load_fails_closed (v : json) :
  (~ (exists items, v = JArr items /\ Forall wellFormedItem items) -> load (Parsed v) = [])
  /\ (forall items, v = JArr items -> Forall wellFormedItem items -> load (Parsed v) = items)
  /\ (load (Parsed v) = [] \/ v = JArr (load (Parsed v)))
  /\ (forall items, v = JArr items -> Forall wellFormedReminder items ->
                    load (Parsed v) = items).
Proof.
  assert (Hkeep : forall items, v = JArr items -> Forall wellFormedItem items ->
                                load (Parsed v) = items).
  { intros items -> H. simpl.
    assert (E : forallb isReminderItem items = true).
    { apply forallb_forall. rewrite Forall_forall in H. intros x Hx.
      apply isReminderItem_spec. now apply H. }
    now rewrite E. }
  split; [|split; [exact Hkeep|split]].
  - intros H. simpl. destruct (isReminderArray v) eqn:E; [|reflexivity].
    apply isReminderArray_spec in E. contradiction.
  - simpl. destruct (isReminderArray v) eqn:E; [|now left].
    destruct v; try discriminate E. now right.
  - intros items Hv H. apply (Hkeep items Hv).
    eapply Forall_impl; [|exact H]. apply wellFormedReminder_item.
Qed.

Lemma load_fails_closed_witness :
  wellFormedItem (toJson aspirin) /\ load (Parsed mixedArray) = [].
Proof.
  split.
  - apply isReminderItem_spec. reflexivity.
  - apply (proj1 (load_fails_closed mixedArray)).
    intros (items & Heq & Hall). injection Heq as <-.
    inversion Hall as [|x l _ Hrest]; subst.
    inversion Hrest as [|y l' Hnull _]; subst.
    apply isReminderItem_spec in Hnull. discriminate.
Defined.

(** No partial recovery: one element of another shape empties the
    list, whatever the other elements are. *)
Lemma load_drops_whole_array (items : list json) :
  Exists (fun x => ~ wellFormedItem x) items ->
  load (Parsed (JArr items)) = [].
Proof.
  intros Hex. simpl. destruct (forallb isReminderItem items) eqn:E; [|reflexivity].
  rewrite forallb_forall in E. apply Exists_exists in Hex.
  destruct Hex as (x & Hx & Hbad). exfalso. apply Hbad.
  apply isReminderItem_spec. now apply E.
Qed.

Lemma load_drops_whole_array_witness :
  load (Parsed (JArr [toJson aspirin; JNull])) = [].
Proof.
  apply load_drops_whole_array. right. left.
  intros Hwf. apply isReminderItem_spec in Hwf. discriminate.
Defined.

(** A value that is such an array is kept as it is. *)
Lemma load_keeps_valid_array (items : list json) :
  Forall wellFormedItem items -> load (Parsed (JArr items)) = items.
Proof.
  intros H. simpl.
  assert (E : forallb isReminderItem items = true).
  { apply forallb_forall. rewrite Forall_forall in H. intros x Hx.
    apply isReminderItem_spec. now apply H. }
  now rewrite E.
Qed.

(** ** The [daysOfWeek] invariant *)

(** (C10, as stated) A stored array holding a weekly reminder with
    no [daysOfWeek] passes the validation, so the rehydrated
    collection holds a reminder with [repeat] weekly and [daysOfWeek]
    undefined. *)
Lemma rehydrated_weekly_without_days :
  load (Parsed (JArr [weeklyWithoutDays])) = [weeklyWithoutDays]
  /\ prop "repeat" weeklyWithoutDays = Some (JStr "weekly")
  /\ prop "daysOfWeek" weeklyWithoutDays = None
  /\ asReminder weeklyWithoutDays = Some weeklyWithoutDaysReminder
  /\ repeat weeklyWithoutDaysReminder = Weekly
  /\ daysOfWeek weeklyWithoutDaysReminder = None
  /\ ~ daysInvariant weeklyWithoutDaysReminder.
Proof.
  repeat split.
  intros [_ H]. now apply H.
Qed.

Lemma asInteger_inject_Z (z : Z) : asInteger (inject_Z z) = Some z.
Proof.
  unfold asInteger. rewrite Qfloor_Z.
  now rewrite (proj2 (Qeq_bool_iff _ _) (Qeq_refl _)).
Qed.

Lemma asIntegers_inject_Z (ds : list Z) :
  asIntegers (map (fun z => JNum (inject_Z z)) ds) = Some ds.
Proof.
  induction ds as [|d ds IH]; simpl; [reflexivity|].
  now rewrite asInteger_inject_Z, IH.
Qed.

(** Reading back what [JSON.stringify] wrote. *)
Lemma asReminder_toJson (r : Reminder) : asReminder (toJson r) = Some r.
Proof.
  destruct r as [i t tm e rp days key snooze].
  destruct rp, days as [ds|], key as [k|], snooze as [z|]; cbn;
    rewrite ?asIntegers_inject_Z, ?asInteger_inject_Z; reflexivity.
Qed.

Lemma isReminderItem_toJson (r : Reminder) : isReminderItem (toJson r) = true.
Proof. destruct r as [i t tm e rp days key snooze]. now destruct rp. Qed.

Lemma load_save (rs : list Reminder) : load (save rs) = map toJson rs.
Proof.
  unfold save. apply load_keeps_valid_array.
  apply Forall_forall. intros x Hx. apply in_map_iff in Hx.
  destruct Hx as (r & <- & _). apply isReminderItem_spec, isReminderItem_toJson.
Qed.

(** An updater that keeps [repeat] and [daysOfWeek] keeps the invariant. *)
Lemma daysInvariant_map (f : Reminder -> Reminder) (rs : list Reminder) :
  (forall r, repeat (f r) = repeat r /\ daysOfWeek (f r) = daysOfWeek r) ->
  Forall daysInvariant rs -> Forall daysInvariant (map f rs).
Proof.
  intros Hf H. induction H as [|r rs Hr _ IH]; simpl; constructor; [|exact IH].
  unfold daysInvariant in *. destruct (Hf r) as [-> ->]. exact Hr.
Qed.

Lemma sameDays_markTriggered (i key : string) (r : Reminder) :
  repeat (markTriggered i key r) = repeat r
  /\ daysOfWeek (markTriggered i key r) = daysOfWeek r.
Proof. unfold markTriggered. now destruct (negb (String.eqb (id r) i)). Qed.

(** (C10, amended) [addReminder] builds a reminder whose [daysOfWeek]
    is defined exactly when its [repeat] is weekly, and a trigger, a
    toggle, a snooze and a deletion keep that property of every
    reminder of the collection.  Rehydration hands back the stored
    array as it is: a collection saved by the page is read back
    unchanged. *)
Theorem days_invariant_kept (rs : list Reminder) :
  Forall daysInvariant rs ->
  (forall uuid f, Forall daysInvariant (addReminder uuid f rs))
  /\ (forall c a p, Forall daysInvariant (reminders (tick c (mkState rs a p))))
  /\ (forall i, Forall daysInvariant (toggleReminder i rs))
  /\ (forall now m a p, Forall daysInvariant (reminders (snoozeActive now m (mkState rs a p))))
  /\ (forall i, Forall daysInvariant (removeReminder i rs))
  /\ map asReminder (load (save rs)) = map Some rs.
Proof.
  intros H. repeat split.
  - intros uuid f. unfold addReminder.
    destruct (_ || _); [exact H|].
    apply Forall_app. split; [exact H|]. constructor; [|constructor].
    unfold daysInvariant; simpl.
    destruct (formRepeat f); split; intros K; congruence.
  - intros c a p. unfold tick; simpl.
    destruct rs as [|r0 rs']; [constructor|].
    destruct (scan c (r0 :: rs')) as [r|]; [|exact H].
    unfold triggerReminder, reminders.
    apply daysInvariant_map; [|exact H].
    intros r'. apply sameDays_markTriggered.
  - intros i. unfold toggleReminder. apply daysInvariant_map; [|exact H].
    intros r. now destruct (String.eqb (id r) i).
  - intros now m a p. unfold snoozeActive; simpl.
    destruct a as [a|]; [|exact H].
    destruct (negb (JsString.truthy a)); [exact H|]. simpl.
    apply daysInvariant_map; [|exact H].
    intros r. now destruct (String.eqb (id r) a).
  - intros i. unfold removeReminder. apply Forall_forall. intros r Hr.
    apply filter_In in Hr. rewrite Forall_forall in H. now apply H.
  - rewrite load_save, map_map. apply map_ext. intros r. apply asReminder_toJson.
Qed.

Lemma days_invariant_kept_witness :
  Forall daysInvariant (reminders (tick at_08_00_02 started))
  /\ map asReminder (load (save [aspirin])) = [Some aspirin].
Proof.
  destruct (days_invariant_kept [aspirin]) as (_ & Htick & _ & _ & _ & Hload).
  - constructor; [|constructor]. split; simpl; intros K; congruence.
  - split; [apply (Htick at_08_00_02 None false) | exact Hload].
Defined.

(** ** One-shot and weekly reminders *)

(** A reminder with [repeat] none is disabled by its trigger and is
    passed over by every later tick until it is enabled again. *)
Lemma one_shot_disabled_by_trigger (c : Clock) (st : State) (r : Reminder) :
  scan c (reminders st) = Some r ->
  repeat r = RepeatNone ->
  In (markTriggered (id r) (currentKey c) r) (reminders (tick c st))
  /\ enabled (markTriggered (id r) (currentKey c) r) = false
  /\ forall c', fires c' (markTriggered (id r) (currentKey c) r) = false.
Proof.
  intros Hscan Hrep.
  assert (Hen : enabled (markTriggered (id r) (currentKey c) r) = false).
  { unfold markTriggered. rewrite String.eqb_refl. simpl. now rewrite Hrep. }
  repeat split.
  - rewrite (tick_fires _ _ _ Hscan). simpl. apply in_map. now apply (scan_In c).
  - exact Hen.
  - intros c'. unfold fires. now rewrite Hen.
Qed.

Lemma one_shot_disabled_by_trigger_witness :
  enabled (markTriggered "id-once" (currentKey at_08_00_02) antibiotic) = false
  /\ fires at_08_05_31 (markTriggered "id-once" (currentKey at_08_00_02) antibiotic) = false.
Proof.
  destruct (one_shot_disabled_by_trigger at_08_00_02 (mkState [antibiotic] None false) antibiotic)
    as (_ & Hen & Hfires); [reflexivity | reflexivity |].
  split; [exact Hen | apply Hfires].
Defined.

(** A weekly reminder whose snooze is not due is triggered only on a
    day of its [daysOfWeek]. *)
Lemma weekly_fires_on_member_days (c : Clock) (r : Reminder) :
  repeat r = Weekly ->
  snoozeDue c r = false ->
  fires c r = true ->
  exists ds, daysOfWeek r = Some ds /\ In (day c) ds.
Proof.
  intros Hrep Hs. unfold fires, timeDue. rewrite Hs, Hrep.
  destruct (enabled r); simpl; [|discriminate].
  destruct (negb (String.eqb (time r) (currentTime c))); [discriminate|].
  destruct (keyIs (lastTriggeredKey r) (currentKey c)); [discriminate|].
  destruct (daysOfWeek r) as [ds|]; [|discriminate].
  intros H. exists ds. split; [reflexivity|].
  apply existsb_exists in H. destruct H as (d & Hd & Heq).
  apply Z.eqb_eq in Heq. now subst.
Qed.

Lemma weekly_fires_on_member_days_witness :
  exists ds, Some [1; 3; 5] = Some ds /\ In 1 ds.
Proof.
  apply (weekly_fires_on_member_days at_08_00_02
           (mkReminder "id-iron" "Iron" "08:00" true Weekly (Some [1; 3; 5]) None None));
    reflexivity.
Defined.


End SchedulerFacts.


(* ================================================================== *)
(** * Properties of the AQI computation *)
(* ================================================================== *)

Module Aqi64Facts.
Import Aqi64.

(** The order of binary64, as the specification of the comparisons
    gives it, is transitive, and strict below is incompatible with a
    chain of at-most back. *)
Ltac spec_float_order :=
  unfold SFleb, SFltb, SFcompare;
  repeat match goal with f : spec_float |- _ => destruct f end;
  try discriminate; try reflexivity;
  repeat match goal with s : bool |- _ => destruct s end;
  try discriminate; try reflexivity;
  repeat match goal with
         | |- context [Z.compare ?a ?b] => destruct (Z.compare_spec a b)
         | |- context [Pos.compare_cont Eq ?a ?b] =>
             change (Pos.compare_cont Eq a b) with (Pos.compare a b);
             destruct (Pos.compare_spec a b)
         end;
  simpl; try discriminate; try reflexivity; intros; exfalso; subst; lia.

Lemma SFleb_trans (x y z : spec_float) :
  SFleb x y = true -> SFleb y z = true -> SFleb x z = true.
Proof. spec_float_order. Qed.

Lemma SFltb_leb_cycle (x y z : spec_float) :
  SFltb x y = true -> SFleb y z = true -> SFleb z x = true -> False.
Proof.
  intros H1 H2 H3. pose proof (SFleb_trans _ _ _ H2 H3) as H. clear H2 H3 z.
  revert H1 H. unfold SFleb, SFltb.
  assert (Hopp : forall c, SFcompare x y = Some c -> SFcompare y x = Some (CompOpp c)).
  { unfold SFcompare.
    destruct x as [sx|sx| |sx mx ex], y as [sy|sy| |sy my ey];
      repeat match goal with s : bool |- _ => destruct s end;
      intros c H; try discriminate; injection H as <-; try reflexivity;
      rewrite (Z.compare_antisym ex ey);
      destruct (Z.compare ex ey); try reflexivity;
      change (Pos.compare_cont Eq my mx) with (Pos.compare my mx);
      change (Pos.compare_cont Eq mx my) with (Pos.compare mx my);
      rewrite (Pos.compare_antisym mx my);
      now destruct (Pos.compare mx my). }
  destruct (SFcompare x y) as [[| |]|]; try discriminate.
  intros _. now rewrite (Hopp Lt eq_refl).
Qed.

Lemma leb_trans (x y z : float) :
  PrimFloat.leb x y = true -> PrimFloat.leb y z = true -> PrimFloat.leb x z = true.
Proof. rewrite !FloatAxioms.leb_spec. apply SFleb_trans. Qed.

Lemma ltb_leb_cycle (x y z : float) :
  PrimFloat.ltb x y = true -> PrimFloat.leb y z = true -> PrimFloat.leb z x = true -> False.
Proof. rewrite FloatAxioms.ltb_spec, !FloatAxioms.leb_spec. apply SFltb_leb_cycle. Qed.

Lemma tables64_ascending (breaks : list Breakpoint) :
  In breaks tables -> ascendingb breaks = true.
Proof.
  intros H. repeat (destruct H as [<-|H]; [vm_compute; reflexivity|]). destruct H.
Qed.

Lemma computeSubIndex64_ascending (Cp : float) (breaks : list Breakpoint) (bp : Breakpoint) :
  ascendingb breaks = true ->
  In bp breaks ->
  within Cp bp = true ->
  computeSubIndex Cp breaks = Some (Math_round (interpolate Cp bp)).
Proof.
  intros Hasc Hin Hbp. induction breaks as [|b rest IH]; [destruct Hin|].
  simpl in Hasc. apply andb_true_iff in Hasc. destruct Hasc as [Hhd Htl]. simpl.
  destruct Hin as [->|Hin]; [now rewrite Hbp|].
  destruct (within Cp b) eqn:E; [|now apply IH].
  exfalso. rewrite forallb_forall in Hhd. specialize (Hhd bp Hin).
  apply negb_true_iff in Hhd.
  unfold within in E, Hbp. apply andb_true_iff in E. apply andb_true_iff in Hbp.
  rewrite (leb_trans _ _ _ (proj1 Hbp) (proj2 E)) in Hhd. discriminate.
Qed.

(** In binary64, for every double [Cp] and every interval of one of
    the four tables that holds it, the sub-index is [Math.round] of
    the interpolation over that interval. *)
Lemma binary64_subindex_is_interpolation
      (breaks : list Breakpoint) (bp : Breakpoint) (Cp : float) :
  In breaks tables ->
  In bp breaks ->
  PrimFloat.leb (Clow bp) Cp = true ->
  PrimFloat.leb Cp (Chigh bp) = true ->
  computeSubIndex Cp breaks
  = Some (Math_round (((Ihigh bp - Ilow bp) / (Chigh bp - Clow bp)) * (Cp - Clow bp)
                      + Ilow bp)%float).
Proof.
  intros Ht Hin Hlo Hhi.
  apply (computeSubIndex64_ascending Cp breaks bp (tables64_ascending breaks Ht) Hin).
  unfold within. now rewrite Hlo, Hhi.
Qed.

Lemma binary64_subindex_is_interpolation_witness :
  computeSubIndex 12.0 usPm25Breaks = Some 50%float.
Proof.
  rewrite (binary64_subindex_is_interpolation usPm25Breaks (mkBreakpoint 0.0 12.0 0 50) 12.0).
  - vm_compute. reflexivity.
  - left. reflexivity.
  - left. reflexivity.
  - vm_compute. reflexivity.
  - vm_compute. reflexivity.
Defined.

Lemma below_start (Cp y : float) (bp : Breakpoint) :
  PrimFloat.ltb Cp y = true -> PrimFloat.leb y (Clow bp) = true -> within Cp bp = false.
Proof.
  intros H1 H2. destruct (within Cp bp) eqn:E; [exfalso|reflexivity].
  unfold within in E. apply andb_true_iff in E.
  exact (ltb_leb_cycle Cp y (Clow bp) H1 H2 (proj1 E)).
Qed.

Lemma above_end (Cp y : float) (bp : Breakpoint) :
  PrimFloat.ltb y Cp = true -> PrimFloat.leb (Chigh bp) y = true -> within Cp bp = false.
Proof.
  intros H1 H2. destruct (within Cp bp) eqn:E; [exfalso|reflexivity].
  unfold within in E. apply andb_true_iff in E.
  exact (ltb_leb_cycle y Cp (Chigh bp) H1 (proj2 E) H2).
Qed.

(** In binary64, a double strictly between 12.0 and 12.1, and a double
    above 500.4, get no sub-index under the US PM2.5 table. *)
Lemma binary64_outside_every_interval (Cp : float) :
  (PrimFloat.ltb 12.0 Cp = true /\ PrimFloat.ltb Cp 12.1 = true)
  \/ PrimFloat.ltb 500.4 Cp = true ->
  computeSubIndex Cp usPm25Breaks = None.
Proof.
  intros H. unfold usPm25Breaks. simpl.
  destruct H as [[H1 H2]|H3].
  - rewrite (above_end Cp 12.0 _ H1) by (vm_compute; reflexivity).
    repeat (rewrite (below_start Cp 12.1 _ H2) by (vm_compute; reflexivity)).
    reflexivity.
  - repeat (rewrite (above_end Cp 500.4 _ H3) by (vm_compute; reflexivity)).
    reflexivity.
Qed.

Lemma binary64_outside_every_interval_witness :
  computeSubIndex 12.05 usPm25Breaks = None.
Proof.
  apply binary64_outside_every_interval. left. split; vm_compute; reflexivity.
Defined.

(** The points the properties name, evaluated in binary64. *)
Lemma binary64_named_points :
  interpolate 12.0 (mkBreakpoint 0.0 12.0 0 50) = 50%float
  /\ computeSubIndex 12.0 usPm25Breaks = Some 50%float
  /\ computeSubIndex 12.05 usPm25Breaks = None
  /\ computeSubIndex 12.1 usPm25Breaks = Some 51%float
  /\ computeSubIndex 500.5 usPm25Breaks = None
  /\ computeSubIndex 25.9 usPm25Breaks = Some 80%float
  /\ computeSubIndex 43.2 usPm10Breaks = Some 40%float.
Proof. repeat split; vm_compute; reflexivity. Qed.



(** ** The overall index *)

Lemma SFeqb_refl_nan (s : spec_float) : SFeqb s s = false -> s = S754_nan.
Proof.
  unfold SFeqb, SFcompare. destruct s as [b|b| |b m e]; try discriminate; [|reflexivity|].
  - destruct b; discriminate.
  - rewrite Z.compare_refl.
    change (Pos.compare_cont Eq m m) with (Pos.compare m m). rewrite Pos.compare_refl.
    destruct b; discriminate.
Qed.

Lemma Prim2SF_eq (x y : float) : Prim2SF x = Prim2SF y -> x = y.
Proof.
  intros H. rewrite <- (FloatAxioms.SF2Prim_Prim2SF x), <- (FloatAxioms.SF2Prim_Prim2SF y).
  now rewrite H.
Qed.

Lemma is_nan_true (x : float) : PrimFloat.is_nan x = true <-> Prim2SF x = S754_nan.
Proof.
  unfold PrimFloat.is_nan. rewrite negb_true_iff, FloatAxioms.eqb_spec. split.
  - apply SFeqb_refl_nan.
  - intros ->. reflexivity.
Qed.

Lemma is_nan_eq (x : float) : PrimFloat.is_nan x = true -> x = nan.
Proof. intros H. apply Prim2SF_eq. apply is_nan_true in H. rewrite H. reflexivity. Qed.

Lemma is_nan_false (x : float) : PrimFloat.is_nan x = false <-> Prim2SF x <> S754_nan.
Proof.
  split.
  - intros H K. apply is_nan_true in K. congruence.
  - intros H. destruct (PrimFloat.is_nan x) eqn:E; [|reflexivity].
    apply is_nan_true in E. contradiction.
Qed.

Lemma SFleb_refl (x : spec_float) : x <> S754_nan -> SFleb x x = true.
Proof.
  intros H. destruct (SFeqb x x) eqn:E; [|apply SFeqb_refl_nan in E; contradiction].
  unfold SFeqb, SFleb in *. destruct (SFcompare x x) as [[| |]|]; try discriminate; reflexivity.
Qed.

Lemma SFltb_SFleb (x y : spec_float) : SFltb x y = true -> SFleb x y = true.
Proof.
  unfold SFltb, SFleb. destruct (SFcompare x y) as [[| |]|]; try discriminate; reflexivity.
Qed.

Lemma SFleb_SFltb (x y : spec_float) : SFleb x y = true -> SFltb y x = false.
Proof.
  intros H. destruct (SFltb y x) eqn:E; [|reflexivity]. exfalso.
  apply (SFltb_leb_cycle y x x E); [|exact H].
  apply SFleb_refl. intros ->. destruct y as [[]|[]| |[] ? ?]; discriminate E.
Qed.

Lemma SFcompare_defined (x y : spec_float) :
  x <> S754_nan -> y <> S754_nan -> exists c, SFcompare x y = Some c.
Proof.
  intros Hx Hy. unfold SFcompare.
  destruct x as [sx|sx| |sx mx ex], y as [sy|sy| |sy my ey]; try contradiction;
    repeat match goal with s : bool |- _ => destruct s end; eauto.
Qed.

Lemma SFcompare_opp (x y : spec_float) (c : comparison) :
  SFcompare x y = Some c -> SFcompare y x = Some (CompOpp c).
Proof.
  unfold SFcompare.
  destruct x as [sx|sx| |sx mx ex], y as [sy|sy| |sy my ey];
    repeat match goal with s : bool |- _ => destruct s end;
    intros H; try discriminate; injection H as <-; try reflexivity;
    rewrite (Z.compare_antisym ex ey);
    destruct (Z.compare ex ey); try reflexivity;
    change (Pos.compare_cont Eq my mx) with (Pos.compare my mx);
    change (Pos.compare_cont Eq mx my) with (Pos.compare mx my);
    rewrite (Pos.compare_antisym mx my);
    now destruct (Pos.compare mx my).
Qed.

Lemma SFleb_total (x y : spec_float) :
  x <> S754_nan -> y <> S754_nan -> SFltb x y = false -> SFleb y x = true.
Proof.
  intros Hx Hy. destruct (SFcompare_defined x y Hx Hy) as (c & Hc).
  unfold SFltb, SFleb. rewrite Hc, (SFcompare_opp x y c Hc).
  destruct c; simpl; try discriminate; reflexivity.
Qed.

Lemma leb_refl (x : float) : PrimFloat.is_nan x = false -> PrimFloat.leb x x = true.
Proof. rewrite is_nan_false, FloatAxioms.leb_spec. apply SFleb_refl. Qed.

Lemma ltb_leb (x y : float) : PrimFloat.ltb x y = true -> PrimFloat.leb x y = true.
Proof. rewrite FloatAxioms.ltb_spec, FloatAxioms.leb_spec. apply SFltb_SFleb. Qed.

Lemma leb_not_ltb (x y : float) : PrimFloat.leb x y = true -> PrimFloat.ltb y x = false.
Proof. rewrite FloatAxioms.ltb_spec, FloatAxioms.leb_spec. apply SFleb_SFltb. Qed.

Lemma leb_total (x y : float) :
  PrimFloat.is_nan x = false -> PrimFloat.is_nan y = false ->
  PrimFloat.ltb x y = false -> PrimFloat.leb y x = true.
Proof. rewrite !is_nan_false, FloatAxioms.ltb_spec, FloatAxioms.leb_spec. apply SFleb_total. Qed.

Lemma ltb_nan (s : float) : PrimFloat.ltb nan s = false.
Proof. rewrite FloatAxioms.ltb_spec. reflexivity. Qed.

Lemma leb_neg_infinity (x : float) :
  PrimFloat.leb x neg_infinity = true -> x = neg_infinity.
Proof.
  rewrite FloatAxioms.leb_spec. intros H. apply Prim2SF_eq.
  change (Prim2SF neg_infinity) with (S754_infinity true) in *.
  destruct (Prim2SF x) as [[]|[]| |[] ? ?]; try discriminate H; reflexivity.
Qed.

(** One step of [Math.max] on two numbers that are not NaN. *)
Lemma higher_spec (h n : float) :
  PrimFloat.is_nan h = false -> PrimFloat.is_nan n = false ->
  (higher h n = h \/ higher h n = n)
  /\ PrimFloat.leb h (higher h n) = true
  /\ PrimFloat.leb n (higher h n) = true.
Proof.
  intros Hh Hn. unfold higher, isPositiveZero, isNegativeZero.
  destruct (match Prim2SF n with S754_zero false => true | _ => false end
            && match Prim2SF h with S754_zero true => true | _ => false end) eqn:Ez.
  - split; [now right|]. split; [|now apply leb_refl].
    apply andb_true_iff in Ez. destruct Ez as [E1 E2].
    rewrite FloatAxioms.leb_spec.
    destruct (Prim2SF n) as [[]| | |]; try discriminate E1.
    destruct (Prim2SF h) as [[]| | |]; try discriminate E2. reflexivity.
  - destruct (PrimFloat.ltb h n) eqn:E.
    + split; [now right|]. split; [now apply ltb_leb | now apply leb_refl].
    + split; [now left|]. split; [now apply leb_refl | now apply leb_total].
Qed.

Lemma fold_higher_spec (xs : list float) (h : float) :
  PrimFloat.is_nan h = false ->
  existsb PrimFloat.is_nan xs = false ->
  let m := fold_left higher xs h in
  (m = h \/ In m xs)
  /\ PrimFloat.is_nan m = false
  /\ PrimFloat.leb h m = true
  /\ forall s, In s xs -> PrimFloat.leb s m = true.
Proof.
  revert h. induction xs as [|x rest IH]; intros h Hh Hx; simpl.
  - split; [now left|]. split; [exact Hh|]. split; [now apply leb_refl | intros s []].
  - simpl in Hx. apply orb_false_iff in Hx. destruct Hx as [Hx Hrest].
    destruct (higher_spec h x Hh Hx) as (Hor & Hle1 & Hle2).
    assert (Hn : PrimFloat.is_nan (higher h x) = false) by (destruct Hor as [-> | ->]; assumption).
    destruct (IH (higher h x) Hn Hrest) as (Hin & Hnan & Hle & Hall).
    split; [|split; [exact Hnan|split]].
    + destruct Hin as [Hin|Hin]; [|now right; right].
      rewrite Hin. destruct Hor as [-> | ->]; [now left | right; now left].
    + exact (leb_trans _ _ _ Hle1 Hle).
    + intros s [<-|Hs]; [exact (leb_trans _ _ _ Hle2 Hle) | now apply Hall].
Qed.

(** [Math.max] of a list that is not empty is one of its elements, no
    element is greater, and unless it is NaN every element is at most
    it. *)
Lemma Math_max_spec (xs : list float) :
  xs <> [] ->
  In (Math_max xs) xs
  /\ (forall s, In s xs -> PrimFloat.ltb (Math_max xs) s = false)
  /\ (PrimFloat.is_nan (Math_max xs) = false ->
      forall s, In s xs -> PrimFloat.leb s (Math_max xs) = true).
Proof.
  intros Hne. unfold Math_max. destruct (existsb PrimFloat.is_nan xs) eqn:E.
  - apply existsb_exists in E. destruct E as (x & Hin & Hx).
    apply is_nan_eq in Hx. subst x.
    split; [exact Hin|]. split; [intros s _; apply ltb_nan|].
    intros K. discriminate K.
  - destruct (fold_higher_spec xs neg_infinity eq_refl E) as (Hin & Hnan & _ & Hall).
    assert (Hmem : In (fold_left higher xs neg_infinity) xs).
    { destruct Hin as [Heq|Hin]; [|exact Hin].
      destruct xs as [|x rest]; [contradiction|].
      assert (Hx : PrimFloat.leb x (fold_left higher (x :: rest) neg_infinity) = true)
        by (apply Hall; now left).
      rewrite Heq in Hx. apply leb_neg_infinity in Hx. rewrite Heq, <- Hx. now left. }
    split; [exact Hmem|]. split.
    + intros s Hs. apply leb_not_ltb. now apply Hall.
    + intros _. exact Hall.
Qed.

(** ** A sub-index is a number *)

Lemma shr_1_nonneg (mrs : shr_record) : (0 <= shr_m mrs)%Z -> (0 <= shr_m (shr_1 mrs))%Z.
Proof.
  destruct mrs as [m r s]. simpl. destruct m as [|[p|p|]|[p|p|]]; simpl; lia.
Qed.

Lemma iter_shr_1_nonneg (p : positive) (mrs : shr_record) :
  (0 <= shr_m mrs)%Z -> (0 <= shr_m (iter_pos shr_1 p mrs))%Z.
Proof.
  revert mrs. induction p as [p IH|p IH|]; intros mrs H; simpl.
  - apply IH, IH, shr_1_nonneg, H.
  - apply IH, IH, H.
  - apply shr_1_nonneg, H.
Qed.

Lemma shr_nonneg (mrs : shr_record) (e n : Z) :
  (0 <= shr_m mrs)%Z -> (0 <= shr_m (fst (shr mrs e n)))%Z.
Proof.
  intros H. unfold shr. destruct n; simpl; try exact H. now apply iter_shr_1_nonneg.
Qed.

Lemma shr_fexp_nonneg (prec emax m e : Z) (l : location) :
  (0 <= m)%Z -> (0 <= shr_m (fst (shr_fexp prec emax m e l)))%Z.
Proof.
  intros H. unfold shr_fexp. apply shr_nonneg.
  destruct l as [|[| |]]; exact H.
Qed.

Lemma round_nearest_even_nonneg (mx : Z) (lx : location) :
  (0 <= mx)%Z -> (0 <= round_nearest_even mx lx)%Z.
Proof.
  intros H. unfold round_nearest_even. destruct lx as [|[| |]]; try lia.
  destruct (Z.even mx); lia.
Qed.

Lemma binary_round_aux_not_nan (prec emax : Z) (sx : bool) (mx ex : Z) (lx : location) :
  (0 <= mx)%Z -> binary_round_aux prec emax sx mx ex lx <> S754_nan.
Proof.
  intros H. unfold binary_round_aux.
  pose proof (shr_fexp_nonneg prec emax mx ex lx H) as H1.
  destruct (shr_fexp prec emax mx ex lx) as [mrs' e']. simpl in H1.
  pose proof (shr_fexp_nonneg prec emax
                (round_nearest_even (shr_m mrs') (loc_of_shr_record mrs')) e' loc_Exact
                (round_nearest_even_nonneg _ _ H1)) as H2.
  destruct (shr_fexp prec emax _ e' loc_Exact) as [mrs'' e'']. simpl in H2.
  destruct (shr_m mrs'') as [|m|m]; [discriminate| |lia].
  destruct (Z.leb e'' (emax - prec)); discriminate.
Qed.

Lemma binary_normalize_not_nan (prec emax m e : Z) (szero : bool) :
  binary_normalize prec emax m e szero <> S754_nan.
Proof.
  unfold binary_normalize, binary_round. destruct m as [|p|p]; [discriminate| |];
    destruct (shl_align _ _ _) as [mz ez]; apply binary_round_aux_not_nan; lia.
Qed.

Lemma SFsub_not_nan (x y : spec_float) :
  finiteOrZero x = true -> finiteOrZero y = true -> SF64sub x y <> S754_nan.
Proof.
  unfold SF64sub, SFsub.
  destruct x as [sx|sx| |sx mx ex], y as [sy|sy| |sy my ey]; try discriminate; intros _ _.
  - destruct sx, sy; discriminate.
  - apply binary_normalize_not_nan.
Qed.

Lemma SFmul_not_nan (x y : spec_float) :
  isFinite x = true -> y <> S754_nan -> SF64mul x y <> S754_nan.
Proof.
  unfold SF64mul, SFmul.
  destruct x as [sx|sx| |sx mx ex], y as [sy|sy| |sy my ey]; try discriminate;
    intros _ Hy; try discriminate; [contradiction|].
  apply binary_round_aux_not_nan. lia.
Qed.

Lemma SFadd_not_nan (x y : spec_float) :
  x <> S754_nan -> finiteOrZero y = true -> SF64add x y <> S754_nan.
Proof.
  unfold SF64add, SFadd.
  destruct x as [sx|sx| |sx mx ex], y as [sy|sy| |sy my ey]; try discriminate;
    intros Hx _; try discriminate; try contradiction.
  - destruct sx, sy; discriminate.
  - apply binary_normalize_not_nan.
Qed.

Lemma SFopp_not_nan (x : spec_float) : x <> S754_nan -> SFopp x <> S754_nan.
Proof. destruct x; simpl; try discriminate. intros H; contradiction. Qed.

Lemma Math_round_not_nan (x : float) :
  Prim2SF x <> S754_nan -> Prim2SF (Math_round x) <> S754_nan.
Proof.
  intros Hx. unfold Math_round.
  destruct (Prim2SF x) as [sx|sx| |sx mx ex] eqn:E; try (rewrite E; discriminate);
    try contradiction.
  destruct (0 <=? ex)%Z; [rewrite E; discriminate|].
  destruct sx.
  - destruct (_ =? 0)%Z; [vm_compute; discriminate|].
    rewrite FloatAxioms.opp_spec. apply SFopp_not_nan.
    rewrite FloatAxioms.of_uint63_spec. apply binary_normalize_not_nan.
  - rewrite FloatAxioms.of_uint63_spec. apply binary_normalize_not_nan.
Qed.

(** A double between two finite doubles is finite. *)
Lemma between_finite (lo x hi : spec_float) :
  finiteOrZero lo = true -> finiteOrZero hi = true ->
  SFleb lo x = true -> SFleb x hi = true -> finiteOrZero x = true.
Proof.
  unfold SFleb, SFcompare.
  destruct lo as [sl|sl| |sl ml el], hi as [sh|sh| |sh mh eh]; try discriminate;
    destruct x as [sx|[]| |sx mx ex]; try reflexivity; intros _ _;
    repeat match goal with s : bool |- _ => destruct s end; discriminate.
Qed.

Lemma tables_finite (breaks : list Breakpoint) (bp : Breakpoint) :
  In breaks tables -> In bp breaks -> intervalFinite bp = true.
Proof.
  intros Ht Hin.
  assert (H : forallb intervalFinite breaks = true).
  { repeat (destruct Ht as [<-|Ht]; [vm_compute; reflexivity|]). destruct Ht. }
  rewrite forallb_forall in H. now apply H.
Qed.

Lemma computeSubIndex_Some (Cp : float) (breaks : list Breakpoint) (s : float) :
  computeSubIndex Cp breaks = Some s ->
  exists bp, In bp breaks /\ within Cp bp = true /\ s = Math_round (interpolate Cp bp).
Proof.
  induction breaks as [|b rest IH]; simpl; [discriminate|].
  destruct (within Cp b) eqn:E.
  - intros [= <-]. exists b. split; [now left|]. now split.
  - intros H. destruct (IH H) as (bp & Hin & Hrest). exists bp. split; [now right | exact Hrest].
Qed.

(** The sub-index of a concentration under one of the four tables is
    never NaN. *)
Lemma subindex_not_nan (breaks : list Breakpoint) (Cp s : float) :
  In breaks tables -> computeSubIndex Cp breaks = Some s -> PrimFloat.is_nan s = false.
Proof.
  intros Ht Hs. apply computeSubIndex_Some in Hs.
  destruct Hs as (bp & Hin & Hw & ->).
  pose proof (tables_finite breaks bp Ht Hin) as Hf. unfold intervalFinite in Hf.
  repeat (apply andb_true_iff in Hf; destruct Hf as [Hf ?]).
  unfold within in Hw. apply andb_true_iff in Hw. destruct Hw as [Hlo Hhi].
  rewrite FloatAxioms.leb_spec in Hlo, Hhi.
  assert (HCp : finiteOrZero (Prim2SF Cp) = true)
    by (apply (between_finite (Prim2SF (Clow bp)) _ (Prim2SF (Chigh bp))); assumption).
  apply is_nan_false. apply Math_round_not_nan. unfold interpolate.
  rewrite FloatAxioms.add_spec. apply SFadd_not_nan; [|assumption].
  rewrite FloatAxioms.mul_spec. apply SFmul_not_nan; [assumption|].
  rewrite FloatAxioms.sub_spec. apply SFsub_not_nan; assumption.
Qed.

(** The sub-indices that reach the maximum are those computed for
    PM2.5 and for PM10, and no other. *)
Lemma subIndices_spec (b25 b10 : list Breakpoint) (c : Components) (s : float) :
  In s (subIndices b25 b10 c) <->
  (exists Cp, pm2_5 c = Some Cp /\ computeSubIndex Cp b25 = Some s)
  \/ (exists Cp, pm10 c = Some Cp /\ computeSubIndex Cp b10 = Some s).
Proof.
  unfold subIndices, pushSubIndex.
  destruct (pm2_5 c) as [x|], (pm10 c) as [y|];
    try destruct (computeSubIndex x b25) as [sx|] eqn:Ex;
    try destruct (computeSubIndex y b10) as [sy|] eqn:Ey; simpl;
    (split;
     [ intros H; repeat (destruct H as [H|H]; [subst; eauto|]); try destruct H
     | intros [(Cp & E & E')|(Cp & E & E')]; try discriminate;
       injection E as <-; rewrite ?Ex, ?Ey in E'; try discriminate;
       injection E' as <-; auto ]).
Qed.

Lemma aqi_unfold (country : string) (components : option Components) :
  aqi country components = aqiFrom (pm25BreaksOf country) (pm10BreaksOf country) components.
Proof. unfold aqi, pm25BreaksOf, pm10BreaksOf. now destruct (String.eqb country "IN"). Qed.

(** No interval holds the concentration exactly when the function
    returns [undefined]. *)
Lemma computeSubIndex_None (Cp : float) (breaks : list Breakpoint) :
  computeSubIndex Cp breaks = None <-> forall bp, In bp breaks -> within Cp bp = false.
Proof.
  induction breaks as [|b rest IH]; simpl.
  - split; [intros _ bp [] | reflexivity].
  - destruct (within Cp b) eqn:E.
    + split; [discriminate|]. intros H. rewrite (H b) in E; [discriminate | now left].
    + rewrite IH. split.
      * intros H bp [<-|Hin]; [exact E | now apply H].
      * intros H bp Hin. apply H. now right.
Qed.

(** (C7) In binary64, under either standard: the sub-indices are
    those computed for PM2.5 and PM10; the overall index is
    [Math.max] of them, which is one of them and at least each of
    them, and it is undefined when none was computed.  A
    concentration outside every interval of its table yields no
    sub-index: so it is for US PM2.5 strictly between 12.0 and 12.1
    and above 500.4. *)
Theorem overall_index_is_max (country : string) (c : Components) :
  (forall s, In s (subIndices (pm25BreaksOf country) (pm10BreaksOf country) c) <->
             (exists Cp, pm2_5 c = Some Cp /\ computeSubIndex Cp (pm25BreaksOf country) = Some s)
             \/ (exists Cp, pm10 c = Some Cp /\ computeSubIndex Cp (pm10BreaksOf country) = Some s))
  /\ match aqi country (Some c) with
     | Some m => In m (subIndices (pm25BreaksOf country) (pm10BreaksOf country) c)
                 /\ forall s, In s (subIndices (pm25BreaksOf country) (pm10BreaksOf country) c)
                              -> PrimFloat.leb s m = true
     | None => subIndices (pm25BreaksOf country) (pm10BreaksOf country) c = []
     end
  /\ (forall Cp breaks, (forall bp, In bp breaks -> within Cp bp = false) ->
                        computeSubIndex Cp breaks = None)
  /\ (forall Cp, PrimFloat.ltb 12.0 Cp = true -> PrimFloat.ltb Cp 12.1 = true ->
                 computeSubIndex Cp usPm25Breaks = None)
  /\ (forall Cp, PrimFloat.ltb 500.4 Cp = true -> computeSubIndex Cp usPm25Breaks = None).
Proof.
  split; [intros s; apply subIndices_spec|]. split.
  - rewrite aqi_unfold. unfold aqiFrom.
    destruct (subIndices (pm25BreaksOf country) (pm10BreaksOf country) c) as [|s rest] eqn:Es;
      [reflexivity|].
    destruct (Math_max_spec (s :: rest)) as (Hin & _ & Hle); [discriminate|].
    split; [exact Hin|]. apply Hle.
    rewrite <- Es in Hin. apply subIndices_spec in Hin.
    destruct Hin as [(Cp & _ & Hs)|(Cp & _ & Hs)]; rewrite Es in Hs.
    + apply (subindex_not_nan (pm25BreaksOf country) Cp); [|exact Hs].
      unfold pm25BreaksOf, tables. destruct (String.eqb country "IN").
      * right. right. left. reflexivity.
      * left. reflexivity.
    + apply (subindex_not_nan (pm10BreaksOf country) Cp); [|exact Hs].
      unfold pm10BreaksOf, tables. destruct (String.eqb country "IN").
      * right. right. right. left. reflexivity.
      * right. left. reflexivity.
  - split; [intros Cp breaks; apply computeSubIndex_None|].
    split.
    + intros Cp H1 H2. unfold usPm25Breaks. simpl.
      rewrite (above_end Cp 12.0 _ H1) by (vm_compute; reflexivity).
      repeat (rewrite (below_start Cp 12.1 _ H2) by (vm_compute; reflexivity)).
      reflexivity.
    + intros Cp H3. unfold usPm25Breaks. simpl.
      repeat (rewrite (above_end Cp 500.4 _ H3) by (vm_compute; reflexivity)).
      reflexivity.
Qed.

(** PM2.5 = 25.9 and PM10 = 43.2 under the US standard: the
    sub-indices are 80 and 40 and the index is 80, the greater one.
    PM2.5 = 12.05 with no PM10 reading: no index. *)
Lemma overall_index_is_max_witness :
  aqi "US" (Some (mkComponents (Some 25.9%float) (Some 43.2%float) None None None None))
  = Some 80%float
  /\ PrimFloat.leb 40 80 = true
  /\ usAqiFromComponents (Some (mkComponents (Some 12.05%float) None None None None None)) = None.
Proof.
  pose proof (overall_index_is_max "US"
                (mkComponents (Some 25.9%float) (Some 43.2%float) None None None None))
    as (_ & Hmax & _ & Hgap & _).
  assert (E : aqi "US" (Some (mkComponents (Some 25.9%float) (Some 43.2%float)
                                           None None None None))
              = Some 80%float) by (vm_compute; reflexivity).
  rewrite E in Hmax. destruct Hmax as (_ & Hle).
  split; [exact E|]. split.
  - apply Hle. right. left. vm_compute. reflexivity.
  - assert (G : computeSubIndex 12.05 usPm25Breaks = None)
      by (apply Hgap; vm_compute; reflexivity).
    unfold usAqiFromComponents, aqiFrom, subIndices, pushSubIndex.
    cbn [pm2_5 pm10]. now rewrite G.
Defined.

(** ** Examples *)

(** The dominant pollutant: PM2.5 = 25.9 gives 80 and PM10 = 43.2
    gives 40 under the US tables; the overall index is 80, "Moderate". *)
Lemma dominant_pollutant_example :
  computeSubIndex 25.9 usPm25Breaks = Some 80%float
  /\ computeSubIndex 43.2 usPm10Breaks = Some 40%float
  /\ aqi "US" (Some (mkComponents (Some 25.9%float) (Some 43.2%float) None None None None)) = Some 80%float
  /\ labelForAqi (Some 80%float) false = "Moderate"%string.
Proof. repeat split; vm_compute; reflexivity. Qed.

End Aqi64Facts.

(* ================================================================== *)
(** * Properties of the symptom triage *)
(* ================================================================== *)

Module TriageFacts.
Import JsString SymptomChecker.
Local Open Scope string_scope.
Local Open Scope nat_scope.

Lemma ownEntry_In (key : string) (entries : list (string * SymptomData)) (d : SymptomData) :
  ownEntry key entries = Some d -> In (key, d) entries.
Proof.
  induction entries as [|[k d'] rest IH]; simpl; [discriminate|].
  destruct (String.eqb_spec key k) as [->|_].
  - intros H. injection H as ->. now left.
  - intros H. right. now apply IH.
Qed.

Lemma firstPartial_Some (l : string) (entries : list (string * SymptomData))
      (k : string) (d : SymptomData) :
  firstPartial l entries = Some (k, d) -> In (k, d) entries /\ partialMatch l k = true.
Proof.
  induction entries as [|[k' d'] rest IH]; simpl; [discriminate|].
  destruct (partialMatch l k') eqn:E.
  - intros H. injection H as -> ->. split; [now left | exact E].
  - intros H. destruct (IH H). split; [now right | assumption].
Qed.

Lemma firstPartial_filter (l : string) (entries : list (string * SymptomData)) :
  firstPartial l entries = hd_error (filter (fun e => partialMatch l (fst e)) entries).
Proof.
  induction entries as [|[k d] rest IH]; simpl; [reflexivity|].
  now destruct (partialMatch l k).
Qed.

Lemma firstPartial_None (l : string) :
  firstPartial l symptomDatabase = None <-> matchingKeys l = [].
Proof.
  rewrite firstPartial_filter. unfold matchingKeys.
  destruct (filter _ symptomDatabase); simpl; split; congruence.
Qed.

(** ** Which entry a substring match returns *)

(** (C4) Input "cough and sore throat": it is no key of the
    knowledge base, and two keys are substrings of it, "cough" and
    the longer "sore throat".  The fallback classifier returns the
    entry of "cough", the first match in knowledge-base order;
    [extractConditionsFromSymptoms], on the same input, sorts the
    matches and returns the conditions of "sore throat". *)
Theorem fallback_returns_first_match :
  dbGet (normalize "cough and sore throat") = Absent
  /\ matchingKeys (normalize "cough and sore throat") = ["cough"; "sore throat"]
  /\ String.length "cough" < String.length "sore throat"
  /\ (exists d, ownEntry "cough" symptomDatabase = Some d
                /\ getFallbackAnalysis "cough and sore throat" = ofData d)
  /\ (exists d, ownEntry "sore throat" symptomDatabase = Some d
                /\ getFallbackAnalysis "cough and sore throat" <> ofData d
                /\ possibleConditions (getFallbackAnalysis "cough and sore throat")
                   <> Some (conditions d)
                /\ extractConditionsFromSymptoms "cough and sore throat"
                   = Some (conditions d)).
Proof.
  split; [reflexivity|]. split; [reflexivity|]. split; [vm_compute; lia|]. split.
  - eexists. split; [vm_compute; reflexivity | vm_compute; reflexivity].
  - eexists. split; [vm_compute; reflexivity|].
    split; [vm_compute; discriminate|]. split; [vm_compute; discriminate|].
    vm_compute; reflexivity.
Qed.

(** On the same input, with a remote text that carries no label,
    [parseAIResponse] combines the conditions of "sore throat" with the
    recommendations of "cough". *)
Lemma parser_mixes_entries :
  exists cough sore,
    ownEntry "cough" symptomDatabase = Some cough
    /\ ownEntry "sore throat" symptomDatabase = Some sore
    /\ option_map possibleConditions (parseAIResponse "I am not sure." "cough and sore throat")
       = Some (Some (conditions sore))
    /\ option_map recommendations (parseAIResponse "I am not sure." "cough and sore throat")
       = Some (Some (dataRecommendations cough)).
Proof. do 2 eexists. repeat split; vm_compute; reflexivity. Qed.

(** ** The output guarantee *)

(** (C6) Symptoms "headache", and a remote answer whose
    RECOMMENDATIONS section holds a separator and nothing else: the
    labeled-field parser returns an empty recommendations list.  The
    conditions list of the same answer is guarded against being
    empty; the recommendations list is not. *)
Theorem parsed_recommendations_can_be_empty :
  truthy (trim "headache") = true
  /\ analyzeSymptoms "headache"
       (GeneratedText "CONDITIONS: Migraine | RECOMMENDATIONS: ; | ADVICE: Rest")
     = Returns {| possibleConditions := Some ["Migraine"];
                  recommendations := Some [];
                  severity := Some Moderate;
                  advice := Some "Rest" |}
  /\ ~ wellFormedAnalysis {| possibleConditions := Some ["Migraine"];
                             recommendations := Some [];
                             severity := Some Moderate;
                             advice := Some "Rest" |}
  /\ possibleConditions
       (match analyzeSymptoms "headache" (GeneratedText "CONDITIONS: ; | RECOMMENDATIONS: ;") with
        | Returns a => a
        | Throws _ => mkSymptomAnalysis None None None None
        end) = Some ["General symptoms"].
Proof.
  split; [reflexivity|]. split; [vm_compute; reflexivity|]. split; [|vm_compute; reflexivity].
  intros (_ & (rs & Hrs & Hne & _) & _). simpl in Hrs. injection Hrs as <-. now apply Hne.
Qed.

(** ** Normalisation is idempotent *)

Lemma lowerChar_idem (c : ascii) : lowerChar (lowerChar c) = lowerChar c.
Proof. destruct c as [[] [] [] [] [] [] [] []]; reflexivity. Qed.

Lemma isWhiteSpace_lowerChar (c : ascii) : isWhiteSpace (lowerChar c) = isWhiteSpace c.
Proof. destruct c as [[] [] [] [] [] [] [] []]; reflexivity. Qed.

Lemma toLowerCase_idem (s : string) : toLowerCase (toLowerCase s) = toLowerCase s.
Proof. induction s as [|c r IH]; simpl; [reflexivity|]. now rewrite lowerChar_idem, IH. Qed.

Lemma toLowerCase_trimStart (s : string) :
  toLowerCase (trimStart s) = trimStart (toLowerCase s).
Proof.
  induction s as [|c r IH]; simpl; [reflexivity|].
  rewrite isWhiteSpace_lowerChar. now destruct (isWhiteSpace c).
Qed.

Lemma toLowerCase_trimEnd (s : string) :
  toLowerCase (trimEnd s) = trimEnd (toLowerCase s).
Proof.
  induction s as [|c r IH]; simpl; [reflexivity|].
  rewrite <- IH, isWhiteSpace_lowerChar.
  destruct (trimEnd r); simpl; [now destruct (isWhiteSpace c) | reflexivity].
Qed.

Lemma headOk_trimStart (s : string) : headOk (trimStart s).
Proof.
  induction s as [|c r IH]; simpl; [exact I|].
  destruct (isWhiteSpace c) eqn:E; [exact IH | exact E].
Qed.

Lemma trimStart_headOk (s : string) : headOk s -> trimStart s = s.
Proof. destruct s as [|c r]; simpl; [reflexivity|]. now intros ->. Qed.

Lemma headOk_trimEnd (s : string) : headOk s -> headOk (trimEnd s).
Proof.
  destruct s as [|c r]; simpl; [trivial|]. intros H.
  destruct (trimEnd r); simpl; [now rewrite H | exact H].
Qed.

Lemma trimEnd_idem (s : string) : trimEnd (trimEnd s) = trimEnd s.
Proof.
  induction s as [|c r IH]; simpl; [reflexivity|].
  destruct (trimEnd r) as [|a t] eqn:E.
  - destruct (isWhiteSpace c) eqn:W; simpl; [reflexivity | now rewrite W].
  - simpl. simpl in IH. destruct (trimEnd t) eqn:T.
    + destruct (isWhiteSpace a); [discriminate | now rewrite IH].
    + now rewrite IH.
Qed.

Lemma trim_idem (s : string) : trim (trim s) = trim s.
Proof.
  unfold trim.
  rewrite (trimStart_headOk (trimEnd (trimStart s))).
  - apply trimEnd_idem.
  - apply headOk_trimEnd, headOk_trimStart.
Qed.

Lemma toLowerCase_trim (s : string) : toLowerCase (trim s) = trim (toLowerCase s).
Proof. unfold trim. now rewrite toLowerCase_trimEnd, toLowerCase_trimStart. Qed.

Lemma normalize_idem (s : string) : normalize (normalize s) = normalize s.
Proof.
  unfold normalize. now rewrite toLowerCase_trim, toLowerCase_idem, trim_idem.
Qed.


(** ** Severity on the fallback path *)





(** ** The output guarantee on the fallback path *)

Lemma database_entries_ok : forallb entryOk symptomDatabase = true.
Proof. vm_compute. reflexivity. Qed.

Lemma entry_ok (k : string) (d : SymptomData) :
  In (k, d) symptomDatabase ->
  conditions d <> [] /\ dataRecommendations d <> [] /\ List.length (dataRecommendations d) <= 4.
Proof.
  intros Hin. pose proof database_entries_ok as H. rewrite forallb_forall in H.
  specialize (H _ Hin). unfold entryOk in H. simpl in H.
  apply andb_true_iff in H. destruct H as [H H3].
  apply andb_true_iff in H. destruct H as [H1 H2].
  apply Nat.ltb_lt in H1. apply Nat.ltb_lt in H2. apply Nat.leb_le in H3.
  repeat split; try assumption; intros E; rewrite E in *; simpl in *; lia.
Qed.

Lemma ofData_wellFormed (k : string) (d : SymptomData) :
  In (k, d) symptomDatabase -> wellFormedAnalysis (ofData d).
Proof.
  intros Hin. destruct (entry_ok k d Hin) as (Hc & Hr & Hlen).
  unfold wellFormedAnalysis, ofData; simpl. repeat split; eauto.
Qed.

Lemma insertFound_In (cmp : string * SymptomData -> string * SymptomData -> Z)
      (x y : string * SymptomData) (sorted : list (string * SymptomData)) :
  In y (insertFound cmp x sorted) -> y = x \/ In y sorted.
Proof.
  induction sorted as [|z rest IH]; simpl.
  - intros [<-|[]]. now left.
  - destruct (cmp x z <? 0)%Z; simpl.
    + intros [<-|[<-|H]]; auto.
    + intros [<-|H]; auto. destruct (IH H); auto.
Qed.

Lemma sortFound_In (cmp : string * SymptomData -> string * SymptomData -> Z)
      (y : string * SymptomData) (xs : list (string * SymptomData)) :
  In y (sortFound cmp xs) -> In y xs.
Proof.
  unfold sortFound.
  assert (G : forall acc, In y (fold_left (fun sorted x => insertFound cmp x sorted) xs acc)
                          -> In y acc \/ In y xs).
  { induction xs as [|x rest IH]; simpl; intros acc H; [now left|].
    destruct (IH _ H) as [K|K]; [|now right; right].
    destruct (insertFound_In _ _ _ _ K) as [->|K']; [right; now left | now left]. }
  intros H. destruct (G [] H) as [[]|K]. exact K.
Qed.

Lemma keywordMap_ok (l : string) (conds : list string) :
  firstKeyword l keywordMap = Some conds -> conds <> [].
Proof.
  unfold keywordMap. simpl.
  repeat (destruct (includes l _); [intros H; injection H as <-; discriminate|]).
  discriminate.
Qed.

Lemma extractConditions_ok (l : string) :
  dbGet (normalize l) = Absent ->
  exists cs, extractConditionsFromSymptoms l = Some cs /\ cs <> [].
Proof.
  intros Habs. unfold extractConditionsFromSymptoms. fold (normalize l). rewrite Habs.
  destruct (sortFound _ _) as [|best rest] eqn:E.
  - destruct (firstKeyword (normalize l) keywordMap) as [conds|] eqn:K.
    + exists conds. split; [reflexivity | now apply (keywordMap_ok (normalize l))].
    + exists generalConditions. split; [reflexivity | discriminate].
  - exists (conditions (snd best)). split; [reflexivity|].
    assert (Hin : In best symptomDatabase).
    { assert (H : In best (best :: rest)) by now left.
      rewrite <- E in H. apply sortFound_In in H. apply filter_In in H. exact (proj1 H). }
    destruct best as [k d]. exact (proj1 (entry_ok k d Hin)).
Qed.

Lemma keywordRecommendations_length (l : string) :
  List.length (keywordRecommendations l) = 4.
Proof.
  unfold keywordRecommendations.
  repeat (destruct (_ || _); [reflexivity|]). reflexivity.
Qed.

Lemma defaultRecommendations_ok (l : string) :
  dbGet (normalize l) = Absent ->
  exists rs, getDefaultRecommendations l = Some rs /\ rs <> [] /\ List.length rs <= 4.
Proof.
  intros Habs. unfold getDefaultRecommendations. fold (normalize l). rewrite Habs.
  destruct (firstPartial (normalize l) symptomDatabase) as [[k d]|] eqn:E.
  - apply firstPartial_Some in E. destruct E as [Hin _].
    destruct (entry_ok k d Hin) as (_ & Hr & Hlen). eauto.
  - pose proof (keywordRecommendations_length (normalize l)) as Hlen.
    exists (slice0 4 (keywordRecommendations (normalize l))). unfold slice0.
    split; [reflexivity|].
    destruct (keywordRecommendations (normalize l)) as [|a [|b [|c [|d [|e t]]]]];
      simpl in *; try discriminate. split; [discriminate | lia].
Qed.

Lemma defaultAdvice_ok (sev : Severity) (l : string) :
  dbGet (normalize l) = Absent ->
  exists t, getDefaultAdvice sev (Some l) = Some t.
Proof.
  intros Habs. unfold getDefaultAdvice. fold (normalize l). rewrite Habs.
  destruct (negb (truthy l)); [eauto|].
  destruct (firstPartial (normalize l) symptomDatabase) as [[k d]|]; eauto.
Qed.

(** Unless the normalised input names a member inherited from
    [Object.prototype], the fallback classifier returns a result that
    meets the output guarantee. *)
Lemma fallback_output_guarantee (symptoms : string) :
  dbGet (normalize symptoms) <> Inherited ->
  wellFormedAnalysis (getFallbackAnalysis symptoms).
Proof.
  intros Hni. unfold getFallbackAnalysis. fold (normalize symptoms).
  destruct (dbGet (normalize symptoms)) as [d| |] eqn:Hget; [|contradiction|].
  - unfold dbGet in Hget.
    destruct (ownEntry (normalize symptoms) symptomDatabase) as [d'|] eqn:E.
    + injection Hget as <-. apply (ofData_wellFormed (normalize symptoms)).
      apply ownEntry_In. exact E.
    + destruct (existsb _ _); discriminate Hget.
  - destruct (firstPartial (normalize symptoms) symptomDatabase) as [[k d]|] eqn:E.
    + apply firstPartial_Some in E. apply (ofData_wellFormed k). exact (proj1 E).
    + assert (Habs : dbGet (normalize (normalize symptoms)) = Absent)
        by now rewrite normalize_idem.
      destruct (extractConditions_ok _ Habs) as (cs & -> & Hcs).
      destruct (defaultRecommendations_ok _ Habs) as (rs & -> & Hrs & Hlen).
      destruct (defaultAdvice_ok (assessSeverity (normalize symptoms)) _ Habs) as (t & ->).
      unfold wellFormedAnalysis; simpl. repeat split; eauto.
Qed.

Lemma fallback_output_guarantee_witness :
  wellFormedAnalysis (getFallbackAnalysis "xyzzy123").
Proof.
  apply fallback_output_guarantee. vm_compute. discriminate.
Defined.

(** The input "constructor" names an inherited member: every field of
    the fallback result is [undefined]. *)
Lemma fallback_on_inherited_key :
  truthy (trim "constructor") = true
  /\ analyzeSymptoms "constructor" RequestFails
     = Returns (mkSymptomAnalysis None None None None).
Proof. split; reflexivity. Qed.

(** ** Rejection of empty input, and absence of other errors *)

(** An empty or whitespace-only input is rejected before the remote
    answer is looked at. *)
Lemma empty_input_rejected (symptoms : string) (remote : Remote) :
  trim symptoms = "" ->
  analyzeSymptoms symptoms remote = Throws "Please describe your symptoms".
Proof. intros H. unfold analyzeSymptoms. now rewrite H. Qed.

Lemma empty_input_rejected_witness :
  analyzeSymptoms "   " (GeneratedText "CONDITIONS: Flu") = Throws "Please describe your symptoms".
Proof. apply empty_input_rejected. reflexivity. Defined.

(** For any other input the function returns an analysis, whatever
    the remote service does: a failed request, an unexpected body and
    an error inside the parser all end in the fallback classifier. *)
Lemma nonempty_input_returns (symptoms : string) (remote : Remote) :
  trim symptoms <> "" ->
  exists a, analyzeSymptoms symptoms remote = Returns a.
Proof.
  intros H. unfold analyzeSymptoms.
  destruct (trim symptoms) eqn:E; [contradiction|]. simpl.
  destruct remote as [| |text|]; eauto.
  destruct (truthy text); eauto.
  destruct (parseAIResponse text symptoms); eauto.
Qed.

Lemma nonempty_input_returns_witness :
  exists a, analyzeSymptoms "constructor" (GeneratedText "no labels here") = Returns a.
Proof. apply nonempty_input_returns. vm_compute. discriminate. Defined.

(** An input without any overlap with the knowledge base and the keywords. *)
Lemma unknown_input_generic :
  possibleConditions (getFallbackAnalysis "xyzzy123") = Some generalConditions
  /\ severity (getFallbackAnalysis "xyzzy123") = Some Moderate.
Proof. split; reflexivity. Qed.

End TriageFacts.


(* ================================================================== *)
(** * Properties of the reminders page: dialog, snooze, mount *)
(* ================================================================== *)

Module RemindersPageFacts.
Import Json Reminders RemindersPage Scenario SchedulerFacts.

(** ** The order of the weekdays *)

Lemma digit_cases (x : Z) :
  0 <= x <= 9 ->
  x = 0 \/ x = 1 \/ x = 2 \/ x = 3 \/ x = 4 \/ x = 5 \/ x = 6 \/ x = 7 \/ x = 8 \/ x = 9.
Proof. lia. Qed.

Lemma spelledBefore_digits (x y : Z) :
  0 <= x <= 9 -> 0 <= y <= 9 -> JsArray.spelledBefore y x = negb (x <=? y).
Proof.
  intros Hx Hy. apply digit_cases in Hx. apply digit_cases in Hy.
  repeat (destruct Hx as [->|Hx]); try subst x;
    repeat (destruct Hy as [->|Hy]); try subst y; reflexivity.
Qed.

Lemma insertDay_In (d x : Z) (ds : list Z) :
  In d (insertDay x ds) <-> d = x \/ In d ds.
Proof.
  induction ds as [|y rest IH]; simpl.
  - intuition.
  - destruct (x <=? y); simpl; [intuition|]. rewrite IH. intuition.
Qed.

Lemma sortDays_In (d : Z) (ds : list Z) : In d (sortDays ds) <-> In d ds.
Proof.
  induction ds as [|x rest IH]; simpl; [reflexivity|].
  rewrite insertDay_In, IH. intuition.
Qed.

Lemma insertSpelled_insertDay (x : Z) (ds : list Z) :
  0 <= x <= 9 -> Forall (fun d => 0 <= d <= 9) ds ->
  JsArray.insertSpelled x ds = insertDay x ds.
Proof.
  intros Hx H. induction H as [|y rest Hy _ IH]; simpl; [reflexivity|].
  rewrite (spelledBefore_digits x y Hx Hy), IH.
  now destruct (x <=? y).
Qed.

(** [[...formWeekDays].sort()] has no comparator.  On integers from 0
    to 9 the order of the spellings is the order of the numbers, so
    the sort is the ascending numeric sort; with two-digit numbers it
    is not: 10 comes before 9. *)
Theorem default_sort_is_numeric_on_digits (ds : list Z) :
  Forall (fun d => 0 <= d <= 9) ds ->
  JsArray.sort ds = sortDays ds
  /\ JsArray.sort [9; 10; 1] = [1; 10; 9].
Proof.
  intros H. split; [|reflexivity].
  induction H as [|x rest Hx Hrest IH]; [reflexivity|].
  unfold JsArray.sort, sortDays in *. simpl. rewrite IH.
  apply insertSpelled_insertDay; [exact Hx|].
  apply Forall_forall. intros d Hd. apply (proj1 (sortDays_In d rest)) in Hd.
  rewrite Forall_forall in Hrest. now apply Hrest.
Qed.

Lemma default_sort_is_numeric_on_digits_witness :
  JsArray.sort [5; 1; 3] = [1; 3; 5].
Proof.
  rewrite (proj1 (default_sort_is_numeric_on_digits [5; 1; 3]
                    ltac:(repeat constructor; lia))).
  reflexivity.
Defined.

Lemma insertDay_sorted (x : Z) (ds : list Z) :
  StronglySorted Z.lt ds -> ~ In x ds -> StronglySorted Z.lt (insertDay x ds).
Proof.
  intros H. induction H as [|y rest Hs IH Hall]; intros Hx; simpl.
  - constructor; constructor.
  - destruct (x <=? y) eqn:E.
    + apply Z.leb_le in E.
      assert (x < y) by (assert (x <> y) by (intros ->; apply Hx; now left); lia).
      constructor; [constructor; assumption|].
      constructor; [assumption|].
      eapply Forall_impl; [|exact Hall]. intros a Ha. simpl in Ha. lia.
    + apply Z.leb_gt in E. constructor.
      * apply IH. intros K. apply Hx. now right.
      * apply Forall_forall. intros a Ha. apply (proj1 (insertDay_In a x rest)) in Ha.
        destruct Ha as [->|Ha]; [exact E|].
        rewrite Forall_forall in Hall. now apply Hall.
Qed.

Lemma sortDays_sorted (ds : list Z) :
  NoDup ds -> StronglySorted Z.lt (sortDays ds).
Proof.
  intros H. induction H as [|x rest Hx _ IH]; simpl; [constructor|].
  apply insertDay_sorted; [exact IH|].
  intros K. apply Hx. exact (proj1 (sortDays_In x rest) K).
Qed.

Lemma sortDays_weekdaysOk (ds : list Z) :
  NoDup ds -> Forall (fun d => 0 <= d <= 6) ds -> weekdaysOk (sortDays ds).
Proof.
  intros Hnd Hr. split; [now apply sortDays_sorted|].
  apply Forall_forall. intros d Hd. apply (proj1 (sortDays_In d ds)) in Hd.
  rewrite Forall_forall in Hr. exact (Hr d Hd).
Qed.

(** ** The dialog *)

Lemma formOk_initial : formOk initialForm.
Proof. repeat split; [constructor | constructor]. Qed.

Lemma asRepeat_weekly (value : string) (rp : Repeat) :
  asRepeat value = Some rp -> (String.eqb value "weekly" = true <-> rp = Weekly).
Proof.
  unfold asRepeat.
  destruct (String.eqb value "none") eqn:E1.
  - apply String.eqb_eq in E1. subst. intros [= <-]. split; discriminate.
  - destruct (String.eqb value "daily") eqn:E2.
    + apply String.eqb_eq in E2. subst. intros [= <-]. split; discriminate.
    + destruct (String.eqb value "weekly"); [intros [= <-]; now split | discriminate].
Qed.

Lemma handleRepeatChange_ok (value : string) (f : Form) :
  formOk f -> formOk (handleRepeatChange value f).
Proof.
  intros (Hd & Hnd & Hr). unfold handleRepeatChange.
  destruct (negb (isRepeatOption value)); [now repeat split|].
  destruct (asRepeat value) as [rp|] eqn:E; [|now repeat split].
  apply asRepeat_weekly in E.
  destruct (String.eqb value "weekly"); simpl.
  - repeat split; try assumption. intros K. exfalso. apply K. now apply E.
  - repeat split; constructor.
Qed.

Lemma clickDay_ok (idx : Z) (f : Form) :
  formRepeat f = Weekly -> 0 <= idx <= 6 -> formOk f -> formOk (clickDay idx f).
Proof.
  intros Hw Hidx (Hd & Hnd & Hr). unfold clickDay, formOk. simpl.
  split; [intros K; congruence|].
  destruct (existsb (Z.eqb idx) (formWeekDays f)) eqn:E.
  - split; [now apply NoDup_filter|].
    apply Forall_forall. intros d Hin. apply filter_In in Hin.
    rewrite Forall_forall in Hr. now apply Hr.
  - assert (Hnot : ~ In idx (formWeekDays f)).
    { intros K. apply not_true_iff_false in E. apply E.
      apply existsb_exists. exists idx. split; [exact K | apply Z.eqb_refl]. }
    split.
    + apply NoDup_app; [exact Hnd | repeat constructor; intros [] |].
      intros a Ha [<-|[]]. now apply Hnot.
    + apply Forall_app. split; [exact Hr|]. now constructor.
Qed.

Lemma truthy_nonempty (s : string) : JsString.truthy s = true -> s <> "".
Proof. destruct s; [discriminate | intros _; discriminate]. Qed.

Lemma addReminder_accepted (uuid : string) (f : Form) (rs : list Reminder) :
  addReminder uuid f rs
  = if accepted f
    then (rs ++ [mkReminder uuid (JsString.trim (formTitle f)) (formTime f) (formEnabled f)
                            (formRepeat f)
                            (match formRepeat f with
                             | Weekly => Some (sortDays (formWeekDays f))
                             | _ => None
                             end) None None])%list
    else rs.
Proof.
  unfold addReminder, accepted.
  destruct (JsString.truthy (JsString.trim (formTitle f))), (JsString.truthy (formTime f));
    reflexivity.
Qed.

Lemma handle_ok (e : DialogEvent) (d : Dialog) :
  offered d e = true ->
  formOk (form d) -> Forall createdOk (collection d) ->
  formOk (form (handle e d)) /\ Forall createdOk (collection (handle e d)).
Proof.
  intros Hoff Hf Hc. destruct e as [v|v|b|v|idx|uuid]; simpl.
  - split; [exact Hf | exact Hc].
  - split; [exact Hf | exact Hc].
  - split; [exact Hf | exact Hc].
  - split; [now apply handleRepeatChange_ok | exact Hc].
  - split; [|exact Hc]. simpl in Hoff.
    destruct (formRepeat (form d)) eqn:Hw; try discriminate.
    apply andb_true_iff in Hoff. destruct Hoff as [H0 H6].
    apply Z.leb_le in H0. apply Z.leb_le in H6.
    apply clickDay_ok; [exact Hw | lia | exact Hf].
  - rewrite addReminder_accepted.
    destruct (accepted (form d)) eqn:Hacc; [|split; [exact Hf | exact Hc]].
    split; [apply formOk_initial|].
    apply Forall_app. split; [exact Hc|]. constructor; [|constructor].
    unfold accepted in Hacc. apply andb_true_iff in Hacc. destruct Hacc as [Ht Htm].
    destruct Hf as (Hd & Hnd & Hr).
    unfold createdOk. simpl.
    split; [now apply truthy_nonempty|].
    split; [apply TriageFacts.trim_idem|].
    split; [now apply truthy_nonempty|].
    split; [reflexivity|]. split; [reflexivity|].
    destruct (formRepeat (form d)); try reflexivity.
    eexists. split; [reflexivity|]. now apply sortDays_weekdaysOk.
Qed.

Lemma session_ok (events : list DialogEvent) (d d' : Dialog) :
  session events d = Some d' ->
  formOk (form d) -> Forall createdOk (collection d) ->
  formOk (form d') /\ Forall createdOk (collection d').
Proof.
  revert d. induction events as [|e rest IH]; intros d; simpl.
  - intros [= <-]. now split.
  - destruct (offered d e) eqn:Hoff; [|discriminate].
    intros Hs Hf Hc. destruct (handle_ok e d Hoff Hf Hc) as [Hf' Hc'].
    now apply (IH (handle e d)).
Qed.

(** Whatever the user does in the dialog, starting from the empty
    form and the empty collection, every reminder of the collection
    has a title that is not empty and has no white space around it, a
    time that is not empty, no dedup key and no snooze; a weekly one
    lists its days in ascending order, without repetition, among
    0..6, and the others have no [daysOfWeek].  The form itself holds
    days only while its repeat is weekly. *)
Theorem dialog_creates_well_formed_reminders (events : list DialogEvent) (d : Dialog) :
  session events (mkDialog initialForm []) = Some d ->
  Forall createdOk (collection d)
  /\ (formRepeat (form d) <> Weekly -> formWeekDays (form d) = []).
Proof.
  intros Hs.
  destruct (session_ok events _ d Hs formOk_initial (Forall_nil _)) as [(Hd & _) Hc].
  split; [exact Hc | exact Hd].
Qed.

Lemma dialog_creates_well_formed_reminders_witness :
  Forall createdOk
         [mkReminder "id-iron" "Iron" "08:00" true Weekly (Some [1; 3]) None None].
Proof.
  apply (dialog_creates_well_formed_reminders
           [SelectRepeat "weekly"; ClickDay 5; ClickDay 1; ClickDay 3; ClickDay 5;
            TypeTitle " Iron "; PickTime "08:00"; Submit "id-iron"]
           (mkDialog initialForm
                     [mkReminder "id-iron" "Iron" "08:00" true Weekly (Some [1; 3]) None None])).
  reflexivity.
Defined.

(** The dialog accepts a weekly form on which no day is selected; the
    reminder it adds has an empty list of days and is rung by no tick,
    at any time. *)
Theorem weekly_without_days_never_rings (uuid : string) (f : Form) (rs : list Reminder) :
  accepted f = true ->
  formRepeat f = Weekly ->
  formWeekDays f = [] ->
  exists r,
    addReminder uuid f rs = (rs ++ [r])%list
    /\ id r = uuid
    /\ daysOfWeek r = Some []
    /\ forall c, fires c r = false.
Proof.
  intros Hacc Hw Hd. rewrite addReminder_accepted, Hacc, Hw, Hd.
  eexists. split; [reflexivity|]. split; [reflexivity|]. split; [reflexivity|].
  intros c. unfold fires, snoozeDue, timeDue. simpl.
  destruct (formEnabled f); simpl; [|reflexivity].
  destruct (negb (String.eqb (formTime f) (currentTime c))); [reflexivity|].
  now destruct (keyIs None (currentKey c)).
Qed.

Lemma weekly_without_days_never_rings_witness :
  exists r,
    addReminder "id-iron" (mkForm "Iron" "08:00" true Weekly []) [] = [r]
    /\ id r = "id-iron"
    /\ daysOfWeek r = Some []
    /\ forall c, fires c r = false.
Proof.
  apply (weekly_without_days_never_rings "id-iron" (mkForm "Iron" "08:00" true Weekly []) []);
    reflexivity.
Defined.

(** ** Snooze *)

Lemma snoozeActive_unfold (now m : Z) (st : State) (a : string) :
  activeReminderId st = Some a -> a <> "" ->
  snoozeActive now m st
  = mkState (map (fun r => if String.eqb (id r) a
                            then snoozedUntil (now + m * 60 * 1000) r else r)
                 (reminders st))
            None false.
Proof.
  intros Ha Hne. unfold snoozeActive. rewrite Ha.
  destruct a; [congruence|]. reflexivity.
Qed.

(** Snoozing the ringing reminder for [m] minutes stops the alarm and
    clears the active reminder; the reminder, if enabled, passes the
    checks of the loop at every tick at or after the instant
    [now + m * 60000], and before that instant only by its own time
    of day.  The other reminders are as they were. *)
Theorem snooze_rings_again_from_deadline
        (now m : Z) (st : State) (a : string) (r : Reminder) :
  activeReminderId st = Some a -> a <> "" ->
  In r (reminders st) -> id r = a -> enabled r = true ->
  0 < now + m * 60 * 1000 ->
  let st' := snoozeActive now m st in
  let r' := snoozedUntil (now + m * 60 * 1000) r in
  alarmRequested st' = false
  /\ activeReminderId st' = None
  /\ In r' (reminders st')
  /\ (forall c, now + m * 60 * 1000 <= nowMs c -> fires c r' = true)
  /\ (forall c, nowMs c < now + m * 60 * 1000 -> fires c r' = timeDue c r)
  /\ (forall x, In x (reminders st) -> id x <> a -> In x (reminders st')).
Proof.
  intros Ha Hne Hin Hid Hen Hpos st' r'. subst st' r'.
  rewrite (snoozeActive_unfold now m st a Ha Hne). simpl.
  split; [reflexivity|]. split; [reflexivity|]. split.
  { apply in_map_iff. exists r. split; [|exact Hin].
    rewrite Hid, String.eqb_refl. reflexivity. }
  split; [|split].
  - intros c Hc. unfold fires, snoozeDue. simpl. rewrite Hen. simpl.
    replace (now + m * 60 * 1000 =? 0) with false by (symmetry; apply Z.eqb_neq; lia).
    simpl. now rewrite (proj2 (Z.leb_le _ _) Hc).
  - intros c Hc. unfold fires, snoozeDue. simpl. rewrite Hen. simpl.
    rewrite (proj2 (Z.leb_gt _ _) Hc), andb_false_r. reflexivity.
  - intros x Hx Hne'. apply in_map_iff. exists x. split; [|exact Hx].
    destruct (String.eqb (id x) a) eqn:E; [|reflexivity].
    apply String.eqb_eq in E. congruence.
Qed.

Lemma snooze_rings_again_from_deadline_witness :
  fires at_08_05_31 (snoozedUntil (nowMs at_08_00_02 + 5 * 60 * 1000) triggeredAspirin) = true.
Proof.
  destruct (snooze_rings_again_from_deadline (nowMs at_08_00_02) 5
              (mkState [triggeredAspirin] (Some "id-aspirin") true) "id-aspirin" triggeredAspirin)
    as (_ & _ & _ & Hdue & _);
    [reflexivity | discriminate | now left | reflexivity | reflexivity | reflexivity |].
  apply Hdue. vm_compute. discriminate.
Defined.

(** A one-time reminder is disabled by its trigger, and the loop
    looks at [enabled] before it looks at the snooze: snoozing the
    ringing one-time reminder stores the deadline on a reminder that
    no tick rings again. *)
Theorem snoozed_one_shot_never_rings
        (c : Clock) (st : State) (r : Reminder) (now m : Z) :
  scan c (reminders st) = Some r ->
  repeat r = RepeatNone ->
  id r <> "" ->
  let st' := snoozeActive now m (tick c st) in
  let r' := snoozedUntil (now + m * 60 * 1000) (markTriggered (id r) (currentKey c) r) in
  In r' (reminders st')
  /\ nextSnoozeAt r' = Some (now + m * 60 * 1000)
  /\ alarmRequested st' = false
  /\ forall c', fires c' r' = false.
Proof.
  intros Hscan Hrep Hne st' r'. subst st' r'.
  rewrite (tick_fires c st r Hscan).
  rewrite (snoozeActive_unfold now m (triggerReminder r (currentKey c) st) (id r)
             (eq_refl (Some (id r))) Hne). simpl.
  assert (Hid : id (markTriggered (id r) (currentKey c) r) = id r).
  { unfold markTriggered. now rewrite String.eqb_refl. }
  split; [|split; [reflexivity|split; [reflexivity|]]].
  - apply in_map_iff. exists (markTriggered (id r) (currentKey c) r).
    split; [now rewrite Hid, String.eqb_refl|].
    apply in_map. now apply (scan_In c).
  - intros c'. unfold fires, snoozedUntil, markTriggered. simpl.
    rewrite String.eqb_refl. simpl. now rewrite Hrep.
Qed.

Lemma snoozed_one_shot_never_rings_witness :
  fires at_08_05_31
        (snoozedUntil (nowMs at_08_00_02 + 5 * 60 * 1000)
                      (markTriggered "id-once" (currentKey at_08_00_02) antibiotic)) = false.
Proof.
  destruct (snoozed_one_shot_never_rings at_08_00_02 (mkState [antibiotic] None false)
              antibiotic (nowMs at_08_00_02) 5)
    as (_ & _ & _ & Hnever); [reflexivity | reflexivity | discriminate |].
  apply Hnever.
Defined.

(** ** Reminders due in the same minute *)

Lemma marked_passed_over (c' : Clock) (i : string) (x : Reminder) :
  id x = i -> snoozeDue c' x = false ->
  fires c' (markTriggered i (currentKey c') x) = false.
Proof.
  intros Hid Hs. unfold markTriggered. rewrite Hid, String.eqb_refl. simpl.
  unfold fires, timeDue. simpl.
  destruct (match repeat x with RepeatNone => false | _ => enabled x end); [|reflexivity].
  simpl. unfold snoozeDue in *. simpl. rewrite Hs.
  destruct (negb (String.eqb (time x) (currentTime c'))); [reflexivity|].
  now rewrite String.eqb_refl.
Qed.

Lemma scan_after_mark (c' : Clock) (i : string) (rs : list Reminder) :
  Forall (fun x => snoozeDue c' x = false) rs ->
  scan c' (map (markTriggered i (currentKey c')) rs) = scan c' (removeReminder i rs).
Proof.
  intros H. induction H as [|x rest Hx _ IH]; simpl; [reflexivity|].
  destruct (String.eqb_spec (id x) i) as [E|E]; simpl.
  - now rewrite (marked_passed_over c' i x E Hx).
  - rewrite (markTriggered_other i (currentKey c') x E).
    destruct (fires c' x); [reflexivity | exact IH].
Qed.

(** A tick rings one reminder.  When no snooze is due, a later tick
    of the same minute passes over the reminder that was rung and
    goes on as if it were not in the list: reminders due in the same
    minute are rung one per tick, in list order. *)
Theorem same_minute_ticks_ring_in_turn (c c' : Clock) (st : State) (r : Reminder) :
  scan c (reminders st) = Some r ->
  currentKey c' = currentKey c ->
  Forall (fun x => snoozeDue c' x = false) (reminders st) ->
  scan c' (reminders (tick c st)) = scan c' (removeReminder (id r) (reminders st)).
Proof.
  intros Hscan Hkey Hs. rewrite (tick_fires c st r Hscan). simpl.
  rewrite <- Hkey. now apply scan_after_mark.
Qed.

Lemma same_minute_ticks_ring_in_turn_witness :
  scan at_08_00_32 (reminders (tick at_08_00_02 (mkState [aspirin; calcium] None false)))
  = Some calcium.
Proof.
  rewrite (same_minute_ticks_ring_in_turn at_08_00_02 at_08_00_32
             (mkState [aspirin; calcium] None false) aspirin).
  - reflexivity.
  - reflexivity.
  - reflexivity.
  - repeat constructor.
Defined.

(** ** Toggle and delete *)

(** Switching a reminder off and on again gives back the collection,
    and a switch changes nothing but [enabled], and only on the
    reminders of that id. *)
Theorem toggle_twice_restores (i : string) (rs : list Reminder) :
  toggleReminder i (toggleReminder i rs) = rs
  /\ map id (toggleReminder i rs) = map id rs
  /\ (forall r, In r rs -> id r <> i -> In r (toggleReminder i rs))
  /\ (forall r, In r (toggleReminder i rs) -> id r = i ->
                exists r0, In r0 rs /\ enabled r = negb (enabled r0)
                           /\ r = mkReminder (id r0) (title r0) (time r0) (negb (enabled r0))
                                             (repeat r0) (daysOfWeek r0) (lastTriggeredKey r0)
                                             (nextSnoozeAt r0)).
Proof.
  unfold toggleReminder. split; [|split; [|split]].
  - rewrite map_map. rewrite <- (map_id rs) at 2. apply map_ext.
    intros [i0 t tm e rp ds k s]. simpl.
    destruct (String.eqb i0 i) eqn:E; simpl; [|now rewrite E].
    now rewrite E, negb_involutive.
  - rewrite map_map. apply map_ext. intros r. now destruct (String.eqb (id r) i).
  - intros r Hin Hne. apply in_map_iff. exists r. split; [|exact Hin].
    destruct (String.eqb_spec (id r) i); [contradiction | reflexivity].
  - intros r Hin Hid. apply in_map_iff in Hin. destruct Hin as (r0 & Heq & Hin0).
    exists r0. split; [exact Hin0|].
    destruct (String.eqb_spec (id r0) i) as [E|E].
    + subst r. split; reflexivity.
    + subst r. contradiction.
Qed.

(** A deleted reminder is rung by no later tick: the reminders with
    another id are all kept, what a tick rings after the deletion is
    one of them, and no reminder of the deleted id is in the
    collection after that tick. *)
Theorem removed_reminder_never_rings (i : string) (st : State) (c : Clock) :
  let st' := withReminders st (removeReminder i (reminders st)) in
  (forall r, In r (reminders st') <-> In r (reminders st) /\ id r <> i)
  /\ (forall r, scan c (reminders st') = Some r -> In r (reminders st) /\ id r <> i)
  /\ (forall r, In r (reminders (tick c st')) -> id r <> i).
Proof.
  intros st'. subst st'. simpl.
  assert (Hin : forall r, In r (removeReminder i (reminders st))
                          <-> In r (reminders st) /\ id r <> i).
  { intros r. unfold removeReminder. rewrite filter_In, negb_true_iff.
    split; intros [H1 H2]; (split; [exact H1|]).
    - intros K. apply String.eqb_eq in K. congruence.
    - now apply String.eqb_neq. }
  split; [exact Hin|]. split.
  - intros r Hs. apply Hin. now apply (scan_In c).
  - intros r. unfold tick. simpl.
    destruct (removeReminder i (reminders st)) as [|r0 rest] eqn:E; [intros []|].
    rewrite <- E in *. clear E r0 rest.
    destruct (scan c (removeReminder i (reminders st))) as [x|]; simpl.
    + intros Hr. apply in_map_iff in Hr. destruct Hr as (y & <- & Hy).
      apply Hin in Hy. destruct Hy as [_ Hy].
      unfold markTriggered. now destruct (negb (String.eqb (id y) (id x))).
    + intros Hr. now apply Hin in Hr.
Qed.

(** ** The persistence effects at mount *)

(** After the mount the memory holds what the load guard let
    through, and, the storage being writable, the storage key holds
    that collection.  A stored array with an element that does not
    pass the guard is therefore not only left out of memory: the save
    effect of the first render replaces it under the key by the empty
    array.  The same happens to text that does not parse.  When the
    storage cannot be written it is left as it was. *)
Theorem mount_overwrites_rejected_storage (s : Stored) :
  fst (mount true s) = load s
  /\ snd (mount true s) = Parsed (JArr (load s))
  /\ (forall items, Exists (fun x => ~ wellFormedItem x) items ->
                    mount true (Parsed (JArr items)) = ([], Parsed (JArr [])))
  /\ mount true Unparsable = ([], Parsed (JArr []))
  /\ (forall items, Forall wellFormedItem items ->
                    mount true (Parsed (JArr items)) = (items, Parsed (JArr items)))
  /\ mount false s = (load s, s).
Proof.
  split; [|split; [|split; [|split; [|split]]]].
  - unfold mount, loadEffect, load. destruct s as [| |v]; try reflexivity.
    destruct (isReminderArray v); [|reflexivity]. now destruct v.
  - unfold mount, loadEffect, load. destruct s as [| |v]; try reflexivity.
    destruct (isReminderArray v); [|reflexivity]. now destruct v.
  - intros items Hex. unfold mount, loadEffect. simpl.
    destruct (forallb isReminderItem items) eqn:E; [|reflexivity].
    rewrite forallb_forall in E. apply Exists_exists in Hex.
    destruct Hex as (x & Hx & Hbad). exfalso. apply Hbad.
    apply isReminderItem_spec. now apply E.
  - reflexivity.
  - intros items H. unfold mount, loadEffect. simpl.
    assert (E : forallb isReminderItem items = true).
    { apply forallb_forall. rewrite Forall_forall in H. intros x Hx.
      apply isReminderItem_spec. now apply H. }
    now rewrite E.
  - unfold mount, loadEffect, load. destruct s as [| |v]; try reflexivity.
    destruct (isReminderArray v); [|reflexivity]. now destruct v.
Qed.

(** ** The dedup key from one day to the next *)

Lemma append_same_length (a b x y : string) :
  String.length a = String.length b -> (a ++ x = b ++ y)%string -> a = b.
Proof.
  revert b. induction a as [|c a IH]; intros [|d b]; simpl; try discriminate.
  - reflexivity.
  - intros Hlen Heq. injection Hlen as Hlen. injection Heq as -> Heq.
    f_equal. now apply IH.
Qed.

Lemma fires_enabled (c : Clock) (r : Reminder) : fires c r = true -> enabled r = true.
Proof. unfold fires. destruct (enabled r); [reflexivity | discriminate]. Qed.

(** The dedup key holds the date: a daily reminder rung today holds
    today's key, stays enabled, and passes the checks of the loop
    again at a tick of the same time of day on another date. *)
Theorem daily_reminder_rings_again_next_day (c c' : Clock) (st : State) (r : Reminder) :
  scan c (reminders st) = Some r ->
  repeat r = Daily ->
  time r = currentTime c' ->
  String.length (isoDate c') = String.length (isoDate c) ->
  isoDate c' <> isoDate c ->
  let r' := markTriggered (id r) (currentKey c) r in
  In r' (reminders (tick c st))
  /\ lastTriggeredKey r' = Some (currentKey c)
  /\ enabled r' = true
  /\ fires c' r' = true.
Proof.
  intros Hscan Hrep Htime Hlen Hdate r'. subst r'.
  assert (Hen : enabled r = true).
  { apply scan_Some in Hscan. destruct Hscan as (pre & post & _ & _ & Hf).
    now apply (fires_enabled c). }
  assert (Hkey : String.eqb (currentKey c) (currentKey c') = false).
  { apply String.eqb_neq. intros K. apply Hdate. symmetry.
    unfold currentKey in K. now apply (append_same_length _ _ _ _ (eq_sym Hlen)) in K. }
  assert (Hm : markTriggered (id r) (currentKey c) r
               = mkReminder (id r) (title r) (time r) (enabled r) (repeat r) (daysOfWeek r)
                            (Some (currentKey c)) (nextSnoozeAt r)).
  { unfold markTriggered. now rewrite String.eqb_refl, Hrep. }
  split.
  - rewrite (tick_fires c st r Hscan). simpl. apply in_map. now apply (scan_In c).
  - rewrite Hm. simpl. split; [reflexivity|]. split; [exact Hen|].
    unfold fires, timeDue. simpl. rewrite Hen, Htime, String.eqb_refl, Hkey, Hrep. simpl.
    now destruct (snoozeDue c' _).
Qed.

Lemma daily_reminder_rings_again_next_day_witness :
  fires next_day_08_00_02 (markTriggered "id-aspirin" (currentKey at_08_00_02) aspirin) = true.
Proof.
  destruct (daily_reminder_rings_again_next_day at_08_00_02 next_day_08_00_02
              (mkState [aspirin] None false) aspirin)
    as (_ & _ & _ & Hf); [reflexivity | reflexivity | reflexivity | reflexivity | discriminate |].
  exact Hf.
Defined.

End RemindersPageFacts.


(* ================================================================== *)
(** * Properties of the AQI page: advice and error text *)
(* ================================================================== *)

Module AqiPageFacts.
Import Aqi64 AqiPage.

(** ** The advice shown with the index *)

(** The recommendation follows the index by the bands of the
    standard in force: under the Indian standard up to 50, 100, 200,
    300, 400 and above; under the US standard up to 50, 100, 150,
    200, 300 and above.  A reading for which no index could be
    computed is labelled "-" and gets the advice of the worst band. *)
Theorem advice_follows_index_bands (country : string) (c : Components) :
  let cat := category (Some c) country in
  categoryAqi cat = aqi country (Some c)
  /\ (categoryAqi cat = None -> label cat = "-"%string)
  /\ healthRecommendation cat
     = match aqi country (Some c) with
       | None => "Hazardous: stay indoors with filtered air; avoid outdoor exposure."%string
       | Some v =>
           if String.eqb country "IN" then
             if PrimFloat.leb v 50
             then "Air quality is satisfactory. Enjoy outdoor activities."%string
             else if PrimFloat.leb v 100
             then "Acceptable; some risk for sensitive groups."%string
             else if PrimFloat.leb v 200
             then "Sensitive groups should limit prolonged outdoor exertion."%string
             else if PrimFloat.leb v 300
             then "Everyone may experience health effects; reduce outdoor exertion."%string
             else if PrimFloat.leb v 400
             then "Health alert: avoid outdoor activities; consider PM-rated mask."%string
             else "Hazardous: stay indoors with filtered air; avoid outdoor exposure."%string
           else
             if PrimFloat.leb v 50
             then "Air quality is satisfactory. Enjoy outdoor activities."%string
             else if PrimFloat.leb v 100
             then "Acceptable; some risk for sensitive groups."%string
             else if PrimFloat.leb v 150
             then "Sensitive groups should limit prolonged outdoor exertion."%string
             else if PrimFloat.leb v 200
             then "Everyone may experience health effects; reduce outdoor exertion."%string
             else if PrimFloat.leb v 300
             then "Health alert: avoid outdoor activities; consider PM-rated mask."%string
             else "Hazardous: stay indoors with filtered air; avoid outdoor exposure."%string
       end.
Proof.
  intros cat. subst cat. unfold category. cbn [categoryAqi label].
  split; [reflexivity|]. split.
  - intros ->. reflexivity.
  - unfold healthRecommendation. cbn [label aqiType].
    destruct (aqi country (Some c)) as [v|];
      [|destruct (String.eqb country "IN"); reflexivity].
    unfold labelForAqi.
    destruct (String.eqb country "IN");
      repeat match goal with |- context [PrimFloat.leb ?x ?y] => destruct (PrimFloat.leb x y) end;
      reflexivity.
Qed.

(** ** The text of a failure *)

(** The message put on the page for a failed request is never empty
    when the fallback is not: it is the message of the error object
    or the thrown string when that is not empty (not blank, for a
    string), and the fallback otherwise. *)
Theorem error_text_is_never_empty (error : Thrown) (fallback : string) :
  fallback <> ""%string ->
  getErrorMessage error fallback <> ""%string
  /\ (forall m, error = ErrorObject m -> m <> ""%string -> getErrorMessage error fallback = m)
  /\ (forall t, error = StringValue t -> JsString.trim t <> ""%string ->
                getErrorMessage error fallback = t)
  /\ (forall t, error = StringValue t -> JsString.trim t = ""%string ->
                getErrorMessage error fallback = fallback)
  /\ (error = ErrorObject ""%string \/ error = OtherValue ->
      getErrorMessage error fallback = fallback).
Proof.
  intros Hf. split; [|split; [|split; [|split]]].
  - destruct error as [m|t|]; simpl; [| |exact Hf].
    + destruct m; [exact Hf | discriminate].
    + destruct (JsString.trim t) eqn:E; simpl; [exact Hf|].
      intros ->. discriminate.
  - intros m -> Hm. simpl. destruct m; [congruence | reflexivity].
  - intros t -> Ht. simpl. destruct (JsString.trim t); [congruence | reflexivity].
  - intros t -> Ht. simpl. now rewrite Ht.
  - intros [->| ->]; reflexivity.
Qed.

Lemma error_text_is_never_empty_witness :
  getErrorMessage (StringValue "   ") "Failed to fetch AQI" = "Failed to fetch AQI"%string.
Proof.
  destruct (error_text_is_never_empty (StringValue "   ") "Failed to fetch AQI")
    as (_ & _ & _ & Hblank & _); [discriminate|].
  apply (Hblank "   "); reflexivity.
Defined.

End AqiPageFacts.


(* ================================================================== *)
(** * Properties of the symptom analysis as the dashboard uses it *)
(* ================================================================== *)

Module AnalysisFacts.
Import JsString SymptomChecker TriageFacts Dashboard.
Local Open Scope string_scope.
Local Open Scope nat_scope.

(** ** The keys of the knowledge base *)

Lemma database_keys_distinct : NoDup (map fst symptomDatabase).
Proof.
  assert (H : forall (l : list string),
             (fix distinct (xs : list string) : bool :=
                match xs with
                | [] => true
                | x :: r => negb (existsb (String.eqb x) r) && distinct r
                end) l = true -> NoDup l).
  { induction l as [|x r IH]; intros Hd; [constructor|].
    apply andb_true_iff in Hd. destruct Hd as [Hx Hr]. constructor; [|now apply IH].
    intros Hin. apply negb_true_iff in Hx. apply not_true_iff_false in Hx. apply Hx.
    apply existsb_exists. exists x. split; [exact Hin | apply String.eqb_refl]. }
  apply H. vm_compute. reflexivity.
Qed.

Lemma database_keys_normalized :
  forallb (fun e => String.eqb (normalize (fst e)) (fst e)) symptomDatabase = true.
Proof. vm_compute. reflexivity. Qed.

Lemma ownEntry_complete (k : string) (d : SymptomData) (entries : list (string * SymptomData)) :
  NoDup (map fst entries) -> In (k, d) entries -> ownEntry k entries = Some d.
Proof.
  induction entries as [|[k' d'] rest IH]; simpl; [intros _ []|].
  intros Hnd Hin. inversion Hnd as [|? ? Hnot Hrest]; subst.
  destruct Hin as [Heq|Hin].
  - injection Heq as -> ->. now rewrite String.eqb_refl.
  - destruct (String.eqb_spec k k') as [->|_]; [|now apply IH].
    exfalso. apply Hnot. apply in_map_iff. exists (k', d). split; [reflexivity | exact Hin].
Qed.

Lemma normalize_nonblank (s : string) : normalize s <> "" -> trim s <> "".
Proof.
  unfold normalize. rewrite <- toLowerCase_trim. intros H K. apply H. now rewrite K.
Qed.

(** A symptom that is a key of the knowledge base, typed in any case
    and with any white space around it, gets the entry of that key:
    from the fallback classifier, and from [analyzeSymptoms] whenever
    the remote service gives no generated text.  Every key is in
    lower case and trimmed, and no key occurs twice. *)
Theorem known_symptom_gets_its_entry
        (symptoms k : string) (d : SymptomData) (remote : Remote) :
  In (k, d) symptomDatabase ->
  normalize symptoms = k ->
  getFallbackAnalysis symptoms = ofData d
  /\ ((forall text, remote <> GeneratedText text) ->
      analyzeSymptoms symptoms remote = Returns (ofData d)).
Proof.
  intros Hin Hk.
  assert (Hget : getFallbackAnalysis symptoms = ofData d).
  { unfold getFallbackAnalysis. fold (normalize symptoms). rewrite Hk.
    unfold dbGet. now rewrite (ownEntry_complete k d _ database_keys_distinct Hin). }
  split; [exact Hget|]. intros Hremote.
  assert (Hne : k <> "").
  { pose proof database_keys_normalized as Hn. rewrite forallb_forall in Hn.
    intros ->. clear Hget Hk.
    assert (Hkeys : forallb (fun e => negb (String.eqb (fst e) "")) symptomDatabase = true)
      by (vm_compute; reflexivity).
    rewrite forallb_forall in Hkeys. specialize (Hkeys _ Hin). discriminate Hkeys. }
  unfold analyzeSymptoms.
  assert (Ht : trim symptoms <> "") by (apply normalize_nonblank; congruence).
  destruct (trim symptoms) eqn:E; [contradiction|]. simpl.
  destruct remote as [| |text|]; try (now rewrite Hget).
  exfalso. now apply (Hremote text).
Qed.

(** "HeadAche" with blanks around it, the service answering with an
    error status: the entry of "headache". *)
Lemma known_symptom_gets_its_entry_witness :
  exists d, ownEntry "headache" symptomDatabase = Some d
            /\ getFallbackAnalysis "  HeadAche " = ofData d
            /\ analyzeSymptoms "  HeadAche " NotOk = Returns (ofData d).
Proof.
  destruct (ownEntry "headache" symptomDatabase) as [d|] eqn:E; [|discriminate E].
  exists d. split; [reflexivity|].
  destruct (known_symptom_gets_its_entry "  HeadAche " "headache" d NotOk) as [Hfb Hall].
  - apply ownEntry_In. exact E.
  - reflexivity.
  - split; [exact Hfb|]. apply Hall. intros text. discriminate.
Defined.

(** ** Input that matches nothing *)

Lemma extract_unmatched (l : string) :
  dbGet (normalize l) = Absent ->
  filter (fun e => partialMatch (normalize l) (fst e)) symptomDatabase = [] ->
  extractConditionsFromSymptoms l
  = Some match firstKeyword (normalize l) keywordMap with
         | Some conds => conds
         | None => generalConditions
         end.
Proof.
  intros Habs Hnone. unfold extractConditionsFromSymptoms. fold (normalize l). rewrite Habs.
  rewrite Hnone.
  destruct (firstKeyword (normalize l) keywordMap); reflexivity.
Qed.

Lemma matchingKeys_filter (l : string) :
  matchingKeys l = [] ->
  filter (fun e => partialMatch l (fst e)) symptomDatabase = [].
Proof.
  unfold matchingKeys.
  destruct (filter (fun e => partialMatch l (fst e)) symptomDatabase); [reflexivity | discriminate].
Qed.

Lemma recommendations_unmatched (l : string) :
  dbGet (normalize l) = Absent ->
  firstPartial (normalize l) symptomDatabase = None ->
  getDefaultRecommendations l = Some (keywordRecommendations (normalize l)).
Proof.
  intros Habs Hnone. unfold getDefaultRecommendations. fold (normalize l). rewrite Habs, Hnone.
  f_equal. unfold slice0.
  pose proof (keywordRecommendations_length (normalize l)) as Hlen.
  destruct (keywordRecommendations (normalize l)) as [|a [|b [|c [|d [|e t]]]]];
    simpl in Hlen; try discriminate Hlen; reflexivity.
Qed.

Lemma advice_unmatched (sev : Severity) (l : string) :
  dbGet (normalize l) = Absent ->
  firstPartial (normalize l) symptomDatabase = None ->
  getDefaultAdvice sev (Some l) = Some (severityAdvice sev).
Proof.
  intros Habs Hnone. unfold getDefaultAdvice. fold (normalize l). rewrite Habs, Hnone.
  destruct (negb (truthy l)); reflexivity.
Qed.

(** An input that is no key, no inherited member, and has no
    substring match with a key in either direction, is answered from
    the keyword tables alone: the conditions of the first body-part
    keyword it contains (or the general entry), the four
    recommendations of its first symptom keyword (or the generic
    four), the severity read off its wording, and the advice of that
    severity. *)
Theorem unmatched_input_uses_keyword_tables (symptoms : string) :
  dbGet (normalize symptoms) = Absent ->
  matchingKeys (normalize symptoms) = [] ->
  getFallbackAnalysis symptoms
  = mkSymptomAnalysis
      (Some match firstKeyword (normalize symptoms) keywordMap with
            | Some conds => conds
            | None => generalConditions
            end)
      (Some (keywordRecommendations (normalize symptoms)))
      (Some (assessSeverity (normalize symptoms)))
      (Some (severityAdvice (assessSeverity (normalize symptoms)))).
Proof.
  intros Habs Hnone.
  pose proof (proj2 (firstPartial_None (normalize symptoms)) Hnone) as Hfp.
  pose proof (matchingKeys_filter (normalize symptoms) Hnone) as Hfilter.
  pose proof (normalize_idem symptoms) as Hidem.
  unfold getFallbackAnalysis. fold (normalize symptoms). rewrite Habs, Hfp.
  rewrite (extract_unmatched (normalize symptoms)),
    (recommendations_unmatched (normalize symptoms)),
    (advice_unmatched _ (normalize symptoms)); rewrite ?Hidem; try assumption.
  reflexivity.
Qed.

Lemma unmatched_input_uses_keyword_tables_witness :
  possibleConditions (getFallbackAnalysis " Itchy EYE ")
  = Some ["Eye strain"; "Dry eyes"; "Conjunctivitis"].
Proof.
  rewrite (unmatched_input_uses_keyword_tables " Itchy EYE "); reflexivity.
Defined.

(** ** The fields of an analysis *)

Lemma normalize_toLowerCase (s : string) : normalize (toLowerCase s) = normalize s.
Proof. unfold normalize. now rewrite toLowerCase_idem. Qed.

Lemma dbGet_Own_In (k : string) (d : SymptomData) :
  dbGet k = Own d -> In (k, d) symptomDatabase.
Proof.
  unfold dbGet. destruct (ownEntry k symptomDatabase) as [d'|] eqn:E.
  - intros [= <-]. now apply ownEntry_In.
  - destruct (existsb _ _); discriminate.
Qed.

Lemma extractConditions_defined (l : string) :
  dbGet (normalize l) <> Inherited ->
  exists cs, extractConditionsFromSymptoms l = Some cs /\ cs <> [].
Proof.
  intros Hni. destruct (dbGet (normalize l)) as [d| |] eqn:Hget; [|contradiction|].
  - unfold extractConditionsFromSymptoms. fold (normalize l). rewrite Hget.
    exists (conditions d). split; [reflexivity|].
    exact (proj1 (entry_ok _ d (dbGet_Own_In _ d Hget))).
  - now apply extractConditions_ok.
Qed.

Lemma defaultRecommendations_defined (l : string) :
  dbGet (normalize l) <> Inherited ->
  exists rs, getDefaultRecommendations l = Some rs /\ rs <> [] /\ List.length rs <= 4.
Proof.
  intros Hni. destruct (dbGet (normalize l)) as [d| |] eqn:Hget; [|contradiction|].
  - unfold getDefaultRecommendations. fold (normalize l). rewrite Hget.
    exists (dataRecommendations d). split; [reflexivity|].
    exact (proj2 (entry_ok _ d (dbGet_Own_In _ d Hget))).
  - now apply defaultRecommendations_ok.
Qed.

Lemma listItems_length (g : string) : List.length (listItems g) <= 3.
Proof. unfold listItems, slice0. apply firstn_le_length. Qed.

Lemma ofData_fields (k : string) (d : SymptomData) :
  In (k, d) symptomDatabase ->
  exists cs rs sev adv,
    ofData d = mkSymptomAnalysis (Some cs) (Some rs) (Some sev) (Some adv)
    /\ cs <> [] /\ List.length rs <= 4 /\ rs <> [].
Proof.
  intros Hin. destruct (entry_ok k d Hin) as (Hc & Hr & Hlen).
  exists (conditions d), (dataRecommendations d), (dataSeverity d), (dataAdvice d).
  split; [reflexivity|]. split; [exact Hc|]. split; [exact Hlen | exact Hr].
Qed.

(** What the fallback classifier returns when the input names no
    inherited member. *)
Lemma fallback_fields (symptoms : string) :
  dbGet (normalize symptoms) <> Inherited ->
  exists cs rs sev adv,
    getFallbackAnalysis symptoms
    = mkSymptomAnalysis (Some cs) (Some rs) (Some sev) (Some adv)
    /\ cs <> [] /\ List.length rs <= 4 /\ rs <> [].
Proof.
  intros Hni. unfold getFallbackAnalysis. fold (normalize symptoms).
  destruct (dbGet (normalize symptoms)) as [d| |] eqn:Hget; [|contradiction|].
  - apply (ofData_fields (normalize symptoms)). apply dbGet_Own_In. exact Hget.
  - destruct (firstPartial (normalize symptoms) symptomDatabase) as [[k d]|] eqn:E.
    + apply firstPartial_Some in E. apply (ofData_fields k). exact (proj1 E).
    + assert (Habs : dbGet (normalize (normalize symptoms)) = Absent)
        by (rewrite normalize_idem; exact Hget).
      destruct (extractConditions_ok _ Habs) as (cs & -> & Hcs).
      destruct (defaultRecommendations_ok _ Habs) as (rs & -> & Hrs & Hlen).
      destruct (defaultAdvice_ok (assessSeverity (normalize symptoms)) _ Habs) as (adv & ->).
      exists cs, rs, (assessSeverity (normalize symptoms)), adv.
      split; [reflexivity|]. split; [exact Hcs|]. split; [exact Hlen | exact Hrs].
Qed.

(** What [parseAIResponse] returns when the input names no inherited
    member. *)
Lemma parseAIResponse_fields (text symptoms : string) :
  dbGet (normalize symptoms) <> Inherited ->
  exists cs rs sev adv,
    parseAIResponse text symptoms
    = Some (mkSymptomAnalysis (Some cs) (Some rs) (Some sev) (Some adv))
    /\ cs <> [] /\ List.length rs <= 4.
Proof.
  intros Hni.
  assert (Hni' : dbGet (normalize (toLowerCase symptoms)) <> Inherited)
    by now rewrite normalize_toLowerCase.
  destruct (extractConditions_defined _ Hni') as (cs0 & Hcs0 & Hne0).
  destruct (defaultRecommendations_defined _ Hni') as (rs0 & Hrs0 & _ & Hlen0).
  unfold parseAIResponse. rewrite Hcs0, Hrs0.
  set (sev := if includes (toLowerCase text) "severe" || includes (toLowerCase text) "emergency"
              then Severe
              else if includes (toLowerCase text) "mild" || includes (toLowerCase text) "minor"
                   then Mild else assessSeverity (toLowerCase symptoms)).
  assert (Hadv : exists adv, match capture "advice" false text with
                             | Some g => Some (trim g)
                             | None => getDefaultAdvice sev None
                             end = Some adv).
  { destruct (capture "advice" false text); simpl; eauto. }
  destruct Hadv as (adv & ->).
  assert (Hrecs : exists rs, match capture "recommendation" true text with
                             | Some g => Some (listItems g)
                             | None => Some rs0
                             end = Some rs /\ List.length rs <= 4).
  { destruct (capture "recommendation" true text) as [g|].
    - exists (listItems g). split; [reflexivity|].
      pose proof (listItems_length g). lia.
    - exists rs0. now split. }
  destruct Hrecs as (rs & -> & Hlen).
  destruct (capture "condition" true text) as [g|].
  - eexists _, rs, sev, adv. split; [reflexivity|]. split; [|exact Hlen].
    destruct (listItems g); simpl; discriminate.
  - eexists _, rs, sev, adv. split; [reflexivity|]. split; [|exact Hlen].
    destruct cs0; [contradiction | simpl; discriminate].
Qed.

(** For an input that is not blank and names no inherited member,
    [analyzeSymptoms] returns, whatever the remote service does, an
    analysis with its four fields present, at least one condition and
    at most four recommendations; the panel can render it.  When
    the service gives no generated text there is at least one
    recommendation as well. *)
Theorem analysis_has_every_field (symptoms : string) (remote : Remote) :
  trim symptoms <> "" ->
  dbGet (normalize symptoms) <> Inherited ->
  exists cs rs sev adv,
    analyzeSymptoms symptoms remote
    = Returns (mkSymptomAnalysis (Some cs) (Some rs) (Some sev) (Some adv))
    /\ cs <> [] /\ List.length rs <= 4
    /\ renders (mkSymptomAnalysis (Some cs) (Some rs) (Some sev) (Some adv)) = true
    /\ ((forall text, remote <> GeneratedText text) -> rs <> []).
Proof.
  intros Hne Hni.
  pose proof (fallback_fields symptoms Hni) as Hfb.
  destruct Hfb as (cs & rs & sev & adv & Hfb & Hcne & Hlen & Hrne).
  assert (Hfall : exists cs rs sev adv,
             Returns (getFallbackAnalysis symptoms)
             = Returns (mkSymptomAnalysis (Some cs) (Some rs) (Some sev) (Some adv))
             /\ cs <> [] /\ List.length rs <= 4
             /\ renders (mkSymptomAnalysis (Some cs) (Some rs) (Some sev) (Some adv)) = true
             /\ ((forall text, remote <> GeneratedText text) -> rs <> [])).
  { exists cs, rs, sev, adv. rewrite Hfb.
    split; [reflexivity|]. split; [exact Hcne|]. split; [exact Hlen|].
    split; [reflexivity|]. intros _. exact Hrne. }
  unfold analyzeSymptoms.
  destruct (trim symptoms) eqn:E; [contradiction|]. simpl.
  destruct remote as [| |text|]; try exact Hfall.
  destruct (truthy text); [|exact Hfall].
  destruct (parseAIResponse_fields text symptoms Hni)
    as (cs' & rs' & sev' & adv' & -> & Hcne' & Hlen').
  exists cs', rs', sev', adv'.
  split; [reflexivity|]. split; [exact Hcne'|]. split; [exact Hlen'|].
  split; [reflexivity|]. intros K. exfalso. exact (K text eq_refl).
Qed.

Lemma analysis_has_every_field_witness :
  exists cs rs sev adv,
    analyzeSymptoms "sore eyes" (GeneratedText "Recommendations: ;")
    = Returns (mkSymptomAnalysis (Some cs) (Some rs) (Some sev) (Some adv))
    /\ cs <> [] /\ List.length rs <= 4.
Proof.
  destruct (analysis_has_every_field "sore eyes" (GeneratedText "Recommendations: ;"))
    as (cs & rs & sev & adv & H & Hc & Hl & _).
  - vm_compute. discriminate.
  - vm_compute. discriminate.
  - exists cs, rs, sev, adv. split; [exact H|]. split; [exact Hc | exact Hl].
Defined.

(** ** The panel of the dashboard *)

(** With a blank input the handler shows the error toast and leaves
    the rest of the panel as it is.  With any other input it ends
    with an analysis on the panel, the success toast and the spinner
    off: the failure toast of its [catch] block is never shown. *)
Theorem panel_never_shows_failure (remote : Remote) (p : Panel) :
  (trim (symptomInput p) = "" ->
   handleAnalyzeSymptoms remote p
   = mkPanel (symptomInput p) (isAnalyzing p) (analysisResult p)
             (toasts p ++ [ToastError "Please describe your symptoms"]))
  /\ (trim (symptomInput p) <> "" ->
      exists a,
        analyzeSymptoms (symptomInput p) remote = Returns a
        /\ handleAnalyzeSymptoms remote p
           = mkPanel (symptomInput p) false (Some a)
                     (toasts p ++ [ToastSuccess "Symptom analysis completed"])).
Proof.
  unfold handleAnalyzeSymptoms. split.
  - intros ->. reflexivity.
  - intros Hne.
    assert (Hret : exists a, analyzeSymptoms (symptomInput p) remote = Returns a).
    { unfold analyzeSymptoms.
      destruct (trim (symptomInput p)) eqn:E; [contradiction|]. simpl.
      destruct remote as [| |text|]; eauto.
      destruct (truthy text); eauto.
      destruct (parseAIResponse text (symptomInput p)); eauto. }
    destruct Hret as (a & Ha). exists a. split; [exact Ha|].
    rewrite Ha. destruct (trim (symptomInput p)); [contradiction | reflexivity].
Qed.

(** ** Substrings *)

Lemma prefix_app (needle post : string) : prefix needle (needle ++ post) = true.
Proof.
  induction needle as [|a r IH]; simpl; [destruct post; reflexivity|].
  destruct (ascii_dec a a); [exact IH | contradiction].
Qed.

Lemma prefix_inv (needle hay : string) :
  prefix needle hay = true -> exists post, hay = needle ++ post.
Proof.
  revert hay. induction needle as [|a r IH]; intros hay.
  - intros _. now exists hay.
  - destruct hay as [|b hay']; simpl; [discriminate|].
    destruct (ascii_dec a b) as [->|]; [|discriminate].
    intros H. destruct (IH hay' H) as (post & ->). now exists post.
Qed.

Lemma includes_unfold (hay needle : string) :
  includes hay needle
  = prefix needle hay || match hay with
                         | EmptyString => false
                         | String _ r => includes r needle
                         end.
Proof. destruct hay; reflexivity. Qed.

(** [hay.includes(needle)] holds exactly when [needle] occurs in [hay]. *)
Lemma includes_spec (hay needle : string) :
  includes hay needle = true <-> exists pre post, hay = pre ++ needle ++ post.
Proof.
  split.
  - induction hay as [|c r IH]; rewrite includes_unfold; intros H;
      apply orb_true_iff in H; destruct H as [H|H]; try discriminate.
    + apply prefix_inv in H. destruct H as (post & ->). now exists "", post.
    + apply prefix_inv in H. destruct H as (post & ->). now exists "", post.
    + destruct (IH H) as (pre & post & ->). now exists (String c pre), post.
  - intros (pre & post & ->). induction pre as [|c pre IH]; rewrite includes_unfold.
    + simpl. now rewrite prefix_app.
    + simpl. rewrite IH. apply orb_true_r.
Qed.

Lemma toLowerCase_app (a b : string) :
  toLowerCase (a ++ b) = toLowerCase a ++ toLowerCase b.
Proof. induction a as [|c r IH]; simpl; [reflexivity | now rewrite IH]. Qed.

(** ** Severity by wording *)

(** [assessSeverity] answers "severe" exactly when the text contains
    one of the severe keywords, whatever else it contains, and "mild"
    exactly when it contains none of them and contains one of the
    mild keywords.  An answer of the remote service that contains
    "severe" or "emergency", in any letter case, makes the parsed
    severity "severe" for every input. *)
Theorem severe_wording_wins (s : string) :
  (assessSeverity s = Severe <->
   exists k pre post, In k severeKeywords /\ s = pre ++ k ++ post)
  /\ (assessSeverity s = Mild <->
      (forall k, In k severeKeywords -> includes s k = false)
      /\ exists k pre post, In k mildKeywords /\ s = pre ++ k ++ post)
  /\ (forall w pre post symptoms a,
         toLowerCase w = "severe" \/ toLowerCase w = "emergency" ->
         parseAIResponse (pre ++ w ++ post) symptoms = Some a ->
         severity a = Some Severe).
Proof.
  assert (Hex : forall ks, existsb (fun keyword => includes s keyword) ks = true
                           <-> exists k pre post, In k ks /\ s = pre ++ k ++ post).
  { intros ks. rewrite existsb_exists. split.
    - intros (k & Hin & Hk). apply includes_spec in Hk.
      destruct Hk as (pre & post & ->). now exists k, pre, post.
    - intros (k & pre & post & Hin & ->). exists k. split; [exact Hin|].
      apply includes_spec. now exists pre, post. }
  split; [|split].
  - rewrite <- Hex. unfold assessSeverity.
    destruct (existsb _ severeKeywords); [tauto|].
    destruct (existsb _ mildKeywords); split; discriminate.
  - rewrite <- Hex. unfold assessSeverity.
    destruct (existsb (fun keyword => includes s keyword) severeKeywords) eqn:Es.
    + split; [discriminate|]. intros [Hno _]. exfalso.
      apply existsb_exists in Es. destruct Es as (k & Hin & Hk).
      rewrite (Hno k Hin) in Hk. discriminate.
    + assert (Hno : forall k, In k severeKeywords -> includes s k = false).
      { intros k Hin. destruct (includes s k) eqn:E; [|reflexivity].
        apply not_true_iff_false in Es. exfalso. apply Es.
        apply existsb_exists. now exists k. }
      destruct (existsb _ mildKeywords); split.
      * intros _. split; [exact Hno | reflexivity].
      * reflexivity.
      * discriminate.
      * intros [_ K]. discriminate K.
  - intros w pre post symptoms a Hw. unfold parseAIResponse.
    assert (Hin : includes (toLowerCase (pre ++ w ++ post)) "severe"
                  || includes (toLowerCase (pre ++ w ++ post)) "emergency" = true).
    { rewrite !toLowerCase_app. apply orb_true_iff.
      destruct Hw as [-> | ->]; [left | right]; apply includes_spec; eauto. }
    rewrite Hin.
    destruct (match capture "condition" true (pre ++ w ++ post) with
              | Some g => Some (listItems g)
              | None => extractConditionsFromSymptoms (toLowerCase symptoms)
              end); [|discriminate].
    intros [= <-]. reflexivity.
Qed.

(** ** The items of a labelled list *)

Lemma trimStart_chars (c : ascii) (s : string) :
  In c (list_ascii_of_string (trimStart s)) -> In c (list_ascii_of_string s).
Proof.
  induction s as [|a r IH]; simpl; [trivial|].
  destruct (isWhiteSpace a); simpl; [intros H; right; now apply IH | trivial].
Qed.

Lemma trimEnd_chars (c : ascii) (s : string) :
  In c (list_ascii_of_string (trimEnd s)) -> In c (list_ascii_of_string s).
Proof.
  induction s as [|a r IH]; simpl; [trivial|].
  destruct (trimEnd r) as [|b r'] eqn:E.
  - destruct (isWhiteSpace a); simpl; [intros [] | intros [H|[]]; now left].
  - simpl. intros [H|H]; [now left | right; now apply IH].
Qed.

Lemma trim_chars (c : ascii) (s : string) :
  In c (list_ascii_of_string (trim s)) -> In c (list_ascii_of_string s).
Proof. unfold trim. intros H. now apply trimStart_chars, trimEnd_chars. Qed.

Lemma split_parts (sep : ascii -> bool) (s p : string) (c : ascii) :
  In p (split sep s) -> In c (list_ascii_of_string p) -> sep c = false.
Proof.
  revert p. induction s as [|a r IH]; intros p; simpl.
  - intros [<-|[]] [].
  - destruct (sep a) eqn:E.
    + intros [<-|Hin]; [intros [] | now apply IH].
    + destruct (split sep r) as [|h t] eqn:Es.
      * intros [<-|[]] [<-|[]]. exact E.
      * intros [<-|Hin].
        -- intros [<-|Hc]; [exact E|]. apply (IH h); [now left | exact Hc].
        -- apply IH. now right.
Qed.

Lemma firstn_member {A : Type} (n : nat) (l : list A) (x : A) :
  In x (firstn n l) -> In x l.
Proof.
  revert l. induction n as [|n IH]; intros [|y l]; simpl; try tauto.
  intros [H|H]; [now left | right; now apply IH].
Qed.

Lemma listItems_In (g x : string) :
  In x (listItems g) ->
  exists p, In p (split isListSeparator g) /\ x = trim p /\ truthy x = true.
Proof.
  unfold listItems, slice0. intros H. apply firstn_member in H.
  apply filter_In in H. destruct H as [H Ht].
  apply in_map_iff in H. destruct H as (p & <- & Hp). now exists p.
Qed.

(** When the answer of the remote service carries a "conditions"
    label, the conditions of the analysis are the items of the
    labelled text: at most three, each one non-empty, without white
    space around it and without a comma or semicolon inside; when
    the labelled text has no such item, the single condition
    "General symptoms". *)
Theorem labelled_conditions_are_clean (text symptoms g : string) :
  capture "condition" true text = Some g ->
  (exists a, parseAIResponse text symptoms = Some a
             /\ possibleConditions a
                = Some match listItems g with
                       | [] => ["General symptoms"]
                       | items => items
                       end)
  /\ List.length (listItems g) <= 3
  /\ forall x, In x (listItems g) ->
               x <> "" /\ trim x = x /\ noSeparator x = true.
Proof.
  intros Hcap. split; [|split].
  - unfold parseAIResponse. rewrite Hcap. eexists. split; [reflexivity|]. simpl.
    now destruct (listItems g).
  - apply listItems_length.
  - intros x Hx. apply listItems_In in Hx. destruct Hx as (p & Hp & -> & Ht).
    split; [|split].
    + intros K. rewrite K in Ht. discriminate.
    + apply trim_idem.
    + unfold noSeparator. apply negb_true_iff. apply not_true_iff_false.
      intros K. apply existsb_exists in K. destruct K as (c & Hc & Hsep).
      apply trim_chars in Hc.
      rewrite (split_parts isListSeparator g p c Hp Hc) in Hsep. discriminate.
Qed.

Lemma labelled_conditions_are_clean_witness :
  exists a, parseAIResponse "Conditions: Flu ,, Common cold; | Advice: rest" "fever" = Some a
            /\ possibleConditions a = Some ["Flu"; "Common cold"].
Proof.
  destruct (labelled_conditions_are_clean "Conditions: Flu ,, Common cold; | Advice: rest"
              "fever" "Flu ,, Common cold; ") as ((a & Ha & Hc) & _); [reflexivity|].
  exists a. split; [exact Ha | exact Hc].
Defined.

End AnalysisFacts.
